(** * NanoSploit: the HIL emulator and the attack-replay pipeline

    A shallow embedding of [nanosploit/core/hil_emulator.py] and
    [nanosploit/ops/attack_replay.py], with the properties their
    specification states about them.

    Python values are modelled as follows.
    - [str] is [string]; [str.lower] is the ASCII lowering [lower] (the
      three keywords the risk rules look for are ASCII letters). [repr]
      is Python's [repr] on text whose characters lie below 256.
    - A dict with a fixed set of optional keys is a record of [option]
      fields; [d.get(k, v)] is [default v] on the field.
    - A dict used as a registry or as the file store is a [gmap string _].
    - [int] is [Z]; the risk score is a binary64 [float], as in Python.
    - Code that raises, catches and has side effects runs in the monad
      [Py S A := S -> (exn + A) * S] over the state [S] of the world.
    - The operating system is modelled as far as a call depends on what
      the file store holds (what exists, and with which permission bits)
      and on the choices gathered in [Env]; a device that fails, such as a
      disk that is full, is not. *)

From Stdlib Require Import ZArith String Ascii List Bool Lia PrimFloat DecimalString.
From stdpp Require Import gmap strings list fin_maps.

Set Warnings "-inexact-float,-register-all".

(** ** Python strings *)

Module PyStr.

Definition is_upper (c : ascii) : bool :=
  let n := N_of_ascii c in (65 <=? n)%N && (n <=? 90)%N.

Definition is_lower (c : ascii) : bool :=
  let n := N_of_ascii c in (97 <=? n)%N && (n <=? 122)%N.

Definition lower_ascii (c : ascii) : ascii :=
  if is_upper c then ascii_of_N (N_of_ascii c + 32) else c.

Definition upper_ascii (c : ascii) : ascii :=
  if is_lower c then ascii_of_N (N_of_ascii c - 32) else c.

(** [s.lower()] *)
Fixpoint lower (s : string) : string :=
  match s with
  | EmptyString => EmptyString
  | String c t => String (lower_ascii c) (lower t)
  end.

(** [s.startswith(p)] *)
Fixpoint startswith (p s : string) : bool :=
  match p, s with
  | EmptyString, _ => true
  | String a p', String b s' => if Ascii.eqb a b then startswith p' s' else false
  | String _ _, EmptyString => false
  end.

(** [needle in hay] *)
Fixpoint contains (needle hay : string) : bool :=
  if startswith needle hay then true
  else match hay with
       | EmptyString => false
       | String _ t => contains needle t
       end.

(** [s.replace(a, b)] for one-character [a] and [b] *)
Fixpoint replace_char (a b : ascii) (s : string) : string :=
  match s with
  | EmptyString => EmptyString
  | String c t => String (if Ascii.eqb c a then b else c) (replace_char a b t)
  end.

Definition has_slash (s : string) : bool := contains "/" s.

(** [os.path.basename(p)]: what follows the last slash *)
Fixpoint basename (p : string) : string :=
  match p with
  | EmptyString => EmptyString
  | String c t =>
      if has_slash t then basename t
      else if Ascii.eqb c "/" then t else p
  end.

Definition endswith_slash (s : string) : bool :=
  match String.get (String.length s - 1) s with
  | Some c => Ascii.eqb c "/"
  | None => false
  end.

(** [os.path.join(a, b)] *)
Definition join (a b : string) : string :=
  if startswith "/" b then b
  else if (String.eqb a "" || endswith_slash a)%bool then a +:+ b
  else a +:+ "/" +:+ b.

(** [str(n)] for an [int] *)
Definition str_of_Z (n : Z) : string := NilZero.string_of_int (Z.to_int n).

(** [f"{x}"] where [x] is a string or [None] *)
Definition fmt_opt (x : option string) : string :=
  match x with Some s => s | None => "None" end.

(** Truth value of an optional string: [None] and the empty string are false. *)
Definition truthy_str (x : option string) : bool :=
  match x with
  | Some s => negb (String.eqb s "")
  | None => false
  end.

(** A character [repr] leaves as it is: the printable ones, which below
    256 are 32 to 126 and 161 to 255 without 173. *)
Definition printable (c : ascii) : bool :=
  let n := N_of_ascii c in
  ((32 <=? n)%N && (n <? 127)%N || (161 <=? n)%N && negb (n =? 173)%N)%bool.

Definition hex_digit (n : N) : ascii :=
  if (n <? 10)%N then ascii_of_N (48 + n) else ascii_of_N (87 + n).

(** One character of [repr(s)] between the quotes [quote]. *)
Definition repr_char (quote c : ascii) : string :=
  let n := N_of_ascii c in
  if (Ascii.eqb c quote || Ascii.eqb c "092")%bool then String "092" (String c "")
  else if Ascii.eqb c "009" then String "092" "t"
  else if Ascii.eqb c "010" then String "092" "n"
  else if Ascii.eqb c "013" then String "092" "r"
  else if printable c then String c ""
  else String "092" (String "x" (String (hex_digit (n / 16)) (String (hex_digit (n mod 16)) ""))).

Fixpoint repr_body (quote : ascii) (s : string) : string :=
  match s with
  | EmptyString => EmptyString
  | String c t => repr_char quote c +:+ repr_body quote t
  end.

(** [repr(s)]: in single quotes, or in double quotes when [s] has a
    single quote and no double quote. *)
Definition repr (s : string) : string :=
  let quote : ascii :=
    if (contains (String "039" "") s && negb (contains (String "034" "") s))%bool
    then "034"%char else "039"%char in
  String quote (repr_body quote s +:+ String quote "").

(** [v] is [kw] with each of its letters in either case. *)
Inductive case_variant : string -> string -> Prop :=
| cv_nil : case_variant "" ""
| cv_cons c c' kw v :
    c' = c \/ c' = upper_ascii c ->
    case_variant kw v ->
    case_variant (String c kw) (String c' v).

(** [s] has the keyword [kw] as a substring, in any letter case. *)
Definition occurs_ci (kw s : string) : Prop :=
  exists pre v post, s = pre +:+ v +:+ post /\ case_variant kw v.

End PyStr.

(** ** Exceptions and the monad of effectful code *)

Module PyM.

Inductive exn_class :=
| FileNotFoundError
| FileExistsError
| PermissionError
| IsADirectoryError
| NotADirectoryError
| SameFileError
| OSError
| ValueError
| KeyError
| TimeoutExpired.

(** An exception object; [exn_msg] is what [str(e)] gives. *)
Record exn := Exn { exn_kind : exn_class; exn_msg : string }.

(** A computation over the state [S]: it raises or returns, and leaves a state. *)
Definition Py (S A : Type) : Type := S -> (exn + A) * S.

#[global] Instance py_ret {S} : MRet (Py S) := fun A (a : A) s => (inr a, s).

#[global] Instance py_bind {S} : MBind (Py S) :=
  fun A B (k : A -> Py S B) (m : Py S A) s =>
    match m s with
    | (inl e, s') => (inl e, s')
    | (inr a, s') => k a s'
    end.

Definition raise {S A} (e : exn) : Py S A := fun s => (inl e, s).

(** [try: body  except Exception as e: handler e] *)
Definition try_except {S A} (body : Py S A) (handler : exn -> Py S A) : Py S A :=
  fun s =>
    match body s with
    | (inl e, s') => handler e s'
    | (inr a, s') => (inr a, s')
    end.

(** [try: body  finally: cleanup]: the cleanup runs on every exit of the
    body; an exception of the cleanup replaces the body's outcome. *)
Definition try_finally {S A} (body : Py S A) (cleanup : Py S unit) : Py S A :=
  fun s =>
    let '(r, s1) := body s in
    match cleanup s1 with
    | (inl e, s2) => (inl e, s2)
    | (inr _, s2) => (r, s2)
    end.

(** A relation between the state before and the state after that every
    run of a computation maintains. *)
Definition keeps {S A} (R : S -> S -> Prop) (m : Py S A) : Prop :=
  forall s, R s (m s).2.

End PyM.

(** ** core/hil_emulator.py *)

Module HIL.
Import PyStr PyM.

(** *** The world outside the interpreter *)

(** The permission bits of a file, as far as they bear on the process, which
    is not privileged: whether the file is the process's own, the read and
    write bits of the owner, and the read and write bits that apply to the
    process when the file is another user's. *)
Record perms := {
  mine : bool;
  user_r : bool;
  user_w : bool;
  other_r : bool;
  other_w : bool;
}.

Definition may_read (m : perms) : bool := if mine m then user_r m else other_r m.

Definition may_write (m : perms) : bool := if mine m then user_w m else other_w m.

(** The bits of [m] on a file of the process's own. *)
Definition as_own (m : perms) : perms :=
  {| mine := true; user_r := user_r m; user_w := user_w m;
     other_r := other_r m; other_w := other_w m |}.

(** A file of the process's own that it may read and write. *)
Definition own_rw : perms :=
  {| mine := true; user_r := true; user_w := true; other_r := true; other_w := false |}.

(** The file store maps a path to what is there. It has no links: two
    paths name one file only when they are the same path. *)
Inductive node :=
| File (m : perms) (data : string)
| Dir.

(** [Killed] is the state [proc.kill()] would leave a child in. *)
Inductive proc_status :=
| Running
| Exited (code : Z)
| Killed.

Record proc := Proc { proc_cmd : string; proc_state : proc_status }.

(** What the operating system has done for the program, in order; a call
    that raises leaves no event. *)
Inductive event :=
| EvMkdtemp (d : string)
| EvCopy (src dst : string)
| EvSpawn (cmd : string)
| EvRmtree (d : string).

(** The dict [_run_qemu] and [_run_fpga] return, with [run]'s [risk_score]. *)
Record ExecutionResult := {
  stdout : option string;
  stderr : option string;
  returncode : option Z;
  error : option string;
  mode : string;
  risk_score : option float;
}.

Inductive log_record :=
| Info (msg : string)
| Error (msg : string)
| InfoResult (prefix : string) (r : ExecutionResult)
| InfoScore (prefix : string) (score : float).

Record World := {
  fs : gmap string node;
  procs : list proc;
  trace : list event;
  log : list log_record;
}.

(** What the child does once started: it ends by itself within the wait,
    with its output already decoded to text, or it does not. The child
    leaves the file store as it is. *)
Inductive run_behaviour :=
| Completes (out err : string) (code : Z)
| Hangs.

(** [SpawnFails]: the call of [Popen] raises, with this message: the
    shell itself cannot be started. The command is run through the shell, so
    a binary the shell does not find is a child that ends by itself, with
    the shell's message on stderr and the exit status 127. *)
Inductive child_behaviour :=
| SpawnFails (msg : string)
| Spawns (b : run_behaviour).

(** The choices that are not the program's: the names [tempfile] draws,
    the error with which it finds no directory to work in, the error with
    which the system refuses to make a directory of an unused name, and
    what a command line does when it is run. *)
Record Env := {
  tmp_names : list string;
  tempdir_error : option exn;
  mkdir_error : string -> option exn;
  child : string -> child_behaviour;
}.

Definition set_fs (f : gmap string node -> gmap string node) (w : World) : World :=
  {| fs := f (fs w); procs := procs w; trace := trace w; log := log w |}.

Definition set_procs (f : list proc -> list proc) (w : World) : World :=
  {| fs := fs w; procs := f (procs w); trace := trace w; log := log w |}.

Definition emit (e : event) (w : World) : World :=
  {| fs := fs w; procs := procs w; trace := (trace w ++ [e])%list; log := log w |}.

Definition logging (r : log_record) : Py World unit :=
  fun w => (inr tt, {| fs := fs w; procs := procs w; trace := trace w; log := (log w ++ [r])%list |}).

(** [os.path.isfile(p)] *)
Definition isfile (p : string) : Py World bool :=
  fun w => (inr (match fs w !! p with Some (File _ _) => true | _ => false end), w).

Definition is_dir (m : gmap string node) (p : string) : bool :=
  match m !! p with Some Dir => true | _ => false end.

Definition is_free (m : gmap string node) (p : string) : bool :=
  match m !! p with None => true | Some _ => false end.

(** [tempfile.mkdtemp()]: the call raises when no directory to work in is
    found. Otherwise the drawn names are tried in turn: a name that exists
    is passed over, and the first that does not is made a directory, unless
    the system refuses it, which raises. When every draw exists the call
    raises too. *)
Definition mkdtemp (env : Env) : Py World string :=
  fun w =>
    match tempdir_error env with
    | Some e => (inl e, w)
    | None =>
        match List.find (is_free (fs w)) (tmp_names env) with
        | Some d =>
            match mkdir_error env d with
            | Some e => (inl e, w)
            | None => (inr d, emit (EvMkdtemp d) (set_fs (insert d Dir) w))
            end
        | None =>
            (inl (Exn FileExistsError "[Errno 17] No usable temporary directory name found"), w)
        end
    end.

(** [shutil.copy2(src, dst)]: a directory as destination receives the file
    under the source's base name. The source is opened for reading, then
    the destination for writing, which a directory or a file that may not
    be written refuses. The data is written, and the destination is given
    the times and the permission bits of the source; on a file of another
    user this last step is refused, after the data was written. A new file
    is the process's own. *)
Definition copy2 (src dst : string) : Py World unit :=
  fun w =>
    let dst' := if is_dir (fs w) dst then join dst (basename src) else dst in
    match fs w !! src with
    | None =>
        (inl (Exn FileNotFoundError ("[Errno 2] No such file or directory: " +:+ repr src)), w)
    | Some Dir =>
        (inl (Exn IsADirectoryError ("[Errno 21] Is a directory: " +:+ repr src)), w)
    | Some (File m data) =>
        if String.eqb src dst'
        then (inl (Exn SameFileError (repr src +:+ " and " +:+ repr dst' +:+ " are the same file")), w)
        else if negb (may_read m)
        then (inl (Exn PermissionError ("[Errno 13] Permission denied: " +:+ repr src)), w)
        else
          match fs w !! dst' with
          | Some Dir =>
              (inl (Exn IsADirectoryError ("[Errno 21] Is a directory: " +:+ repr dst')), w)
          | Some (File m' _) =>
              if negb (may_write m')
              then (inl (Exn PermissionError ("[Errno 13] Permission denied: " +:+ repr dst')), w)
              else if mine m'
              then (inr tt, emit (EvCopy src dst') (set_fs (insert dst' (File (as_own m) data)) w))
              else (inl (Exn PermissionError "[Errno 1] Operation not permitted"),
                    set_fs (insert dst' (File m' data)) w)
          | None =>
              (inr tt, emit (EvCopy src dst') (set_fs (insert dst' (File (as_own m) data)) w))
          end
    end.

(** [p] is [d] or lies below it. *)
Definition under (d p : string) : bool :=
  (String.eqb p d || startswith (d +:+ "/") p)%bool.

(** [shutil.rmtree(d)] *)
Definition rmtree (d : string) : Py World unit :=
  fun w =>
    match fs w !! d with
    | None =>
        (inl (Exn FileNotFoundError ("[Errno 2] No such file or directory: " +:+ repr d)), w)
    | Some (File _ _) =>
        (inl (Exn NotADirectoryError ("[Errno 20] Not a directory: " +:+ repr d)), w)
    | Some Dir =>
        (inr tt, emit (EvRmtree d) (set_fs (filter (fun kv => under d kv.1 = false)) w))
    end.

(** The object [subprocess.Popen] returns. *)
Record Popen_obj := { pid : nat; args : string; behaviour : run_behaviour }.

(** [subprocess.Popen(cmd, shell=True, stdout=PIPE, stderr=PIPE)] *)
Definition Popen (env : Env) (cmd : string) : Py World Popen_obj :=
  fun w =>
    match child env cmd with
    | SpawnFails msg => (inl (Exn OSError msg), w)
    | Spawns b =>
        (inr {| pid := length (procs w); args := cmd; behaviour := b |},
         emit (EvSpawn cmd) (set_procs (fun ps => (ps ++ [Proc cmd Running])%list) w))
    end.

(** [proc.communicate(timeout=t)]: on expiry the call raises and leaves the
    child as it is. *)
Definition communicate (p : Popen_obj) (timeout : Z) : Py World (string * string) :=
  fun w =>
    match behaviour p with
    | Completes out err code =>
        (inr (out, err), set_procs (insert (pid p) (Proc (args p) (Exited code))) w)
    | Hangs =>
        (inl (Exn TimeoutExpired
                ("Command '" +:+ args p +:+ "' timed out after " +:+ str_of_Z timeout +:+ " seconds")),
         w)
    end.

(** [proc.returncode] *)
Definition get_returncode (p : Popen_obj) : Py World (option Z) :=
  fun w =>
    (inr (match procs w !! pid p with
          | Some (Proc _ (Exited code)) => Some code
          | _ => None
          end), w).

(** *** The emulator *)

Record Config := {
  cfg_arch : option string;
  cfg_firmware_path : option string;
  cfg_payload_path : option string;
  cfg_fpga_enabled : option bool;
  cfg_qemu_path : option string;
  cfg_log_file : option string;
}.

Record HILEmulator := {
  arch : string;
  firmware_path : option string;
  payload_path : option string;
  fpga_enabled : bool;
  qemu_path : string;
  log_file : string;
}.

(** [HILEmulator.__init__] *)
Definition init (config : Config) : HILEmulator :=
  {| arch := lower (default "arm" (cfg_arch config));
     firmware_path := cfg_firmware_path config;
     payload_path := cfg_payload_path config;
     fpga_enabled := default false (cfg_fpga_enabled config);
     qemu_path := default "qemu-system-arm" (cfg_qemu_path config);
     log_file := default "hil_emulator.log" (cfg_log_file config) |}.

Definition set_payload_path (p : option string) (self : HILEmulator) : HILEmulator :=
  {| arch := arch self;
     firmware_path := firmware_path self;
     payload_path := p;
     fpga_enabled := fpga_enabled self;
     qemu_path := qemu_path self;
     log_file := log_file self |}.

(** [HILEmulator._build_qemu_cmd] *)
Definition _build_qemu_cmd (self : HILEmulator) (firmware payload : string) : Py World string :=
  qemu_bin ←
    (if String.eqb (arch self) "arm" then mret (qemu_path self)
     else if String.eqb (arch self) "riscv" then mret "qemu-system-riscv32"
     else if String.eqb (arch self) "mips" then mret "qemu-system-mips"
     else raise (Exn ValueError ("Unsupported arch for QEMU: " +:+ arch self)));
  mret (qemu_bin +:+ " -kernel " +:+ firmware +:+ " -append 'init=" +:+ payload +:+ "' -nographic").

(** The guard [if not path or not os.path.isfile(path): raise
    FileNotFoundError(f"{what} not found: {path}")]; it hands back the path. *)
Definition require_file (what : string) (path : option string) : Py World string :=
  match path with
  | Some p =>
      there ← (if truthy_str path then isfile p else mret false);
      if (there : bool) then mret p
      else raise (Exn FileNotFoundError (what +:+ " not found: " +:+ fmt_opt path))
  | None => raise (Exn FileNotFoundError (what +:+ " not found: " +:+ fmt_opt path))
  end.

(** [HILEmulator._run_qemu] *)
Definition _run_qemu (env : Env) (self : HILEmulator) : Py World ExecutionResult :=
  firmware ← require_file "Firmware" (firmware_path self);
  payload ← require_file "Payload" (payload_path self);
  temp_dir ← mkdtemp env;
  try_finally
    (try_except
       (let firmware_copy := join temp_dir (basename firmware) in
        let payload_copy := join temp_dir (basename payload) in
        copy2 firmware firmware_copy;;
        copy2 payload payload_copy;;
        qemu_cmd ← _build_qemu_cmd self firmware_copy payload_copy;
        logging (Info ("Running QEMU command: " +:+ qemu_cmd));;
        proc ← Popen env qemu_cmd;
        '(out, err) ← communicate proc 60;
        code ← get_returncode proc;
        let result :=
          {| stdout := Some out; stderr := Some err; returncode := code;
             error := None; mode := "qemu"; risk_score := None |} in
        logging (InfoResult "QEMU result: " result);;
        mret result)
       (fun e =>
          logging (Error ("QEMU run failed: " +:+ exn_msg e));;
          mret {| stdout := None; stderr := None; returncode := None;
                  error := Some (exn_msg e); mode := "qemu"; risk_score := None |}))
    (rmtree temp_dir).

(** [HILEmulator._run_fpga] *)
Definition _run_fpga (self : HILEmulator) : Py World ExecutionResult :=
  logging (Info ("[MOCK] Running payload " +:+ fmt_opt (payload_path self)
                 +:+ " on FPGA for arch " +:+ arch self));;
  mret {| stdout := Some ("[MOCK] FPGA run of " +:+ fmt_opt (payload_path self)
                          +:+ " on " +:+ arch self);
          stderr := Some ""; returncode := Some 0%Z;
          error := None; mode := "fpga"; risk_score := None |}.

(** The ordered rules of [_calculate_risk], on the lowered stderr text. *)
Definition risk_rules (stderr_lower : string) : float :=
  if (contains "segfault" stderr_lower || contains "panic" stderr_lower)%bool then 0.9%float
  else if contains "error" stderr_lower then 0.7%float
  else 0.2%float.

(** [HILEmulator._calculate_risk] *)
Definition _calculate_risk (result : ExecutionResult) : Py World float :=
  let stderr_text := lower (default "" (stderr result)) in
  let score := risk_rules stderr_text in
  logging (InfoScore "Calculated risk score: " score);;
  mret score.

Definition set_risk_score (score : float) (r : ExecutionResult) : ExecutionResult :=
  {| stdout := stdout r; stderr := stderr r; returncode := returncode r;
     error := error r; mode := mode r; risk_score := Some score |}.

(** [if payload: self.payload_path = payload] *)
Definition with_payload (payload : option string) (self : HILEmulator) : HILEmulator :=
  if truthy_str payload then set_payload_path payload self else self.

(** [HILEmulator.run]: the emulator as the call leaves it, and the result. *)
Definition run (env : Env) (self : HILEmulator) (payload : option string)
  : Py World (HILEmulator * ExecutionResult) :=
  let self := with_payload payload self in
  result ← (if fpga_enabled self then _run_fpga self else _run_qemu env self);
  score ← _calculate_risk result;
  mret (self, set_risk_score score result).

(** *** Vocabulary of the properties *)

(** The dict the handler of [_run_qemu] returns for the message [msg]. *)
Definition error_result (msg : string) : ExecutionResult :=
  {| stdout := None; stderr := None; returncode := None;
     error := Some msg; mode := "qemu"; risk_score := None |}.

(** The guarded block of [_run_qemu] with its handler, as run in the
    directory [d] on the inputs [fw] and [pl]. *)
Definition guarded_body (env : Env) (self : HILEmulator) (d fw pl : string)
  : Py World ExecutionResult :=
  try_except
    (let firmware_copy := join d (basename fw) in
     let payload_copy := join d (basename pl) in
     copy2 fw firmware_copy;;
     copy2 pl payload_copy;;
     qemu_cmd ← _build_qemu_cmd self firmware_copy payload_copy;
     logging (Info ("Running QEMU command: " +:+ qemu_cmd));;
     proc ← Popen env qemu_cmd;
     '(out, err) ← communicate proc 60;
     code ← get_returncode proc;
     let result :=
       {| stdout := Some out; stderr := Some err; returncode := code;
          error := None; mode := "qemu"; risk_score := None |} in
     logging (InfoResult "QEMU result: " result);;
     mret result)
    (fun e =>
       logging (Error ("QEMU run failed: " +:+ exn_msg e));;
       mret (error_result (exn_msg e))).

(** Whether a path names a regular file, as the guard of [_run_qemu] tests it. *)
Definition names_file (w : World) (path : option string) : bool :=
  match path with
  | Some p =>
      truthy_str path && match fs w !! p with Some (File _ _) => true | _ => false end
  | None => false
  end.

(** Whether a path names a regular file that may be read. *)
Definition names_readable_file (w : World) (path : option string) : bool :=
  match path with
  | Some p =>
      truthy_str path && match fs w !! p with Some (File m _) => may_read m | _ => false end
  | None => false
  end.

Definition supported_arch (a : string) : bool :=
  (String.eqb a "arm" || String.eqb a "riscv" || String.eqb a "mips")%bool.

(** Where the copy of [src] goes in the directory [d]. *)
Definition copy_target (d src : string) : string := join d (basename src).

(** The copy of [src] lands on a path of its own where nothing is yet. On
    a disk nothing lies below a name that is unused. *)
Definition lands_in (w : World) (d src : string) : bool :=
  negb (String.eqb (copy_target d src) d) && is_free (fs w) (copy_target d src).

(** A copy of [src] can be written over: it has the permission bits of
    [src] and the process for its owner. *)
Definition copy_writable (w : World) (src : string) : bool :=
  match fs w !! src with Some (File m _) => user_w m | _ => false end.

(** [tempfile] makes the directory [d]: it finds a directory to work in,
    [d] is the first unused name it draws, and the system makes it. *)
Definition draws (env : Env) (w : World) (d : string) : Prop :=
  tempdir_error env = None /\
  List.find (is_free (fs w)) (tmp_names env) = Some d /\
  mkdir_error env d = None.

(** The run gets as far as building the command line: both inputs are
    readable files, [tempfile] makes the directory [d], and the two copies
    can be written into it, the second over the first when the two inputs
    have one base name. *)
Definition staged (env : Env) (self : HILEmulator) (w : World) (d fw pl : string) : Prop :=
  firmware_path self = Some fw /\ payload_path self = Some pl /\
  names_readable_file w (Some fw) = true /\ names_readable_file w (Some pl) = true /\
  draws env w d /\
  lands_in w d fw = true /\ lands_in w d pl = true /\
  (copy_target d fw = copy_target d pl -> copy_writable w fw = true).

(** From [w] to [w'] the directory [d], once there, stays a directory, and
    no further temporary directory is made. *)
Definition sandbox_kept (d : string) (w w' : World) : Prop :=
  (fs w !! d = Some Dir -> fs w' !! d = Some Dir) /\
  exists evs, trace w' = trace w ++ evs /\ forall d', EvMkdtemp d' ∉ evs.

(** From [w] to [w'] no child process was started. *)
Definition nothing_spawned (w w' : World) : Prop :=
  procs w' = procs w /\
  exists evs, trace w' = trace w ++ evs /\ forall cmd, EvSpawn cmd ∉ evs.

End HIL.

(** ** ops/attack_replay.py *)

Module Replay.
Import PyStr PyM.

(** JSON documents: what a chain file holds and what a report file receives. *)
Inductive json :=
| JNull
| JBool (b : bool)
| JInt (n : Z)
| JStr (s : string)
| JArr (items : list json)
| JObj (fields : list (string * json)).

(** Truth value of a JSON value read into Python. *)
Definition truthy (v : json) : bool :=
  match v with
  | JNull => false
  | JBool b => b
  | JInt n => negb (n =? 0)%Z
  | JStr s => negb (String.eqb s "")
  | JArr items => match items with [] => false | _ => true end
  | JObj fields => match fields with [] => false | _ => true end
  end.

(** [doc[key]] on a document that is an object *)
Definition json_get (key : string) (doc : json) : option json :=
  match doc with
  | JObj fields => snd <$> List.find (fun kv => String.eqb kv.1 key) fields
  | _ => None
  end.

(** One entry of [chain_steps]; every key may be absent. *)
Record ChainStep := {
  step_device_type : option string;
  step_device_name : option string;
  step_action : option string;
  step_vuln : option json;
  step_options : option json;
}.

(** What [simulate_attack] returns; every key may be absent. *)
Record SimResult := {
  sim_success : option bool;
  sim_impact : option string;
  sim_log : option string;
}.

(** One entry of the list [replay_chain] returns. *)
Record StepResult := {
  device : string;
  action : string;
  success : bool;
  impact : string;
  log_line : string;
}.

(** The dict [analyze_results] returns. *)
Record Summary := {
  summary_chain_name : string;
  total_steps : Z;
  successes : Z;
  failures : Z;
  impacts : list string;
  overall_success : bool;
}.

Inductive log_record :=
| Info (msg : string)
| InfoStep (prefix : string) (r : StepResult)
| InfoSummary (prefix : string) (s : Summary).

Record ReplayConfig := {
  cfg_name : option string;
  cfg_chain_steps : option (list ChainStep);
}.

Record AttackReplay := {
  chain_name : string;
  chain_steps : list ChainStep;
  log_file : string;
}.

(** [AttackReplay.__init__] *)
Definition init (replay_config : option ReplayConfig) : AttackReplay :=
  let name := default "UnnamedChain" (replay_config ≫= cfg_name) in
  {| chain_name := name;
     chain_steps := default [] (replay_config ≫= cfg_chain_steps);
     log_file := "attack_replay_" +:+ replace_char " " "_" name +:+ ".log" |}.

Definition result_json (r : StepResult) : json :=
  JObj [("device", JStr (device r)); ("action", JStr (action r));
        ("success", JBool (success r)); ("impact", JStr (impact r));
        ("log", JStr (log_line r))].

Definition summary_json (s : Summary) : json :=
  JObj [("chain_name", JStr (summary_chain_name s)); ("total_steps", JInt (total_steps s));
        ("successes", JInt (successes s)); ("failures", JInt (failures s));
        ("impacts", JArr (JStr <$> impacts s)); ("overall_success", JBool (overall_success s))].

(** The document [generate_report] writes. *)
Definition report_of (self : AttackReplay) (R : list StepResult) (s : Summary) : json :=
  JObj [("chain_name", JStr (chain_name self));
        ("results", JArr (result_json <$> R));
        ("summary", summary_json s)].

(** [sum(...)] over integers *)
Definition py_sum (l : list Z) : Z := fold_left Z.add l 0%Z.

Section WithModules.

(** The state the exploit modules work on: their random generator and logs. *)
Variable W : Type.

(** An exploit module is any object with these two methods. A call
    returns or raises, and leaves a state of the modules. *)
Record ExploitModule := {
  craft_exploit : json -> json -> Py W json;
  simulate_attack : json -> Py W SimResult;
}.

(** The world of a replay: the modules' state, the log, the JSON files on
    disk, and which paths [open(path, "w")] accepts. *)
Record World := {
  mstate : W;
  log : list log_record;
  files : gmap string json;
  writable : string -> bool;
}.

Definition logging (r : log_record) : Py World unit :=
  fun w => (inr tt, {| mstate := mstate w; log := (log w ++ [r])%list;
                       files := files w; writable := writable w |}).

(** A method call on a module: what the method raises, the caller raises. *)
Definition call {A} (method : Py W A) : Py World A :=
  fun w =>
    let r := method (mstate w) in
    (r.1, {| mstate := r.2; log := log w; files := files w; writable := writable w |}).

(** [with open(path, "w") as f: json.dump(doc, f, indent=2)] *)
Definition dump_to (path : string) (doc : json) : Py World unit :=
  fun w =>
    if writable w path
    then (inr tt, {| mstate := mstate w; log := log w;
                     files := <[path := doc]> (files w); writable := writable w |})
    else (inl (Exn PermissionError ("[Errno 13] Permission denied: " +:+ repr path)), w).

(** [with open(path, "r") as f: json.load(f)] *)
Definition load_from (path : string) : Py World json :=
  fun w =>
    match files w !! path with
    | Some doc => (inr doc, w)
    | None =>
        (inl (Exn FileNotFoundError ("[Errno 2] No such file or directory: " +:+ repr path)), w)
    end.

(** [module = exploit_modules[device_type]] when [exploit_modules] is given,
    is not empty and has the key; [None] otherwise. *)
Definition find_module (exploit_modules : option (gmap string ExploitModule))
    (device_type : string) : option ExploitModule :=
  match exploit_modules with
  | Some registry =>
      if Nat.eqb (size registry) 0 then None else registry !! device_type
  | None => None
  end.

(** [if module and vuln]: the vulnerability to exploit, when there is one. *)
Definition usable_vuln (vuln : option json) : option json :=
  match vuln with
  | Some v => if truthy v then Some v else None
  | None => None
  end.

Definition mock_result (step : ChainStep) : StepResult :=
  {| device := default "unknown" (step_device_name step);
     action := default "unknown" (step_action step);
     success := true;
     impact := "Mock impact.";
     log_line := "Replayed " +:+ default "unknown" (step_action step) +:+ " on "
                 +:+ default "unknown" (step_device_name step) +:+ " (mock)" |}.

(** The body of the loop of [replay_chain], up to the result of the step. *)
Definition replay_step (exploit_modules : option (gmap string ExploitModule))
    (step : ChainStep) : Py World StepResult :=
  let device_type := default "generic" (step_device_type step) in
  let module := find_module exploit_modules device_type in
  let vuln := step_vuln step in
  let options := default (JObj []) (step_options step) in
  match module, usable_vuln vuln with
  | Some module, Some vuln =>
      exploit ← call (craft_exploit module vuln options);
      sim_result ← call (simulate_attack module exploit);
      mret {| device := default "unknown" (step_device_name step);
              action := default "unknown" (step_action step);
              success := default false (sim_success sim_result);
              impact := default "N/A" (sim_impact sim_result);
              log_line := default "" (sim_log sim_result) |}
  | _, _ => mret (mock_result step)
  end.

(** The loop of [replay_chain]: [results] is the list built so far. *)
Fixpoint replay_loop (exploit_modules : option (gmap string ExploitModule))
    (steps : list ChainStep) (results : list StepResult) : Py World (list StepResult) :=
  match steps with
  | [] => mret results
  | step :: steps' =>
      result ← replay_step exploit_modules step;
      logging (InfoStep "Replayed chain step: " result);;
      replay_loop exploit_modules steps' (results ++ [result])%list
  end.

(** [AttackReplay.replay_chain] *)
Definition replay_chain (self : AttackReplay)
    (exploit_modules : option (gmap string ExploitModule)) : Py World (list StepResult) :=
  replay_loop exploit_modules (chain_steps self) [].

(** [AttackReplay.analyze_results] *)
Definition analyze_results (self : AttackReplay) (results : list StepResult) : Py World Summary :=
  let total := Z.of_nat (length results) in
  let successes := py_sum ((fun _ => 1%Z) <$> List.filter success results) in
  let failures := (total - successes)%Z in
  let impacts := impact <$> results in
  let summary :=
    {| summary_chain_name := chain_name self;
       total_steps := total;
       successes := successes;
       failures := failures;
       impacts := impacts;
       overall_success := (successes =? total)%Z |} in
  logging (InfoSummary "Chain analysis summary: " summary);;
  mret summary.

(** [AttackReplay.generate_report] *)
Definition generate_report (self : AttackReplay) (results : list StepResult)
    (summary : Summary) (output_path : option string) : Py World string :=
  let report :=
    JObj [("chain_name", JStr (chain_name self));
          ("results", JArr (result_json <$> results));
          ("summary", summary_json summary)] in
  let output_path :=
    if truthy_str output_path then fmt_opt output_path
    else replace_char " " "_" (chain_name self) +:+ "_attackreplay_report.json" in
  dump_to output_path report;;
  logging (Info ("Report generated at " +:+ output_path));;
  mret output_path.

(** Reading a report back: the step count and the overall-success value
    the document holds. *)
Definition report_step_count (doc : json) : option nat :=
  match json_get "results" doc with
  | Some (JArr items) => Some (length items)
  | _ => None
  end.

Definition report_overall_success (doc : json) : option bool :=
  match json_get "summary" doc ≫= json_get "overall_success" with
  | Some (JBool b) => Some b
  | _ => None
  end.

Definition report_total_steps (doc : json) : option Z :=
  match json_get "summary" doc ≫= json_get "total_steps" with
  | Some (JInt n) => Some n
  | _ => None
  end.

(** *** Vocabulary of the properties *)

(** A module is registered for the device type. *)
Definition registered (exploit_modules : option (gmap string ExploitModule))
    (device_type : string) : Prop :=
  exists registry module,
    exploit_modules = Some registry /\ registry !! device_type = Some module.

(** [r] is what the step yields, from some state of the world. *)
Definition yields (exploit_modules : option (gmap string ExploitModule))
    (step : ChainStep) (r : StepResult) : Prop :=
  exists w, (replay_step exploit_modules step w).1 = inr r.

(** The method returns, whatever the state of the modules. *)
Definition returns {A} (method : Py W A) : Prop :=
  forall s, exists a s', method s = (inr a, s').

(** Every call of a method of a registered module returns. *)
Definition modules_return (exploit_modules : option (gmap string ExploitModule)) : Prop :=
  forall registry device_type module,
    exploit_modules = Some registry -> registry !! device_type = Some module ->
    (forall vuln options, returns (craft_exploit module vuln options)) /\
    (forall exploit, returns (simulate_attack module exploit)).

End WithModules.

Arguments craft_exploit {W}.
Arguments simulate_attack {W}.
Arguments mstate {W}.
Arguments log {W}.
Arguments files {W}.
Arguments writable {W}.
Arguments logging {W}.
Arguments call {W A}.
Arguments dump_to {W}.
Arguments load_from {W}.
Arguments find_module {W}.
Arguments registered {W}.
Arguments yields {W}.
Arguments returns {W A}.
Arguments modules_return {W}.
Arguments replay_step {W}.
Arguments replay_loop {W}.
Arguments replay_chain {W}.
Arguments analyze_results {W}.
Arguments generate_report {W}.

End Replay.

(** ** Concrete scenarios *)

Module Scenario.
Import PyStr PyM HIL.

(** A firmware image and a payload script on disk, both readable. *)
Definition disk : gmap string node :=
  <["fw.bin" := File own_rw "FW"]> (<["/srv/payload.sh" := File own_rw "PL"]> ∅).

(** Another user's file, with no bit set for the process. *)
Definition locked : perms :=
  {| mine := false; user_r := true; user_w := true; other_r := false; other_w := false |}.

(** The same disk with a firmware image the user may not read. *)
Definition disk_locked : gmap string node :=
  <["fw.bin" := File locked "FW"]> (<["/srv/payload.sh" := File own_rw "PL"]> ∅).

(** A file of the process's own that it may read and not write. *)
Definition own_ro : perms :=
  {| mine := true; user_r := true; user_w := false; other_r := true; other_w := false |}.

(** A firmware image and a payload of one base name in two directories;
    the firmware is read-only. *)
Definition disk_shared : gmap string node :=
  <["a/x.bin" := File own_ro "FW"]> (<["b/x.bin" := File own_rw "PL"]> ∅).

Definition world (m : gmap string node) : World :=
  {| fs := m; procs := []; trace := []; log := [] |}.

Definition emulator (a : string) : HILEmulator :=
  init {| cfg_arch := Some a; cfg_firmware_path := Some "fw.bin";
          cfg_payload_path := Some "/srv/payload.sh"; cfg_fpga_enabled := None;
          cfg_qemu_path := None; cfg_log_file := None |}.

Definition emulator_shared : HILEmulator :=
  init {| cfg_arch := Some "arm"; cfg_firmware_path := Some "a/x.bin";
          cfg_payload_path := Some "b/x.bin"; cfg_fpga_enabled := None;
          cfg_qemu_path := None; cfg_log_file := None |}.

(** The child never ends by itself. *)
Definition env_hanging : Env :=
  {| tmp_names := ["/tmp/tmpk3_x9a2b"]; tempdir_error := None; mkdir_error := fun _ => None;
     child := fun _ => Spawns Hangs |}.

(** The call of [Popen] raises: the system cannot fork. *)
Definition env_no_shell : Env :=
  {| tmp_names := ["/tmp/tmpk3_x9a2b"]; tempdir_error := None; mkdir_error := fun _ => None;
     child := fun _ => SpawnFails "[Errno 12] Cannot allocate memory" |}.

(** The shell does not find the emulator binary: the child ends with the
    shell's message and the exit status 127. *)
Definition env_no_binary : Env :=
  {| tmp_names := ["/tmp/tmpk3_x9a2b"]; tempdir_error := None; mkdir_error := fun _ => None;
     child := fun _ => Spawns (Completes "" "/bin/sh: 1: qemu-system-arm: not found" 127) |}.

(** The child ends with a kernel panic on its stderr. *)
Definition env_panic : Env :=
  {| tmp_names := ["/tmp/tmpk3_x9a2b"]; tempdir_error := None; mkdir_error := fun _ => None;
     child := fun _ => Spawns (Completes "booting" "ERROR: Kernel PANIC - not syncing" 1) |}.

Definition arm_cmd : string :=
  "qemu-system-arm -kernel /tmp/tmpk3_x9a2b/fw.bin -append 'init=/tmp/tmpk3_x9a2b/payload.sh' -nographic".

End Scenario.

(** A registry with a module that always succeeds and one that always
    fails; the state of the modules counts their calls. *)
Module ReplayScenario.
Import PyStr PyM Replay.

Definition always (outcome : bool) (text : string) : ExploitModule nat :=
  {| craft_exploit := fun vuln options n =>
       (inr (JObj [("vuln_type", default JNull (json_get "type" vuln)); ("options", options)]),
        S n);
     simulate_attack := fun exploit n =>
       (inr {| sim_success := Some outcome; sim_impact := Some text;
               sim_log := Some "Attack simulated" |}, S n) |}.

(** A module that succeeds like the one above and reads the vulnerability
    by index, [vuln["type"]] and then [vuln["location"]], as the method
    [craft_exploit] of [MedicalIoTModule] does: a key that is not there
    raises [KeyError]. *)
Definition indexing : ExploitModule nat :=
  {| craft_exploit := fun vuln options n =>
       match json_get "type" vuln with
       | None => (inl (Exn KeyError (repr "type")), n)
       | Some type =>
           match json_get "location" vuln with
           | None => (inl (Exn KeyError (repr "location")), n)
           | Some location =>
               (inr (JObj [("vuln_type", type); ("location", location);
                           ("options", options)]), S n)
           end
       end;
     simulate_attack := fun exploit n =>
       (inr {| sim_success := Some true;
               sim_impact := Some "Possible silent dosage override or device crash.";
               sim_log := Some "Attack simulated" |}, S n) |}.

Definition registry : gmap string (ExploitModule nat) :=
  <["medical" := always true "Possible silent dosage override or device crash."]>
    (<["automotive" := always false "Unknown impact."]> ∅).

Definition step (type name : string) (vuln : option json) : ChainStep :=
  {| step_device_type := Some type; step_device_name := Some name;
     step_action := Some "exploit"; step_vuln := vuln; step_options := None |}.

Definition overflow : json := JObj [("type", JStr "buffer_overflow")].

(** Three steps: a success, a failure, and a step for a device type
    without a module. *)
Definition chain : AttackReplay :=
  init (Some {| cfg_name := Some "ward 3";
                cfg_chain_steps :=
                  Some [step "medical" "pump1" (Some overflow);
                        step "automotive" "ecu7" (Some overflow);
                        step "camera" "cam2" (Some overflow)] |}).

Definition world : World nat :=
  {| mstate := 0; log := []; files := ∅; writable := fun _ => true |}.

Definition results : list StepResult :=
  [ {| device := "pump1"; action := "exploit"; success := true;
       impact := "Possible silent dosage override or device crash.";
       log_line := "Attack simulated" |};
    {| device := "ecu7"; action := "exploit"; success := false;
       impact := "Unknown impact."; log_line := "Attack simulated" |};
    {| device := "cam2"; action := "exploit"; success := true;
       impact := "Mock impact."; log_line := "Replayed exploit on cam2 (mock)" |} ].

End ReplayScenario.

(** ** Further vocabulary for the sandbox *)

Module SandboxFrame.
Import PyStr PyM HIL.

(** [d] is a proper directory name (not empty, no slash at its end) with
    nothing at it or below it in the file store. *)
Definition fresh_name (w : World) (d : string) : Prop :=
  d <> "" /\ endswith_slash d = false /\ forall p, under d p = true -> fs w !! p = None.

(** From [w] to [w'] every path that is not [d] or below it holds what it held. *)
Definition files_kept (d : string) (w w' : World) : Prop :=
  forall p, under d p = false -> fs w' !! p = fs w !! p.

(** The result of a run whose child ended by itself. *)
Definition completed_result (out err : string) (code : Z) : ExecutionResult :=
  {| stdout := Some out; stderr := Some err; returncode := Some code;
     error := None; mode := "qemu"; risk_score := None |}.

(** What the guarded block asks of the operating system, in order: the
    copy of the firmware, the copy of the payload, the start of the child;
    it may stop after any of them. *)
Definition body_events (fw pl : string) (evs : list event) : Prop :=
  evs = [] \/
  (exists a, evs = [EvCopy fw a]) \/
  (exists a b, evs = [EvCopy fw a; EvCopy pl b]) \/
  (exists a b cmd, evs = [EvCopy fw a; EvCopy pl b; EvSpawn cmd]).

(** The three scores of the rules, in rising order. *)
Definition is_score (x : float) : Prop :=
  x = 0.2%float \/ x = 0.7%float \/ x = 0.9%float.

End SandboxFrame.

(** ** ops/attack_replay.py: loading a chain and the automated replay *)

Module ReplayLoad.
Import PyStr PyM Replay.

(** A chain file follows the format of the chain definition: an object
    with an optional string "name" and an optional array "chain_steps" of
    objects, whose "device_type", "device_name" and "action" are strings
    when present. [chain_json] writes a configuration in that format, and
    the readers below read it back; a field of another type than the
    format gives has no counterpart in [ChainStep] and reads as absent. *)

Definition field (key : string) (value : option json) : list (string * json) :=
  match value with Some v => [(key, v)] | None => [] end.

Definition step_json (step : ChainStep) : json :=
  JObj (field "device_type" (JStr <$> step_device_type step)
        ++ field "device_name" (JStr <$> step_device_name step)
        ++ field "action" (JStr <$> step_action step)
        ++ field "vuln" (step_vuln step)
        ++ field "options" (step_options step)).

Definition chain_json (config : ReplayConfig) : json :=
  JObj (field "name" (JStr <$> cfg_name config)
        ++ field "chain_steps" ((fun steps => JArr (step_json <$> steps))
                                  <$> cfg_chain_steps config)).

(** [doc.get(key)] for a key that holds a string *)
Definition get_str (key : string) (doc : json) : option string :=
  match json_get key doc with Some (JStr s) => Some s | _ => None end.

Definition step_of_json (doc : json) : ChainStep :=
  {| step_device_type := get_str "device_type" doc;
     step_device_name := get_str "device_name" doc;
     step_action := get_str "action" doc;
     step_vuln := json_get "vuln" doc;
     step_options := json_get "options" doc |}.

Definition steps_of_json (doc : json) : option (list ChainStep) :=
  match json_get "chain_steps" doc with
  | Some (JArr items) => Some (step_of_json <$> items)
  | _ => None
  end.

(** The default path of [generate_report]. *)
Definition default_report_path (self : AttackReplay) : string :=
  replace_char " " "_" (chain_name self) +:+ "_attackreplay_report.json".

(** The path [generate_report] writes to. *)
Definition report_path_for (self : AttackReplay) (output_path : option string) : string :=
  if truthy_str output_path then fmt_opt output_path else default_report_path self.

Section WithModules.
Variable W : Type.

(** The world of a replay together with the lines logged at error level,
    which are kept in a list of their own. *)
Definition Session : Type := World W * list string.

(** A computation of the replay, run in a session. *)
Definition lift {A} (m : Py (World W) A) : Py Session A :=
  fun s => let r := m s.1 in (r.1, (r.2, s.2)).

(** [logging.error(msg)] *)
Definition logging_error (msg : string) : Py Session unit :=
  fun s => (inr tt, (s.1, s.2 ++ [msg])).

(** [os.path.isfile(path)]: the store holds JSON files only. *)
Definition isfile (path : string) : Py Session bool :=
  fun s => (inr (bool_decide (is_Some (files s.1 !! path))), s).

(** [AttackReplay.load_chain]: the value returned and the object as the
    call leaves it. The attribute [replay_config], which no other method
    reads, is not kept. *)
Definition load_chain (self : AttackReplay) (chain_path : string)
  : Py Session (bool * AttackReplay) :=
  there ← isfile chain_path;
  if negb (there : bool) then
    logging_error ("Chain file not found: " +:+ chain_path);;
    mret (false, self)
  else
    data ← lift (load_from chain_path);
    let self :=
      {| chain_name := default "UnnamedChain" (get_str "name" data);
         chain_steps := default [] (steps_of_json data);
         log_file := log_file self |} in
    lift (logging (Info ("Loaded chain: " +:+ chain_name self +:+ " with "
                         +:+ str_of_Z (Z.of_nat (length (chain_steps self)))
                         +:+ " steps.")));;
    mret (true, self).

(** [AttackReplay.automate_chain_replay]: the path returned and the object
    as the call leaves it. *)
Definition automate_chain_replay (self : AttackReplay) (chain_path : string)
    (exploit_modules : option (gmap string (ExploitModule W)))
  : Py Session (string * AttackReplay) :=
  '(loaded, self) ← load_chain self chain_path;
  if negb (loaded : bool) then
    logging_error "Automated chain replay aborted: chain file not found or invalid.";;
    mret ("", self)
  else
    results ← lift (replay_chain self exploit_modules);
    summary ← lift (analyze_results self results);
    report_path ← lift (generate_report self results summary None);
    lift (logging (Info ("Automated chain replay completed. Report: " +:+ report_path)));;
    mret (report_path, self).

End WithModules.

Arguments lift {W A}.
Arguments logging_error {W}.
Arguments isfile {W}.
Arguments load_chain {W}.
Arguments automate_chain_replay {W}.

End ReplayLoad.

(** A chain file on disk, and a registry for its device type. *)
Module LoadScenario.
Import PyStr PyM Replay ReplayLoad.

(** The chain t1: one exploit step against a medical pump. *)
Definition t1 : ReplayConfig :=
  {| cfg_name := Some "t1";
     cfg_chain_steps :=
       Some [ {| step_device_type := Some "medical"; step_device_name := Some "pump1";
                 step_action := Some "exploit";
                 step_vuln := Some (JObj [("type", JStr "buffer_overflow")]);
                 step_options := None |} ] |}.

Definition session : Session nat :=
  ({| mstate := 0; log := []; files := <["chains/t1.json" := chain_json t1]> ∅;
      writable := fun _ => true |}, []).

(** The chain t1 with a vulnerability that also names its location. *)
Definition t1_located : ReplayConfig :=
  {| cfg_name := Some "t1";
     cfg_chain_steps :=
       Some [ {| step_device_type := Some "medical"; step_device_name := Some "pump1";
                 step_action := Some "exploit";
                 step_vuln := Some (JObj [("type", JStr "buffer_overflow");
                                          ("location", JStr "dose_control")]);
                 step_options := None |} ] |}.

End LoadScenario.

(** * Properties *)

(** ** Strings *)

Section StringFacts.
Import PyStr.

Lemma app_nil_str (b : string) : "" +:+ b = b.
Proof. reflexivity. Qed.

Lemma app_cons_str (c : ascii) (a b : string) : String c a +:+ b = String c (a +:+ b).
Proof. reflexivity. Qed.

Lemma lower_app (a b : string) : lower (a +:+ b) = lower a +:+ lower b.
Proof.
  induction a as [|c a IH]; [reflexivity |].
  rewrite app_cons_str. simpl. now rewrite IH, app_cons_str.
Qed.

Lemma startswith_spec (p s : string) :
  startswith p s = true <-> exists t, s = p +:+ t.
Proof.
  revert s. induction p as [|a p IH]; intros s; simpl.
  - split; [intros _; now exists s | reflexivity].
  - destruct s as [|b s].
    + split; [discriminate | intros [t Ht]; discriminate].
    + destruct (Ascii.eqb_spec a b) as [->|Hne].
      * rewrite IH. split; intros [t Ht]; exists t.
        -- now rewrite app_cons_str, Ht.
        -- rewrite app_cons_str in Ht. now injection Ht.
      * split; [discriminate |].
        intros [t Ht]. rewrite app_cons_str in Ht. injection Ht; intros; congruence.
Qed.

Lemma contains_spec (needle hay : string) :
  contains needle hay = true <-> exists pre post, hay = pre +:+ needle +:+ post.
Proof.
  induction hay as [|c hay IH].
  - simpl. destruct (startswith needle "") eqn:E.
    + apply startswith_spec in E as [t Ht].
      split; [intros _; now exists "", t | reflexivity].
    + split; [discriminate |].
      intros (pre & post & H). destruct pre; [|discriminate].
      rewrite app_nil_str in H.
      assert (startswith needle "" = true) by (apply startswith_spec; eauto).
      congruence.
  - simpl. destruct (startswith needle (String c hay)) eqn:E.
    + apply startswith_spec in E as [t Ht].
      split; [intros _; now exists "", t | reflexivity].
    + rewrite IH. split.
      * intros (pre & post & ->). now exists (String c pre), post.
      * intros (pre & post & H). destruct pre as [|x pre].
        -- rewrite app_nil_str in H.
           assert (startswith needle (String c hay) = true)
             by (apply startswith_spec; eauto).
           congruence.
        -- rewrite app_cons_str in H. injection H as _ ->. eauto.
Qed.

Lemma lower_upper_ascii (c : ascii) :
  lower_ascii c = c -> lower_ascii (upper_ascii c) = c.
Proof.
  destruct c as [[] [] [] [] [] [] [] []]; vm_compute; intros H;
    solve [reflexivity | discriminate H].
Qed.

Lemma lower_ascii_cases (c : ascii) :
  c = lower_ascii c \/ c = upper_ascii (lower_ascii c).
Proof.
  destruct c as [[] [] [] [] [] [] [] []]; vm_compute; auto.
Qed.

Lemma case_variant_lower (kw v : string) :
  case_variant kw v -> lower kw = kw -> lower v = kw.
Proof.
  induction 1 as [|c c' kw v Hc _ IH]; simpl; intros Hkw; [reflexivity |].
  injection Hkw as Hc0 Hkw0.
  rewrite (IH Hkw0). f_equal.
  destruct Hc as [->| ->]; [assumption | now apply lower_upper_ascii].
Qed.

Lemma lower_case_variant (v : string) : case_variant (lower v) v.
Proof.
  induction v as [|c v IH]; simpl; constructor; [apply lower_ascii_cases | assumption].
Qed.

Lemma lower_split (s a b : string) :
  lower s = a +:+ b -> exists a' b', s = a' +:+ b' /\ lower a' = a /\ lower b' = b.
Proof.
  revert s. induction a as [|x a IH]; intros s H.
  - now exists "", s.
  - destruct s as [|c s]; [discriminate |].
    rewrite app_cons_str in H. simpl in H. injection H as Hx Hs.
    destruct (IH s Hs) as (a' & b' & -> & Ha & Hb).
    exists (String c a'), b'. simpl. now rewrite Hx, Ha.
Qed.

(** The test [kw in text.lower()] of the source decides exactly whether
    [text] has [kw] in some letter case, for a keyword in lower case. *)
Lemma occurs_ci_contains (kw s : string) :
  lower kw = kw -> (occurs_ci kw s <-> contains kw (lower s) = true).
Proof.
  intros Hkw. rewrite contains_spec. split.
  - intros (pre & v & post & -> & Hv).
    exists (lower pre), (lower post).
    now rewrite !lower_app, (case_variant_lower _ _ Hv Hkw).
  - intros (pre & post & H).
    apply lower_split in H as (pre' & rest & -> & _ & H).
    apply lower_split in H as (v & post' & -> & Hv & _).
    exists pre', v, post'. split; [reflexivity |].
    rewrite <- Hv. apply lower_case_variant.
Qed.

Lemma has_slash_cons (c : ascii) (p : string) :
  has_slash (String c p) = (Ascii.eqb c "/" || has_slash p)%bool.
Proof.
  unfold has_slash. cbn [contains startswith].
  rewrite (Ascii.eqb_sym "/" c). now destruct (Ascii.eqb c "/").
Qed.

Lemma has_slash_basename (p : string) : has_slash (basename p) = false.
Proof.
  induction p as [|c p IH]; [reflexivity |].
  cbn [basename]. destruct (has_slash p) eqn:E; [assumption |].
  destruct (Ascii.eqb c "/") eqn:Ec; [assumption |].
  now rewrite has_slash_cons, Ec, E.
Qed.

Example lower_mixed : lower "Kernel PANIC at 0x1F" = "kernel panic at 0x1f".
Proof. reflexivity. Qed.

Example contains_inside : contains "panic" "kernel panic at" = true.
Proof. reflexivity. Qed.

Example contains_broken : contains "panic" "kernel pani c" = false.
Proof. reflexivity. Qed.

Example occurs_mixed_case : occurs_ci "segfault" "qemu: SegFault (core dumped)".
Proof.
  exists "qemu: ", "SegFault", " (core dumped)". split; [reflexivity |].
  repeat (apply cv_cons; [vm_compute; auto |]). apply cv_nil.
Qed.

Example basename_of_path : basename "/srv/fw/router.bin" = "router.bin".
Proof. reflexivity. Qed.

Example basename_trailing_slash : basename "a/b/" = "".
Proof. reflexivity. Qed.

Example join_in_dir : join "/tmp/tmpab12" "router.bin" = "/tmp/tmpab12/router.bin".
Proof. reflexivity. Qed.

Example join_absolute : join "/tmp/tmpab12" "/etc/passwd" = "/etc/passwd".
Proof. reflexivity. Qed.

Example timeout_as_text : str_of_Z 60 = "60".
Proof. reflexivity. Qed.

End StringFacts.

(** ** Running the monad *)

Section MonadFacts.
Import PyM.
Context {S : Type}.

Lemma run_bind {A B} (m : Py S A) (k : A -> Py S B) (s : S) :
  (m ≫= k) s = match m s with
               | (inl e, s') => (inl e, s')
               | (inr a, s') => k a s'
               end.
Proof. reflexivity. Qed.

Lemma run_bind_ok {A B} (m : Py S A) (k : A -> Py S B) (s s' : S) (a : A) :
  m s = (inr a, s') -> (m ≫= k) s = k a s'.
Proof. intros H. now rewrite run_bind, H. Qed.

Lemma run_bind_raise {A B} (m : Py S A) (k : A -> Py S B) (s s' : S) (e : exn) :
  m s = (inl e, s') -> (m ≫= k) s = (inl e, s').
Proof. intros H. now rewrite run_bind, H. Qed.

Section Keeps.
Context (R : S -> S -> Prop) `{!PreOrder R}.

Lemma keeps_ret {A} (a : A) : keeps R (mret a : Py S A).
Proof. intros s. simpl. reflexivity. Qed.

Lemma keeps_raise {A} (e : exn) : keeps R (raise e : Py S A).
Proof. intros s. simpl. reflexivity. Qed.

Lemma keeps_bind {A B} (m : Py S A) (k : A -> Py S B) :
  keeps R m -> (forall a, keeps R (k a)) -> keeps R (m ≫= k).
Proof.
  intros Hm Hk s. rewrite run_bind. specialize (Hm s).
  destruct (m s) as [[e|a] s1]; simpl in *; [assumption |].
  etrans; [exact Hm | apply Hk].
Qed.

(** When the first computation always raises, what follows never runs. *)
Lemma keeps_bind_raises {A B} (m : Py S A) (k : A -> Py S B) :
  keeps R m -> (forall s, exists e, (m s).1 = inl e) -> keeps R (m ≫= k).
Proof.
  intros Hm He s. rewrite run_bind. specialize (Hm s).
  destruct (He s) as [e Hs]. destruct (m s) as [[e'|a] s1]; simpl in *;
    [assumption | discriminate].
Qed.

Lemma keeps_try_except {A} (body : Py S A) (handler : exn -> Py S A) :
  keeps R body -> (forall e, keeps R (handler e)) -> keeps R (try_except body handler).
Proof.
  intros Hb Hh s. unfold try_except. specialize (Hb s).
  destruct (body s) as [[e|a] s1]; simpl in *; [|assumption].
  etrans; [exact Hb | apply Hh].
Qed.

Lemma keeps_try_finally {A} (body : Py S A) (cleanup : Py S unit) :
  keeps R body -> keeps R cleanup -> keeps R (try_finally body cleanup).
Proof.
  intros Hb Hc s. unfold try_finally. specialize (Hb s).
  destruct (body s) as [r s1]. specialize (Hc s1).
  destruct (cleanup s1) as [[e|u] s2]; simpl in *; etrans; eassumption.
Qed.

End Keeps.

(** [try: ... except Exception: ...] with a handler that returns never raises. *)
Lemma try_except_returns {A} (body : Py S A) (handler : exn -> Py S A) (s : S) :
  (forall e s1, exists a, (handler e s1).1 = inr a) ->
  exists a, (try_except body handler s).1 = inr a.
Proof.
  intros Hh. unfold try_except. destruct (body s) as [[e|a] s1]; simpl; eauto.
Qed.

End MonadFacts.

(** ** The risk scorer *)

Section RiskFacts.
Import PyStr PyM HIL.

Lemma _calculate_risk_run (r : ExecutionResult) (w : World) :
  _calculate_risk r w =
    (inr (risk_rules (lower (default "" (stderr r)))),
     (logging (InfoScore "Calculated risk score: "
                 (risk_rules (lower (default "" (stderr r))))) w).2).
Proof. reflexivity. Qed.

Lemma risk_rules_values (text : string) :
  risk_rules text = 0.9%float \/ risk_rules text = 0.7%float \/ risk_rules text = 0.2%float.
Proof.
  unfold risk_rules.
  destruct (contains "segfault" text || contains "panic" text)%bool; [auto |].
  destruct (contains "error" text); auto.
Qed.

(** The score is one of three constants, each within [0, 1]. *)
Lemma risk_rules_bounded (text : string) :
  PrimFloat.leb 0%float (risk_rules text) = true /\
  PrimFloat.leb (risk_rules text) 1%float = true.
Proof.
  destruct (risk_rules_values text) as [-> | [-> | ->]]; split; reflexivity.
Qed.

(** C2. When the captured stderr has "segfault" or "panic" as a substring,
    in any letter case, the score is exactly 0.9, whatever else the text
    holds; otherwise, when it has "error", the score is 0.7; otherwise the
    score is 0.2. A result without stderr is scored as the empty text. *)
Theorem crash_signature_rule_first (r : ExecutionResult) (w : World) :
  let text := default "" (stderr r) in
  let crash := occurs_ci "segfault" text \/ occurs_ci "panic" text in
  (crash -> (_calculate_risk r w).1 = inr 0.9%float) /\
  (~ crash -> occurs_ci "error" text -> (_calculate_risk r w).1 = inr 0.7%float) /\
  (~ crash -> ~ occurs_ci "error" text -> (_calculate_risk r w).1 = inr 0.2%float).
Proof.
  intros text crash. rewrite _calculate_risk_run. cbn [fst].
  fold text. unfold risk_rules.
  assert (Hcrash : crash <->
            (contains "segfault" (lower text) || contains "panic" (lower text))%bool = true).
  { unfold crash. rewrite orb_true_iff.
    now rewrite <- !occurs_ci_contains by reflexivity. }
  assert (Herr : occurs_ci "error" text <-> contains "error" (lower text) = true)
    by (now apply occurs_ci_contains).
  destruct (contains "segfault" (lower text) || contains "panic" (lower text))%bool.
  - split; [reflexivity |]. split; intros Hn; exfalso; apply Hn, Hcrash; reflexivity.
  - split; [intros Hc; apply Hcrash in Hc; discriminate |].
    destruct (contains "error" (lower text)).
    + split; [reflexivity |]. intros _ Hn. exfalso. apply Hn, Herr. reflexivity.
    + split; [|reflexivity]. intros _ He. apply Herr in He. discriminate.
Qed.

End RiskFacts.

(** ** The sandbox runner *)

Section SandboxFacts.
Import PyStr PyM HIL.

(** *** What each primitive does *)

Lemma require_file_world (what : string) (path : option string) (w : World) :
  (require_file what path w).2 = w.
Proof.
  unfold require_file. destruct path as [p|]; [|reflexivity].
  rewrite run_bind. destruct (truthy_str (Some p)); simpl.
  - now destruct (fs w !! p) as [[]|].
  - reflexivity.
Qed.

Lemma require_file_missing (what : string) (path : option string) (w : World) :
  names_file w path = false ->
  require_file what path w =
    (inl (Exn FileNotFoundError (what +:+ " not found: " +:+ fmt_opt path)), w).
Proof.
  unfold names_file, require_file. destruct path as [p|]; [|reflexivity].
  rewrite run_bind. destruct (truthy_str (Some p)); simpl.
  - destruct (fs w !! p) as [[]|]; [discriminate | reflexivity..].
  - reflexivity.
Qed.

Lemma require_file_ok (what : string) (path : option string) (w : World) :
  names_file w path = true ->
  exists p, path = Some p /\ require_file what path w = (inr p, w).
Proof.
  unfold names_file, require_file. destruct path as [p|]; [|discriminate].
  intros H. exists p. split; [reflexivity |].
  rewrite run_bind. destruct (truthy_str (Some p)); [|discriminate]. simpl in *.
  now destruct (fs w !! p) as [[]|].
Qed.

Lemma mkdtemp_cases (env : Env) (w : World) :
  (exists e, mkdtemp env w = (inl e, w)) \/
  (exists d, fs w !! d = None /\
             mkdtemp env w = (inr d, emit (EvMkdtemp d) (set_fs (insert d Dir) w))).
Proof.
  unfold mkdtemp. destruct (tempdir_error env) as [e|]; [left; eauto |].
  destruct (List.find _ _) as [d|] eqn:E; [| left; eauto].
  destruct (mkdir_error env d) as [e|]; [left; eauto | right].
  exists d. split; [|reflexivity].
  apply List.find_some in E as [_ E]. unfold is_free in E.
  now destruct (fs w !! d).
Qed.

Lemma mkdtemp_draws (env : Env) (w : World) (d : string) :
  draws env w d ->
  mkdtemp env w = (inr d, emit (EvMkdtemp d) (set_fs (insert d Dir) w)).
Proof. intros (Ht & Hf & Hm). unfold mkdtemp. now rewrite Ht, Hf, Hm. Qed.

Lemma draws_unused (env : Env) (w : World) (d : string) : draws env w d -> fs w !! d = None.
Proof.
  intros (_ & Hf & _). apply List.find_some in Hf as [_ Hf].
  unfold is_free in Hf. now destruct (fs w !! d).
Qed.

Lemma mkdtemp_cases_found (env : Env) (w : World) :
  (exists e, mkdtemp env w = (inl e, w)) \/
  (exists d, List.find (is_free (fs w)) (tmp_names env) = Some d /\
             mkdtemp env w = (inr d, emit (EvMkdtemp d) (set_fs (insert d Dir) w))).
Proof.
  unfold mkdtemp. destruct (tempdir_error env) as [e|]; [left; eauto |].
  destruct (List.find _ _) as [d|] eqn:E; [| left; eauto].
  destruct (mkdir_error env d) as [e|]; [left; eauto | right; eauto].
Qed.

(** What [mkdtemp] returns is the first unused name among the draws. *)
Lemma mkdtemp_found (env : Env) (w w' : World) (d : string) :
  mkdtemp env w = (inr d, w') -> List.find (is_free (fs w)) (tmp_names env) = Some d.
Proof.
  unfold mkdtemp. destruct (tempdir_error env); [discriminate |].
  destruct (List.find _ _) as [d'|]; [|discriminate].
  destruct (mkdir_error env d'); [discriminate |]. now intros [= -> _].
Qed.

(** The three ways [copy2] ends: it raises and nothing has changed; it
    returns after writing its destination; or it raises after writing the
    data to a file of another user. The destination is no directory. *)
Lemma copy2_cases (src dst : string) (w : World) :
  let dst' := if is_dir (fs w) dst then join dst (basename src) else dst in
  (exists e, copy2 src dst w = (inl e, w)) \/
  (exists m data,
      is_dir (fs w) dst' = false /\
      copy2 src dst w =
        (inr tt, emit (EvCopy src dst') (set_fs (insert dst' (File m data)) w))) \/
  (exists e m data,
      is_dir (fs w) dst' = false /\
      copy2 src dst w = (inl e, set_fs (insert dst' (File m data)) w)).
Proof.
  cbv zeta. unfold copy2.
  set (dst' := if is_dir (fs w) dst then join dst (basename src) else dst).
  destruct (fs w !! src) as [[m data|]|]; eauto.
  destruct (String.eqb src dst'); eauto.
  destruct (negb (may_read m)); eauto.
  unfold is_dir.
  destruct (fs w !! dst') as [[m' data'|]|] eqn:E; eauto 10.
  destruct (negb (may_write m')); eauto.
  destruct (mine m'); eauto 10.
Qed.

Lemma is_dir_true (m : gmap string node) (p : string) :
  is_dir m p = true <-> m !! p = Some Dir.
Proof. unfold is_dir. destruct (m !! p) as [[]|]; split; congruence. Qed.

Lemma rmtree_dir (d : string) (w : World) :
  fs w !! d = Some Dir ->
  rmtree d w = (inr tt, emit (EvRmtree d) (set_fs (filter (fun kv => under d kv.1 = false)) w)).
Proof. intros H. unfold rmtree. now rewrite H. Qed.

Lemma rmtree_clears (d p : string) (m : gmap string node) :
  under d p = true -> filter (fun kv : string * node => under d kv.1 = false) m !! p = None.
Proof.
  intros H. apply map_lookup_filter_None. right. intros x _. simpl. congruence.
Qed.

Lemma under_refl (d : string) : under d d = true.
Proof. unfold under. now rewrite String.eqb_refl. Qed.

(** *** The directory of a sandbox survives the body of the run *)

#[global] Instance sandbox_kept_preorder (d : string) : PreOrder (sandbox_kept d).
Proof.
  split.
  - intros w. split; [auto |]. exists []. split; [now rewrite app_nil_r | set_solver].
  - intros w1 w2 w3 [H12 (e12 & T12 & N12)] [H23 (e23 & T23 & N23)].
    split; [auto |]. exists (e12 ++ e23). split.
    + now rewrite T23, T12, app_assoc.
    + intros d' [?|?]%elem_of_app; [eapply N12 | eapply N23]; eassumption.
Qed.

Lemma sandbox_kept_same_fs (d : string) (w w' : World) (evs : list event) :
  fs w' = fs w -> trace w' = trace w ++ evs -> (forall d', EvMkdtemp d' ∉ evs) ->
  sandbox_kept d w w'.
Proof. intros Hfs Ht Hn. split; [now rewrite Hfs | eauto]. Qed.

Lemma keeps_logging (d : string) (r : log_record) : keeps (sandbox_kept d) (logging r).
Proof.
  intros w. apply sandbox_kept_same_fs with (evs := []);
    [reflexivity | simpl; now rewrite app_nil_r | set_solver].
Qed.

Lemma keeps_copy2 (d src dst : string) : keeps (sandbox_kept d) (copy2 src dst).
Proof.
  intros w.
  destruct (copy2_cases src dst w) as [[e ->]|[(m & data & E & ->)|(e & m & data & E & ->)]];
    [reflexivity | |].
  - split; simpl.
    + intros Hd. rewrite lookup_insert_ne; [assumption |].
      intros Heq. rewrite Heq in E. unfold is_dir in E. rewrite Hd in E. discriminate.
    + eexists [EvCopy src _]. split; [reflexivity |].
      intros d' H%list_elem_of_singleton; discriminate H.
  - split; simpl.
    + intros Hd. rewrite lookup_insert_ne; [assumption |].
      intros Heq. rewrite Heq in E. unfold is_dir in E. rewrite Hd in E. discriminate.
    + exists []. split; [now rewrite app_nil_r |].
      intros d' H. now apply elem_of_nil in H.
Qed.

Lemma keeps_build (d : string) (self : HILEmulator) (f p : string) :
  keeps (sandbox_kept d) (_build_qemu_cmd self f p).
Proof.
  intros w. unfold _build_qemu_cmd. rewrite run_bind.
  destruct (String.eqb (arch self) "arm"); [reflexivity |].
  destruct (String.eqb (arch self) "riscv"); [reflexivity |].
  destruct (String.eqb (arch self) "mips"); reflexivity.
Qed.

Lemma keeps_Popen (d : string) (env : Env) (cmd : string) :
  keeps (sandbox_kept d) (Popen env cmd).
Proof.
  intros w. unfold Popen. destruct (child env cmd) as [msg|b]; [reflexivity |].
  apply sandbox_kept_same_fs with (evs := [EvSpawn cmd]); [reflexivity..|].
  intros d' H%list_elem_of_singleton; discriminate H.
Qed.

Lemma keeps_communicate (d : string) (p : Popen_obj) (t : Z) :
  keeps (sandbox_kept d) (communicate p t).
Proof.
  intros w. unfold communicate. destruct (behaviour p); [|reflexivity].
  apply sandbox_kept_same_fs with (evs := []);
    [reflexivity | simpl; now rewrite app_nil_r | set_solver].
Qed.

Lemma keeps_get_returncode (d : string) (p : Popen_obj) :
  keeps (sandbox_kept d) (get_returncode p).
Proof. intros w. reflexivity. Qed.

End SandboxFacts.

Section SandboxCleanup.
Import PyStr PyM HIL.

Ltac keeps_steps :=
  repeat first
    [ apply keeps_ret
    | apply keeps_raise
    | apply keeps_logging
    | apply keeps_copy2
    | apply keeps_build
    | apply keeps_Popen
    | apply keeps_communicate
    | apply keeps_get_returncode
    | apply keeps_try_except
    | apply keeps_bind
    | exact _
    | intros [? ?]
    | intros ? ].

Lemma _run_qemu_unfold (env : Env) (self : HILEmulator) :
  _run_qemu env self =
    (firmware ← require_file "Firmware" (firmware_path self);
     payload ← require_file "Payload" (payload_path self);
     temp_dir ← mkdtemp env;
     try_finally (guarded_body env self temp_dir firmware payload) (rmtree temp_dir)).
Proof. reflexivity. Qed.

Lemma keeps_guarded_body (env : Env) (self : HILEmulator) (d fw pl : string) :
  keeps (sandbox_kept d) (guarded_body env self d fw pl).
Proof. unfold guarded_body. keeps_steps. Qed.

(** The handler returns, so the guarded body never raises. *)
Lemma guarded_body_returns (env : Env) (self : HILEmulator) (d fw pl : string) (w : World) :
  exists r, (guarded_body env self d fw pl w).1 = inr r.
Proof. apply try_except_returns. intros e s1. eexists. reflexivity. Qed.

(** C9. Whatever way [_run_qemu] ends (it returned a result, it returned
    the error result of a caught exception or of an expired wait, or it
    raised), every temporary directory it made during the call has been
    removed when it ends: nothing is left at the directory or below it. *)
Theorem sandbox_dir_never_persists
    (env : Env) (self : HILEmulator) (w w' : World) (out : exn + ExecutionResult) :
  _run_qemu env self w = (out, w') ->
  exists evs, trace w' = trace w ++ evs /\
    forall d, EvMkdtemp d ∈ evs ->
      EvRmtree d ∈ evs /\ forall p, under d p = true -> fs w' !! p = None.
Proof.
  rewrite _run_qemu_unfold. intros H.
  assert (Hnone : forall A (x : A) (v : World),
             (x, v) = (x, v) -> exists evs : list event,
               trace v = trace v ++ evs /\
               forall d, EvMkdtemp d ∈ evs ->
                 EvRmtree d ∈ evs /\ forall p, under d p = true -> fs v !! p = None).
  { intros. exists []. split; [now rewrite app_nil_r | set_solver]. }
  rewrite run_bind in H.
  pose proof (require_file_world "Firmware" (firmware_path self) w) as W1.
  destruct (require_file "Firmware" (firmware_path self) w) as [[e|fw] w1];
    simpl in W1; subst w1.
  { injection H as <- <-. now apply (Hnone _ tt). }
  rewrite run_bind in H.
  pose proof (require_file_world "Payload" (payload_path self) w) as W2.
  destruct (require_file "Payload" (payload_path self) w) as [[e|pl] w1];
    simpl in W2; subst w1.
  { injection H as <- <-. now apply (Hnone _ tt). }
  rewrite run_bind in H.
  destruct (mkdtemp_cases env w) as [[e E]|(d & Hfree & E)]; rewrite E in H.
  { injection H as <- <-. now apply (Hnone _ tt). }
  unfold try_finally in H.
  pose proof (keeps_guarded_body env self d fw pl
                (emit (EvMkdtemp d) (set_fs (insert d Dir) w))) as [Hdir (evs & T & N)].
  destruct (guarded_body env self d fw pl _) as [r w3]. simpl in Hdir, T.
  rewrite lookup_insert_eq in Hdir. specialize (Hdir eq_refl).
  rewrite (rmtree_dir d w3 Hdir) in H. injection H as <- <-.
  exists ([EvMkdtemp d] ++ evs ++ [EvRmtree d]). split.
  - simpl. rewrite T. now rewrite <- !app_assoc.
  - intros d' Hin.
    assert (d' = d) as ->.
    { apply elem_of_app in Hin as [Hin|Hin].
      - apply list_elem_of_singleton in Hin. congruence.
      - apply elem_of_app in Hin as [Hin|Hin]; [now apply N in Hin |].
        apply list_elem_of_singleton in Hin. discriminate. }
    split.
    + apply elem_of_app. right. apply elem_of_app. right. now apply list_elem_of_singleton.
    + intros p Hp. simpl. now apply rmtree_clears.
Qed.

End SandboxCleanup.

Section SandboxRuns.
Import PyStr PyM HIL.

(** *** Runs that start no process *)

#[global] Instance nothing_spawned_preorder : PreOrder nothing_spawned.
Proof.
  split.
  - intros w. split; [reflexivity |]. exists []. split; [now rewrite app_nil_r |].
    intros cmd H. now apply elem_of_nil in H.
  - intros w1 w2 w3 [P12 (e12 & T12 & N12)] [P23 (e23 & T23 & N23)].
    split; [congruence |]. exists (e12 ++ e23). split.
    + now rewrite T23, T12, app_assoc.
    + intros cmd [?|?]%elem_of_app; [eapply N12 | eapply N23]; eassumption.
Qed.

Lemma nothing_spawned_by (w w' : World) (evs : list event) :
  procs w' = procs w -> trace w' = trace w ++ evs -> (forall cmd, EvSpawn cmd ∉ evs) ->
  nothing_spawned w w'.
Proof. intros Hp Ht Hn. split; eauto. Qed.

Ltac no_spawn_in evs :=
  apply nothing_spawned_by with evs;
  [ reflexivity
  | simpl; rewrite ?app_nil_r; reflexivity
  | let H := fresh in
    intros ? H; repeat (apply elem_of_cons in H as [H|H]; [discriminate H |]);
    now apply elem_of_nil in H ].

Lemma quiet_logging (r : log_record) : keeps nothing_spawned (logging r).
Proof. intros w. no_spawn_in (@nil event). Qed.

Lemma quiet_require_file (what : string) (path : option string) :
  keeps nothing_spawned (require_file what path).
Proof. intros w. rewrite require_file_world. reflexivity. Qed.

Lemma quiet_mkdtemp (env : Env) : keeps nothing_spawned (mkdtemp env).
Proof.
  intros w. destruct (mkdtemp_cases env w) as [[e ->]|(d & _ & ->)]; [reflexivity |].
  no_spawn_in [EvMkdtemp d].
Qed.

Lemma quiet_copy2 (src dst : string) : keeps nothing_spawned (copy2 src dst).
Proof.
  intros w.
  destruct (copy2_cases src dst w) as [[e ->]|[(m & data & _ & ->)|(e & m & data & _ & ->)]];
    [reflexivity | |].
  - no_spawn_in [EvCopy src (if is_dir (fs w) dst then join dst (basename src) else dst)].
  - no_spawn_in (@nil event).
Qed.

Lemma quiet_rmtree (d : string) : keeps nothing_spawned (rmtree d).
Proof.
  intros w. unfold rmtree. destruct (fs w !! d) as [[]|]; try reflexivity.
  no_spawn_in [EvRmtree d].
Qed.

Lemma _build_qemu_cmd_world (self : HILEmulator) (f p : string) (w w0 : World) :
  _build_qemu_cmd self f p w = ((_build_qemu_cmd self f p w0).1, w).
Proof.
  unfold _build_qemu_cmd. rewrite !run_bind.
  destruct (String.eqb (arch self) "arm"); [reflexivity |].
  destruct (String.eqb (arch self) "riscv"); [reflexivity |].
  destruct (String.eqb (arch self) "mips"); reflexivity.
Qed.

Lemma _build_qemu_cmd_unsupported (self : HILEmulator) (f p : string) (w : World) :
  supported_arch (arch self) = false ->
  _build_qemu_cmd self f p w =
    (inl (Exn ValueError ("Unsupported arch for QEMU: " +:+ arch self)), w).
Proof.
  unfold supported_arch, _build_qemu_cmd. rewrite run_bind.
  destruct (String.eqb (arch self) "arm"); [discriminate |].
  destruct (String.eqb (arch self) "riscv"); [discriminate |].
  destruct (String.eqb (arch self) "mips"); [discriminate | reflexivity].
Qed.

Lemma quiet_build (self : HILEmulator) (f p : string) :
  keeps nothing_spawned (_build_qemu_cmd self f p).
Proof. intros w. rewrite (_build_qemu_cmd_world self f p w w). reflexivity. Qed.

Lemma quiet_calculate_risk (r : ExecutionResult) : keeps nothing_spawned (_calculate_risk r).
Proof. intros w. rewrite _calculate_risk_run. apply quiet_logging. Qed.

Lemma quiet_guarded_body (env : Env) (self : HILEmulator) (d fw pl : string) :
  supported_arch (arch self) = false ->
  keeps nothing_spawned (guarded_body env self d fw pl).
Proof.
  intros Hu. unfold guarded_body. apply keeps_try_except; [exact _ | |].
  - apply keeps_bind; [exact _ | apply quiet_copy2 | intros _].
    apply keeps_bind; [exact _ | apply quiet_copy2 | intros _].
    apply keeps_bind_raises; [apply quiet_build |].
    intros w. rewrite _build_qemu_cmd_unsupported by assumption. eauto.
  - intros e. apply keeps_bind; [exact _ | apply quiet_logging | intros _].
    apply keeps_ret. exact _.
Qed.

Lemma quiet_run_qemu (env : Env) (self : HILEmulator) :
  supported_arch (arch self) = false -> keeps nothing_spawned (_run_qemu env self).
Proof.
  intros Hu. rewrite _run_qemu_unfold.
  apply keeps_bind; [exact _ | apply quiet_require_file | intros fw].
  apply keeps_bind; [exact _ | apply quiet_require_file | intros pl].
  apply keeps_bind; [exact _ | apply quiet_mkdtemp | intros d].
  apply keeps_try_finally; [exact _ | now apply quiet_guarded_body | apply quiet_rmtree].
Qed.

Lemma quiet_run_fpga (self : HILEmulator) : keeps nothing_spawned (_run_fpga self).
Proof.
  unfold _run_fpga. apply keeps_bind; [exact _ | apply quiet_logging | intros _].
  apply keeps_ret. exact _.
Qed.

Lemma with_payload_arch (payload : option string) (self : HILEmulator) :
  arch (with_payload payload self) = arch self.
Proof. unfold with_payload. now destruct (truthy_str payload). Qed.

Lemma with_payload_fpga (payload : option string) (self : HILEmulator) :
  fpga_enabled (with_payload payload self) = fpga_enabled self.
Proof. unfold with_payload. now destruct (truthy_str payload). Qed.

Lemma quiet_run (env : Env) (self : HILEmulator) (payload : option string) :
  supported_arch (arch self) = false -> keeps nothing_spawned (run env self payload).
Proof.
  intros Hu. unfold run.
  apply keeps_bind; [exact _ | | intros r].
  - destruct (fpga_enabled _); [apply quiet_run_fpga |].
    apply quiet_run_qemu. now rewrite with_payload_arch.
  - apply keeps_bind; [exact _ | apply quiet_calculate_risk | intros score].
    apply keeps_ret. exact _.
Qed.

End SandboxRuns.

Section StagedRuns.
Import PyStr PyM HIL.

(** *** Runs that get as far as the command line *)

Lemma names_readable_file_lookup (w : World) (p : string) :
  names_readable_file w (Some p) = true ->
  p <> "" /\ exists m data, fs w !! p = Some (File m data) /\ may_read m = true.
Proof.
  unfold names_readable_file, truthy_str. intros [Hp Hf]%andb_true_iff. split.
  - intros ->. discriminate.
  - destruct (fs w !! p) as [[m data|]|]; try discriminate. eauto.
Qed.

Lemma names_readable_file_names (w : World) (path : option string) :
  names_readable_file w path = true -> names_file w path = true.
Proof.
  unfold names_readable_file, names_file. destruct path as [p|]; [|discriminate].
  destruct (truthy_str (Some p)); [|discriminate]. simpl.
  now destruct (fs w !! p) as [[m data|]|].
Qed.

Lemma is_dir_unused (m : gmap string node) (p : string) : m !! p = None -> is_dir m p = false.
Proof. unfold is_dir. now intros ->. Qed.

Lemma is_dir_file (m : gmap string node) (p : string) (pm : perms) (data : string) :
  m !! p = Some (File pm data) -> is_dir m p = false.
Proof. unfold is_dir. now intros ->. Qed.

(** A readable file is copied to a path where nothing is. *)
Lemma copy2_run (src dst : string) (m : perms) (data : string) (w : World) :
  fs w !! src = Some (File m data) -> may_read m = true ->
  fs w !! dst = None ->
  copy2 src dst w =
    (inr tt, emit (EvCopy src dst) (set_fs (insert dst (File (as_own m) data)) w)).
Proof.
  intros Hs Hr Hd. unfold copy2. rewrite (is_dir_unused _ _ Hd), Hs, Hr, Hd.
  destruct (String.eqb_spec src dst) as [->|_]; [congruence | reflexivity].
Qed.

(** A readable file is copied over a file of the process's own that may be
    written. *)
Lemma copy2_over (src dst : string) (m m' : perms) (data data' : string) (w : World) :
  fs w !! src = Some (File m data) -> may_read m = true -> src <> dst ->
  fs w !! dst = Some (File m' data') -> mine m' = true -> user_w m' = true ->
  copy2 src dst w =
    (inr tt, emit (EvCopy src dst) (set_fs (insert dst (File (as_own m) data)) w)).
Proof.
  intros Hs Hr Hne Hd Hm Hw. unfold copy2.
  rewrite (is_dir_file _ _ _ _ Hd), Hs, Hr, Hd. unfold may_write. rewrite Hm, Hw.
  destruct (String.eqb_spec src dst) as [->|_]; [congruence | reflexivity].
Qed.

Lemma lands_in_spec (w : World) (d src : string) :
  lands_in w d src = true ->
  copy_target d src <> d /\ fs w !! copy_target d src = None.
Proof.
  unfold lands_in, is_free. intros [Hne Hd]%andb_true_iff. split.
  - intros E. rewrite E, String.eqb_refl in Hne. discriminate.
  - now destruct (fs w !! copy_target d src).
Qed.

Lemma staged_unused (env : Env) (self : HILEmulator) (w : World) (d fw pl : string) :
  staged env self w d fw pl -> fs w !! d = None.
Proof. intros (_ & _ & _ & _ & Hd & _). now apply draws_unused in Hd. Qed.

(** A staged run enters its guarded block in the fresh directory. *)
Lemma staged_enters (env : Env) (self : HILEmulator) (w : World) (d fw pl : string) :
  staged env self w d fw pl ->
  _run_qemu env self w =
    try_finally (guarded_body env self d fw pl) (rmtree d)
      (emit (EvMkdtemp d) (set_fs (insert d Dir) w)).
Proof.
  intros (Hf & Hp & Rf & Rp & Hd & _). rewrite _run_qemu_unfold, Hf, Hp.
  destruct (require_file_ok "Firmware" (Some fw) w) as (? & [= <-] & E1);
    [now apply names_readable_file_names |].
  destruct (require_file_ok "Payload" (Some pl) w) as (? & [= <-] & E2);
    [now apply names_readable_file_names |].
  rewrite (run_bind_ok _ _ _ _ _ E1), (run_bind_ok _ _ _ _ _ E2).
  now rewrite run_bind, (mkdtemp_draws _ _ _ Hd).
Qed.

(** Once the guarded block has returned, the directory is removed and the
    result handed on. *)
Lemma staged_outcome (env : Env) (self : HILEmulator) (w w4 : World) (d fw pl : string)
    (r : ExecutionResult) :
  staged env self w d fw pl ->
  guarded_body env self d fw pl (emit (EvMkdtemp d) (set_fs (insert d Dir) w)) = (inr r, w4) ->
  _run_qemu env self w =
    (inr r, emit (EvRmtree d) (set_fs (filter (fun kv => under d kv.1 = false)) w4)).
Proof.
  intros Hs Hg. rewrite (staged_enters _ _ _ _ _ _ Hs). unfold try_finally.
  pose proof (keeps_guarded_body env self d fw pl
                (emit (EvMkdtemp d) (set_fs (insert d Dir) w))) as [Hdir _].
  rewrite Hg in *. simpl in Hdir. rewrite lookup_insert_eq in Hdir.
  now rewrite (rmtree_dir d w4 (Hdir eq_refl)).
Qed.

(** Both copies of a staged run succeed. *)
Lemma staged_copies (env : Env) (self : HILEmulator) (w : World) (d fw pl : string) :
  staged env self w d fw pl ->
  exists w3,
    (forall A (k : Py World A),
        (copy2 fw (copy_target d fw);; copy2 pl (copy_target d pl);; k)
          (emit (EvMkdtemp d) (set_fs (insert d Dir) w)) = k w3) /\
    procs w3 = procs w /\ log w3 = log w /\
    trace w3 = trace w ++ [EvMkdtemp d; EvCopy fw (copy_target d fw);
                           EvCopy pl (copy_target d pl)].
Proof.
  intros Hs. pose proof (staged_unused _ _ _ _ _ _ Hs) as Hfree.
  destruct Hs as (_ & _ & Rf & Rp & _ & Lf & Lp & Hsame).
  apply names_readable_file_lookup in Rf as [_ (mf & fdata & Hfw & Rf)].
  apply names_readable_file_lookup in Rp as [_ (mp & pdata & Hpl & Rp)].
  apply lands_in_spec in Lf as [Nf Ff]. apply lands_in_spec in Lp as [Np Fp].
  set (w1 := emit (EvMkdtemp d) (set_fs (insert d Dir) w)).
  assert (E1 : copy2 fw (copy_target d fw) w1 =
               (inr tt, emit (EvCopy fw (copy_target d fw))
                          (set_fs (insert (copy_target d fw) (File (as_own mf) fdata)) w1))).
  { apply copy2_run; [|exact Rf|].
    - simpl. rewrite lookup_insert_ne; [assumption | congruence].
    - simpl. now rewrite lookup_insert_ne. }
  set (w2 := emit (EvCopy fw (copy_target d fw))
               (set_fs (insert (copy_target d fw) (File (as_own mf) fdata)) w1)) in E1.
  assert (Hpl2 : fs w2 !! pl = Some (File mp pdata)).
  { simpl. rewrite !lookup_insert_ne; [assumption | congruence | congruence]. }
  assert (E2 : copy2 pl (copy_target d pl) w2 =
               (inr tt, emit (EvCopy pl (copy_target d pl))
                          (set_fs (insert (copy_target d pl) (File (as_own mp) pdata)) w2))).
  { destruct (decide (copy_target d fw = copy_target d pl)) as [Heq|Hne].
    - apply copy2_over with (m' := as_own mf) (data' := fdata); auto.
      + congruence.
      + simpl. rewrite <- Heq. apply lookup_insert_eq.
      + specialize (Hsame Heq). unfold copy_writable in Hsame. rewrite Hfw in Hsame.
        exact Hsame.
    - apply copy2_run; [exact Hpl2 | exact Rp |].
      simpl. now rewrite !lookup_insert_ne. }
  eexists. split; [|split; [|split]].
  - intros A k. rewrite (run_bind_ok _ _ _ _ _ E1), (run_bind_ok _ _ _ _ _ E2). reflexivity.
  - reflexivity.
  - reflexivity.
  - simpl. now rewrite <- !app_assoc.
Qed.

(** A staged run for an unsupported architecture ends in the handler. *)
Lemma guarded_unsupported (env : Env) (self : HILEmulator) (w : World) (d fw pl : string) :
  staged env self w d fw pl ->
  supported_arch (arch self) = false ->
  exists w4,
    guarded_body env self d fw pl (emit (EvMkdtemp d) (set_fs (insert d Dir) w)) =
      (inr (error_result ("Unsupported arch for QEMU: " +:+ arch self)), w4) /\
    procs w4 = procs w /\
    trace w4 = trace w ++ [EvMkdtemp d; EvCopy fw (copy_target d fw);
                           EvCopy pl (copy_target d pl)].
Proof.
  intros Hs Hu. destruct (staged_copies _ _ _ _ _ _ Hs) as (w3 & Hk & P3 & _ & T3).
  eexists. split; [|split].
  - unfold guarded_body, try_except. cbv zeta. fold (copy_target d fw) (copy_target d pl).
    rewrite Hk, run_bind, (_build_qemu_cmd_unsupported _ _ _ _ Hu). reflexivity.
  - exact P3.
  - exact T3.
Qed.

(** A staged run whose call of [Popen] raises ends in the handler. *)
Lemma guarded_spawn_failure (env : Env) (self : HILEmulator) (w : World)
    (d fw pl cmd msg : string) :
  staged env self w d fw pl ->
  (_build_qemu_cmd self (copy_target d fw) (copy_target d pl) w).1 = inr cmd ->
  child env cmd = SpawnFails msg ->
  exists w4,
    guarded_body env self d fw pl (emit (EvMkdtemp d) (set_fs (insert d Dir) w)) =
      (inr (error_result msg), w4) /\
    procs w4 = procs w /\
    trace w4 = trace w ++ [EvMkdtemp d; EvCopy fw (copy_target d fw);
                           EvCopy pl (copy_target d pl)].
Proof.
  intros Hs Hb Hc. destruct (staged_copies _ _ _ _ _ _ Hs) as (w3 & Hk & P3 & _ & T3).
  eexists. split; [|split].
  - unfold guarded_body, try_except. cbv zeta. fold (copy_target d fw) (copy_target d pl).
    rewrite Hk, run_bind, (_build_qemu_cmd_world _ _ _ w3 w), Hb.
    rewrite !run_bind. cbn [logging]. unfold Popen. rewrite Hc. reflexivity.
  - exact P3.
  - exact T3.
Qed.

(** A staged run whose child outlasts the wait ends in the handler, with
    the child still in the process table. *)
Lemma guarded_timeout (env : Env) (self : HILEmulator) (w : World) (d fw pl cmd : string) :
  staged env self w d fw pl ->
  (_build_qemu_cmd self (copy_target d fw) (copy_target d pl) w).1 = inr cmd ->
  child env cmd = Spawns Hangs ->
  exists w4,
    guarded_body env self d fw pl (emit (EvMkdtemp d) (set_fs (insert d Dir) w)) =
      (inr (error_result ("Command '" +:+ cmd +:+ "' timed out after 60 seconds")), w4) /\
    procs w4 = procs w ++ [Proc cmd Running] /\
    trace w4 = trace w ++ [EvMkdtemp d; EvCopy fw (copy_target d fw);
                           EvCopy pl (copy_target d pl); EvSpawn cmd].
Proof.
  intros Hs Hb Hc. destruct (staged_copies _ _ _ _ _ _ Hs) as (w3 & Hk & P3 & _ & T3).
  eexists. split; [|split].
  - unfold guarded_body, try_except. cbv zeta. fold (copy_target d fw) (copy_target d pl).
    rewrite Hk, run_bind, (_build_qemu_cmd_world _ _ _ w3 w), Hb.
    rewrite !run_bind. cbn [logging]. unfold Popen. rewrite Hc. reflexivity.
  - simpl. now rewrite P3.
  - simpl. rewrite T3. now rewrite <- app_assoc.
Qed.

End StagedRuns.

(** ** The claims about the emulator *)

Section EmulatorClaims.
Import PyStr PyM HIL.

Lemma run_of_qemu (env : Env) (self : HILEmulator) (payload : option string)
    (w w' : World) (r : ExecutionResult) :
  fpga_enabled self = false ->
  _run_qemu env (with_payload payload self) w = (inr r, w') ->
  stderr r = None ->
  exists w'',
    run env self payload w = (inr (with_payload payload self, set_risk_score 0.2 r), w'') /\
    fs w'' = fs w' /\ procs w'' = procs w' /\ trace w'' = trace w'.
Proof.
  intros Hq Hr Hs. unfold run. cbv zeta. rewrite with_payload_fpga, Hq.
  rewrite (run_bind_ok _ _ _ _ _ Hr), run_bind, _calculate_risk_run, Hs.
  eexists. split; [reflexivity |]. simpl. auto.
Qed.

Lemma run_of_qemu_raise (env : Env) (self : HILEmulator) (payload : option string)
    (w w' : World) (e : exn) :
  fpga_enabled self = false ->
  _run_qemu env (with_payload payload self) w = (inl e, w') ->
  run env self payload w = (inl e, w').
Proof.
  intros Hq Hr. unfold run. cbv zeta. rewrite with_payload_fpga, Hq.
  now rewrite (run_bind_raise _ _ _ _ _ Hr).
Qed.

(** C4, as the code has it. When the child of a staged run in process mode
    does not end within the wait of 60 seconds, [_run_qemu] raises nothing:
    it returns the error result that carries the message of the expired
    wait (keys error and mode, no exit status), and the temporary directory
    is gone when it returns. The child is then still running: nothing has
    terminated it. *)
Theorem timeout_returned_not_raised
    (env : Env) (self : HILEmulator) (w : World) (d fw pl cmd : string) :
  staged env self w d fw pl ->
  (_build_qemu_cmd self (copy_target d fw) (copy_target d pl) w).1 = inr cmd ->
  child env cmd = Spawns Hangs ->
  exists w',
    _run_qemu env self w =
      (inr (error_result ("Command '" +:+ cmd +:+ "' timed out after 60 seconds")), w') /\
    procs w' = procs w ++ [Proc cmd Running] /\
    forall p, under d p = true -> fs w' !! p = None.
Proof.
  intros Hs Hb Hc.
  destruct (guarded_timeout _ _ _ _ _ _ _ Hs Hb Hc) as (w4 & Hg & P4 & _).
  eexists. split; [exact (staged_outcome _ _ _ _ _ _ _ _ Hs Hg) |].
  split; [exact P4 |].
  intros p Hp. simpl. now apply rmtree_clears.
Qed.

(** C3, as the code has it. The scorer reads the captured stderr only: two
    results with the same stderr get the same score. The result of a staged
    run whose child outlasts the wait, or whose call of [Popen] raises, has
    no stderr, and [run] gives it the score 0.2. *)
Theorem failed_run_scored_as_baseline
    (env : Env) (self : HILEmulator) (payload : option string) (w : World)
    (d fw pl cmd : string) :
  fpga_enabled self = false ->
  staged env (with_payload payload self) w d fw pl ->
  (_build_qemu_cmd (with_payload payload self) (copy_target d fw) (copy_target d pl) w).1
    = inr cmd ->
  child env cmd = Spawns Hangs \/ (exists msg, child env cmd = SpawnFails msg) ->
  (forall (r r' : ExecutionResult) (w0 : World),
      stderr r = stderr r' -> _calculate_risk r w0 = _calculate_risk r' w0) /\
  exists msg w',
    run env self payload w =
      (inr (with_payload payload self, set_risk_score 0.2 (error_result msg)), w') /\
    stderr (error_result msg) = None.
Proof.
  intros Hq Hs Hb Hchild. split.
  { intros r r' w0 Hsame. rewrite !_calculate_risk_run. now rewrite Hsame. }
  destruct Hchild as [Hc|[msg Hc]].
  - destruct (guarded_timeout _ _ _ _ _ _ _ Hs Hb Hc) as (w4 & Hg & _ & _).
    pose proof (staged_outcome _ _ _ _ _ _ _ _ Hs Hg) as Hr.
    destruct (run_of_qemu _ _ _ _ _ _ Hq Hr eq_refl) as (w' & Hrun & _).
    eauto.
  - destruct (guarded_spawn_failure _ _ _ _ _ _ _ _ Hs Hb Hc) as (w4 & Hg & _ & _).
    pose proof (staged_outcome _ _ _ _ _ _ _ _ Hs Hg) as Hr.
    destruct (run_of_qemu _ _ _ _ _ _ Hq Hr eq_refl) as (w' & Hrun & _).
    eauto.
Qed.

(** C5, as the code has it. A run in process mode for an architecture other
    than arm, riscv and mips starts no process. The error of the command
    builder is raised inside the guarded block, after the temporary
    directory was made and the inputs were copied: for a staged run it is
    caught and returned as the error result "Unsupported arch for QEMU:
    <arch>", and the directory is removed before [run] returns. *)
Theorem unsupported_arch_caught_in_sandbox
    (env : Env) (self : HILEmulator) (payload : option string) (w : World) :
  fpga_enabled self = false ->
  supported_arch (arch self) = false ->
  nothing_spawned w (run env self payload w).2 /\
  forall d fw pl,
    staged env (with_payload payload self) w d fw pl ->
    exists w',
      run env self payload w =
        (inr (with_payload payload self,
              set_risk_score 0.2
                (error_result ("Unsupported arch for QEMU: " +:+ arch self))), w') /\
      trace w' = trace w ++ [EvMkdtemp d; EvCopy fw (copy_target d fw);
                             EvCopy pl (copy_target d pl); EvRmtree d] /\
      forall p, under d p = true -> fs w' !! p = None.
Proof.
  intros Hq Hu. split; [now apply quiet_run |].
  intros d fw pl Hs.
  assert (Hu' : supported_arch (arch (with_payload payload self)) = false)
    by now rewrite with_payload_arch.
  destruct (guarded_unsupported _ _ _ _ _ _ Hs Hu') as (w4 & Hg & _ & T4).
  rewrite with_payload_arch in Hg.
  pose proof (staged_outcome _ _ _ _ _ _ _ _ Hs Hg) as Hr.
  destruct (run_of_qemu _ _ _ _ _ _ Hq Hr eq_refl) as (w' & Hrun & Hfs & _ & Ht).
  exists w'. split; [exact Hrun |]. split.
  - rewrite Ht. simpl. rewrite T4. now rewrite <- app_assoc.
  - intros p Hp. rewrite Hfs. simpl. now apply rmtree_clears.
Qed.

(** C6, as the code has it. When the firmware path or the payload path of a
    run in process mode is unset, empty, or names no regular file, [run]
    raises [FileNotFoundError] and the world is as before: no temporary
    directory was made and no process started. *)
Theorem missing_artifact_fails_first
    (env : Env) (self : HILEmulator) (payload : option string) (w : World) :
  fpga_enabled self = false ->
  names_file w (firmware_path (with_payload payload self)) = false \/
  names_file w (payload_path (with_payload payload self)) = false ->
  exists msg, run env self payload w = (inl (Exn FileNotFoundError msg), w).
Proof.
  intros Hq Hmiss. set (self' := with_payload payload self) in *.
  assert (exists msg, _run_qemu env self' w = (inl (Exn FileNotFoundError msg), w))
    as [msg Hr].
  { rewrite _run_qemu_unfold.
    destruct (names_file w (firmware_path self')) eqn:Ef.
    - destruct Hmiss as [|Ep]; [discriminate |].
      apply require_file_ok with (what := "Firmware") in Ef as (fw & _ & Ef).
      rewrite (run_bind_ok _ _ _ _ _ Ef).
      eexists. apply run_bind_raise. now apply require_file_missing.
    - eexists. apply run_bind_raise. now apply require_file_missing. }
  exists msg. now apply run_of_qemu_raise.
Qed.

End EmulatorClaims.

(** ** The emulator on concrete runs *)

Section EmulatorRuns.
Import PyStr PyM HIL Scenario.

Lemma staged_on_disk (env : Env) (a : string) :
  tmp_names env = ["/tmp/tmpk3_x9a2b"] ->
  tempdir_error env = None -> mkdir_error env "/tmp/tmpk3_x9a2b" = None ->
  staged env (emulator a) (world disk) "/tmp/tmpk3_x9a2b" "fw.bin" "/srv/payload.sh".
Proof.
  intros Hn Ht Hm. unfold staged, draws. rewrite Hn, Ht, Hm.
  split; [reflexivity |]. split; [reflexivity |]. split; [reflexivity |].
  split; [reflexivity |]. split; [auto |]. split; [reflexivity |]. split; [reflexivity |].
  intros _. reflexivity.
Qed.

(** A run that ends by itself is scored on its stderr: the crash rule wins
    over the error rule. *)
Example panic_run_scored_high :
  (run env_panic (emulator "arm") None (world disk)).1 =
    inr (emulator "arm",
         {| stdout := Some "booting";
            stderr := Some "ERROR: Kernel PANIC - not syncing";
            returncode := Some 1%Z; error := None; mode := "qemu";
            risk_score := Some 0.9%float |}).
Proof. vm_compute. reflexivity. Qed.

(** An emulator binary that is not installed is a run that completes: the
    shell reports it on stderr, which the rules score 0.2. *)
Example missing_binary_run_completes :
  (run env_no_binary (emulator "arm") None (world disk)).1 =
    inr (emulator "arm",
         {| stdout := Some ""; stderr := Some "/bin/sh: 1: qemu-system-arm: not found";
            returncode := Some 127%Z; error := None; mode := "qemu";
            risk_score := Some 0.2%float |}).
Proof. vm_compute. reflexivity. Qed.

Example fpga_run_scored_low :
  let self := init {| cfg_arch := Some "RISCV"; cfg_firmware_path := None;
                      cfg_payload_path := None; cfg_fpga_enabled := Some true;
                      cfg_qemu_path := None; cfg_log_file := None |} in
  (run env_panic self (Some "blink.bit") (world ∅)).1 =
    inr (set_payload_path (Some "blink.bit") self,
         {| stdout := Some "[MOCK] FPGA run of blink.bit on riscv"; stderr := Some "";
            returncode := Some 0%Z; error := None; mode := "fpga";
            risk_score := Some 0.2%float |}).
Proof. vm_compute. reflexivity. Qed.

(** C3, counterexample. The run of a child that outlasts the wait is scored
    0.2, and so is the run of a command for which the call of [Popen]
    raises; 0.2 is below 0.7. *)
Lemma timed_out_run_scored_below_threshold :
  (run env_hanging (emulator "arm") None (world disk)).1 =
    inr (emulator "arm",
         set_risk_score 0.2
           (error_result ("Command '" +:+ arm_cmd +:+ "' timed out after 60 seconds"))) /\
  (run env_no_shell (emulator "arm") None (world disk)).1 =
    inr (emulator "arm",
         set_risk_score 0.2 (error_result "[Errno 12] Cannot allocate memory")) /\
  PrimFloat.leb 0.7 0.2 = false.
Proof. repeat split; vm_compute; reflexivity. Qed.

Lemma failed_run_scored_as_baseline_witness :
  (forall (r r' : ExecutionResult) (w0 : World),
      stderr r = stderr r' -> _calculate_risk r w0 = _calculate_risk r' w0) /\
  exists msg w',
    run env_hanging (emulator "arm") None (world disk) =
      (inr (with_payload None (emulator "arm"), set_risk_score 0.2 (error_result msg)), w') /\
    stderr (error_result msg) = None.
Proof.
  apply (failed_run_scored_as_baseline env_hanging (emulator "arm") None (world disk)
           "/tmp/tmpk3_x9a2b" "fw.bin" "/srv/payload.sh" arm_cmd).
  - reflexivity.
  - apply staged_on_disk; reflexivity.
  - vm_compute. reflexivity.
  - left. reflexivity.
Defined.

(** C4, counterexample. After the wait has expired, [_run_qemu] returns
    while the child is still running: nothing has terminated it. The result
    it returns has the keys error and mode only. *)
Lemma timed_out_child_left_running :
  (_run_qemu env_hanging (emulator "arm") (world disk)).1 =
    inr {| stdout := None; stderr := None; returncode := None;
           error := Some ("Command '" +:+ arm_cmd +:+ "' timed out after 60 seconds");
           mode := "qemu"; risk_score := None |} /\
  procs (_run_qemu env_hanging (emulator "arm") (world disk)).2 = [Proc arm_cmd Running].
Proof. split; vm_compute; reflexivity. Qed.

Lemma timeout_returned_not_raised_witness :
  exists w',
    _run_qemu env_hanging (emulator "arm") (world disk) =
      (inr (error_result ("Command '" +:+ arm_cmd +:+ "' timed out after 60 seconds")), w') /\
    procs w' = procs (world disk) ++ [Proc arm_cmd Running] /\
    forall p, under "/tmp/tmpk3_x9a2b" p = true -> fs w' !! p = None.
Proof.
  apply (timeout_returned_not_raised env_hanging (emulator "arm") (world disk)
           "/tmp/tmpk3_x9a2b" "fw.bin" "/srv/payload.sh" arm_cmd).
  - apply staged_on_disk; reflexivity.
  - vm_compute. reflexivity.
  - reflexivity.
Defined.

(** C5, counterexample. For the architecture z80, with both inputs on disk,
    [run] raises nothing: it returns a scored result, and by then a
    temporary directory has been made, filled and removed. *)
Lemma z80_run_returns_after_staging :
  (run env_hanging (emulator "z80") None (world disk)).1 =
    inr (emulator "z80",
         set_risk_score 0.2 (error_result "Unsupported arch for QEMU: z80")) /\
  trace (run env_hanging (emulator "z80") None (world disk)).2 =
    [EvMkdtemp "/tmp/tmpk3_x9a2b";
     EvCopy "fw.bin" "/tmp/tmpk3_x9a2b/fw.bin";
     EvCopy "/srv/payload.sh" "/tmp/tmpk3_x9a2b/payload.sh";
     EvRmtree "/tmp/tmpk3_x9a2b"].
Proof. split; vm_compute; reflexivity. Qed.

Lemma unsupported_arch_caught_in_sandbox_witness :
  nothing_spawned (world disk) (run env_hanging (emulator "z80") None (world disk)).2 /\
  exists w',
    run env_hanging (emulator "z80") None (world disk) =
      (inr (with_payload None (emulator "z80"),
            set_risk_score 0.2
              (error_result ("Unsupported arch for QEMU: " +:+ arch (emulator "z80")))), w') /\
    trace w' = trace (world disk)
               ++ [EvMkdtemp "/tmp/tmpk3_x9a2b";
                   EvCopy "fw.bin" (copy_target "/tmp/tmpk3_x9a2b" "fw.bin");
                   EvCopy "/srv/payload.sh" (copy_target "/tmp/tmpk3_x9a2b" "/srv/payload.sh");
                   EvRmtree "/tmp/tmpk3_x9a2b"] /\
    forall p, under "/tmp/tmpk3_x9a2b" p = true -> fs w' !! p = None.
Proof.
  destruct (unsupported_arch_caught_in_sandbox env_hanging (emulator "z80") None (world disk)
              eq_refl eq_refl) as [Hquiet Hstaged].
  split; [exact Hquiet |].
  apply (Hstaged "/tmp/tmpk3_x9a2b" "fw.bin" "/srv/payload.sh").
  apply staged_on_disk; reflexivity.
Defined.

(** C6, counterexample. A firmware image that is on disk but may not be
    read passes the guard: a temporary directory is made, the copy fails,
    and [run] returns the error result of a denied permission instead of
    raising the error of a missing artifact. *)
Lemma unreadable_firmware_not_reported_missing :
  names_readable_file (world disk_locked) (Some "fw.bin") = false /\
  (run env_hanging (emulator "arm") None (world disk_locked)).1 =
    inr (emulator "arm",
         set_risk_score 0.2 (error_result "[Errno 13] Permission denied: 'fw.bin'")) /\
  trace (run env_hanging (emulator "arm") None (world disk_locked)).2 =
    [EvMkdtemp "/tmp/tmpk3_x9a2b"; EvRmtree "/tmp/tmpk3_x9a2b"].
Proof. repeat split; vm_compute; reflexivity. Qed.

Lemma missing_artifact_fails_first_witness :
  exists msg,
    run env_hanging (emulator "arm") (Some "/srv/absent.sh") (world disk) =
      (inl (Exn FileNotFoundError msg), world disk).
Proof.
  apply (missing_artifact_fails_first env_hanging (emulator "arm") (Some "/srv/absent.sh")
           (world disk)).
  - reflexivity.
  - right. vm_compute. reflexivity.
Defined.

Lemma sandbox_dir_never_persists_witness :
  exists evs,
    trace (_run_qemu env_hanging (emulator "arm") (world disk)).2 = trace (world disk) ++ evs /\
    forall d, EvMkdtemp d ∈ evs ->
      EvRmtree d ∈ evs /\
      forall p, under d p = true ->
        fs (_run_qemu env_hanging (emulator "arm") (world disk)).2 !! p = None.
Proof.
  apply (sandbox_dir_never_persists env_hanging (emulator "arm") (world disk)
           (_run_qemu env_hanging (emulator "arm") (world disk)).2
           (_run_qemu env_hanging (emulator "arm") (world disk)).1).
  apply surjective_pairing.
Defined.

End EmulatorRuns.

(** ** The replay of a chain *)

Section ReplayFacts.
Import PyStr PyM Replay.
Context {W : Type}.
Implicit Types (w : World W) (mods : option (gmap string (ExploitModule W))).

Lemma py_sum_from (l : list Z) (a : Z) : fold_left Z.add l a = (a + py_sum l)%Z.
Proof.
  unfold py_sum. revert a. induction l as [|x l IH]; intros a; simpl; [lia |].
  rewrite (IH (a + x)%Z), (IH (0 + x)%Z). lia.
Qed.

Lemma py_sum_ones {A} (l : list A) : py_sum ((fun _ => 1%Z) <$> l) = Z.of_nat (length l).
Proof.
  induction l as [|x l IH]; [reflexivity |].
  unfold py_sum in *. cbn [fmap list_fmap fold_left length].
  rewrite py_sum_from. unfold py_sum. rewrite IH. lia.
Qed.

Lemma filter_length_le {A} (f : A -> bool) (l : list A) :
  length (List.filter f l) <= length l.
Proof. induction l as [|x l IH]; simpl; [lia |]. destruct (f x); simpl; lia. Qed.

Lemma filter_length_all {A} (f : A -> bool) (l : list A) :
  length (List.filter f l) = length l <-> forallb f l = true.
Proof.
  induction l as [|x l IH]; simpl; [tauto |].
  pose proof (filter_length_le f l). destruct (f x); simpl.
  - rewrite <- IH. lia.
  - split; [lia | discriminate].
Qed.

(** The number of successes that [analyze_results] counts. *)
Lemma successes_counted (R : list StepResult) :
  py_sum ((fun _ => 1%Z) <$> List.filter success R) =
    Z.of_nat (length (List.filter success R)).
Proof. apply py_sum_ones. Qed.

Lemma analyze_results_run (self : AttackReplay) (R : list StepResult) w :
  exists s,
    analyze_results self R w = (inr s, (logging (InfoSummary "Chain analysis summary: " s) w).2) /\
    summary_chain_name s = chain_name self /\
    total_steps s = Z.of_nat (length R) /\
    successes s = Z.of_nat (length (List.filter success R)) /\
    failures s = (total_steps s - successes s)%Z /\
    impacts s = impact <$> R /\
    overall_success s = (successes s =? total_steps s)%Z.
Proof.
  eexists. split; [reflexivity |]. cbn.
  rewrite successes_counted. repeat split; reflexivity.
Qed.

Lemma overall_success_all (R : list StepResult) :
  (Z.of_nat (length (List.filter success R)) =? Z.of_nat (length R))%Z = forallb success R.
Proof.
  destruct (forallb success R) eqn:E.
  - apply filter_length_all in E. rewrite E. apply Z.eqb_refl.
  - apply Z.eqb_neq. intros H. apply Nat2Z.inj in H.
    apply filter_length_all in H. congruence.
Qed.

(** C10. For every list of step results, the empty one included, the
    summary has total_steps equal to the number of results, successes and
    failures that add up to it, one impact per result in the order of the
    results, and overall_success true exactly when there is no failure; for
    the empty list total_steps is 0 and overall_success is true. *)
Theorem summary_accounts_for_every_step (self : AttackReplay) (R : list StepResult) w :
  exists s w',
    analyze_results self R w = (inr s, w') /\
    total_steps s = Z.of_nat (length R) /\
    (successes s + failures s = total_steps s)%Z /\
    (0 <= successes s)%Z /\ (0 <= failures s)%Z /\
    impacts s = impact <$> R /\
    length (impacts s) = length R /\
    (overall_success s = true <-> failures s = 0%Z) /\
    (R = [] -> total_steps s = 0%Z /\ overall_success s = true).
Proof.
  destruct (analyze_results_run self R w) as (s & Hrun & _ & Ht & Hs & Hf & Hi & Ho).
  exists s. eexists. split; [exact Hrun |].
  pose proof (filter_length_le success R) as Hle.
  split; [exact Ht |].
  split; [lia |]. split; [lia |]. split; [lia |].
  split; [exact Hi |].
  split; [rewrite Hi; apply length_fmap |].
  split; [rewrite Ho, Z.eqb_eq; lia |].
  intros ->. split; [now rewrite Ht |]. now rewrite Ho, Hs, Ht.
Qed.

Lemma find_module_unregistered mods (device_type : string) :
  ~ registered mods device_type -> find_module mods device_type = None.
Proof.
  intros Hn. unfold find_module. destruct mods as [registry|]; [|reflexivity].
  destruct (Nat.eqb (size registry) 0); [reflexivity |].
  destruct (registry !! device_type) as [module|] eqn:E; [|reflexivity].
  exfalso. apply Hn. now exists registry, module.
Qed.

Lemma replay_step_mock mods (step : ChainStep) w :
  ~ registered mods (default "generic" (step_device_type step)) \/ step_vuln step = None ->
  replay_step mods step w = (inr (mock_result step), w).
Proof.
  intros [Hn|Hv]; unfold replay_step; cbv zeta.
  - rewrite (find_module_unregistered _ _ Hn). reflexivity.
  - rewrite Hv. simpl. now destruct (find_module mods _).
Qed.

Lemma find_module_Some mods (device_type : string) (module : ExploitModule W) :
  find_module mods device_type = Some module ->
  exists registry, mods = Some registry /\ registry !! device_type = Some module.
Proof.
  unfold find_module. destruct mods as [registry|]; [|discriminate].
  destruct (Nat.eqb (size registry) 0); [discriminate |]. eauto.
Qed.


(** With modules that return, a step yields a result. *)
Lemma replay_step_returns mods (step : ChainStep) w :
  modules_return mods ->
  exists r w', replay_step mods step w = (inr r, w').
Proof.
  intros Hret. unfold replay_step. cbv zeta.
  destruct (find_module mods _) as [module|] eqn:Hm; [|eauto].
  destruct (usable_vuln (step_vuln step)) as [vuln|]; [|eauto].
  apply find_module_Some in Hm as (registry & -> & Hm).
  destruct (Hret registry _ module eq_refl Hm) as [Hcraft Hsim].
  rewrite run_bind. unfold call at 1.
  destruct (Hcraft vuln (default (JObj []) (step_options step)) (mstate w))
    as (exploit & s1 & ->).
  cbn [fst snd]. rewrite run_bind. unfold call.
  destruct (Hsim exploit s1) as (sim & s2 & E). cbn [mstate]. rewrite E.
  eauto.
Qed.

(** The loop on a list of steps put end to end: the second list is run
    from where the first one ended, if it ended well. *)
Lemma replay_loop_app mods (steps1 steps2 : list ChainStep) (acc : list StepResult) w :
  replay_loop mods (steps1 ++ steps2) acc w =
    match replay_loop mods steps1 acc w with
    | (inr rs, w1) => replay_loop mods steps2 rs w1
    | (inl e, w1) => (inl e, w1)
    end.
Proof.
  revert acc w. induction steps1 as [|step steps1 IH]; intros acc w; [reflexivity |].
  cbn [app replay_loop]. rewrite !run_bind.
  destruct (replay_step mods step w) as [[e|r] w1]; [reflexivity |].
  rewrite !run_bind. cbn [logging]. apply IH.
Qed.

(** What a module raises at a step ends the loop there: the steps after
    it are not run, and the results of the steps before it are dropped. *)
Lemma module_error_ends_loop mods (steps1 steps2 : list ChainStep) (step : ChainStep)
    (acc rs : list StepResult) w w1 w2 (e : exn) :
  replay_loop mods steps1 acc w = (inr rs, w1) ->
  replay_step mods step w1 = (inl e, w2) ->
  replay_loop mods (steps1 ++ step :: steps2) acc w = (inl e, w2).
Proof.
  intros E1 E2. rewrite replay_loop_app, E1. cbn [replay_loop].
  now rewrite (run_bind_raise _ _ _ _ _ E2).
Qed.

(** When the loop returns, it returns one result for each step. *)
Lemma replay_loop_returned mods (steps : list ChainStep) (acc results : list StepResult) w w' :
  replay_loop mods steps acc w = (inr results, w') ->
  exists rs, results = acc ++ rs /\ Forall2 (yields mods) steps rs.
Proof.
  revert acc w. induction steps as [|step steps IH]; intros acc w.
  - intros [= <- _]. exists []. split; [now rewrite app_nil_r | constructor].
  - cbn [replay_loop]. rewrite run_bind.
    destruct (replay_step mods step w) as [[e|r] w1] eqn:E1; [discriminate |].
    rewrite run_bind. cbn [logging]. intros E.
    apply IH in E as (rs & -> & HF).
    exists (r :: rs). split; [now rewrite <- app_assoc |].
    constructor; [|exact HF]. exists w. now rewrite E1.
Qed.

Lemma replay_loop_run mods (steps : list ChainStep) (acc : list StepResult) w :
  modules_return mods ->
  exists rs w',
    replay_loop mods steps acc w = (inr (acc ++ rs), w') /\
    Forall2 (yields mods) steps rs.
Proof.
  intros Hret. revert acc w. induction steps as [|step steps IH]; intros acc w.
  - exists [], w. split; [now rewrite app_nil_r | constructor].
  - destruct (replay_step_returns mods step w Hret) as (r & w1 & E1).
    cbn [replay_loop]. rewrite (run_bind_ok _ _ _ _ _ E1), run_bind. cbn [logging].
    destruct (IH (acc ++ [r]) (logging (InfoStep "Replayed chain step: " r) w1).2)
      as (rs & w' & E & HF).
    exists (r :: rs), w'. split.
    + cbn [logging snd] in E. rewrite E. now rewrite <- app_assoc.
    + constructor; [|exact HF]. exists w. now rewrite E1.
Qed.




(** C7. A step for whose device type no module is registered, or that
    carries no vulnerability reference, yields the mock result: success is
    true and the impact is the fixed text "Mock impact.". The step does not
    end the loop: its result is added to the results so far, and the loop
    goes on with the steps after it. A replay that returns has the mock
    result at the position of the step, and a replay with modules whose
    calls return does return. *)
Theorem unresolved_step_passes_through mods (step : ChainStep) :
  ~ registered mods (default "generic" (step_device_type step)) \/ step_vuln step = None ->
  (forall w, replay_step mods step w = (inr (mock_result step), w)) /\
  success (mock_result step) = true /\
  impact (mock_result step) = "Mock impact." /\
  impact (mock_result step) <> "" /\
  (forall (rest : list ChainStep) (acc : list StepResult) w,
      replay_loop mods (step :: rest) acc w =
        replay_loop mods rest (acc ++ [mock_result step])
          (logging (InfoStep "Replayed chain step: " (mock_result step)) w).2) /\
  (forall (self : AttackReplay) w (i : nat) (results : list StepResult) w',
      chain_steps self !! i = Some step ->
      replay_chain self mods w = (inr results, w') ->
      length results = length (chain_steps self) /\
      results !! i = Some (mock_result step)) /\
  (modules_return mods ->
   forall (self : AttackReplay) w (i : nat),
     chain_steps self !! i = Some step ->
     exists results w',
       replay_chain self mods w = (inr results, w') /\
       length results = length (chain_steps self) /\
       results !! i = Some (mock_result step)).
Proof.
  intros Hc.
  assert (Hpos : forall (self : AttackReplay) w (i : nat) (results : list StepResult) w',
             chain_steps self !! i = Some step ->
             replay_chain self mods w = (inr results, w') ->
             length results = length (chain_steps self) /\
             results !! i = Some (mock_result step)).
  { intros self w i results w' Hi E.
    apply replay_loop_returned in E as (rs & -> & HF). rewrite app_nil_l.
    split; [symmetry; eapply Forall2_length; exact HF |].
    destruct (Forall2_lookup_l _ _ _ _ _ HF Hi) as (r & Hr & [w0 Hy]).
    rewrite (replay_step_mock _ _ w0 Hc) in Hy. injection Hy as <-. exact Hr. }
  split; [intros w; now apply replay_step_mock |].
  split; [reflexivity |]. split; [reflexivity |]. split; [discriminate |].
  split; [|split; [exact Hpos |]].
  - intros rest acc w. cbn [replay_loop].
    now rewrite (run_bind_ok _ _ _ _ _ (replay_step_mock _ _ w Hc)), run_bind.
  - intros Hret self w i Hi.
    destruct (replay_loop_run mods (chain_steps self) [] w Hret) as (rs & w' & E & _).
    exists rs, w'. split; [exact E |]. exact (Hpos self w i rs w' Hi E).
Qed.

End ReplayFacts.

(** ** The report *)

Section ReportFacts.
Import PyStr PyM Replay.
Context {W : Type}.
Implicit Types (w : World W).

Lemma truthy_str_named (path : string) : path <> "" -> truthy_str (Some path) = true.
Proof.
  intros Hne. unfold truthy_str. destruct (String.eqb_spec path ""); [contradiction | reflexivity].
Qed.

Lemma generate_report_run (self : AttackReplay) (R : list StepResult) (s : Summary)
    (path : string) w :
  path <> "" -> writable w path = true ->
  exists w',
    generate_report self R s (Some path) w = (inr path, w') /\
    files w' = <[path := report_of self R s]> (files w) /\
    writable w' = writable w.
Proof.
  intros Hne Hw. unfold generate_report. cbv zeta.
  rewrite (truthy_str_named _ Hne). cbn [fmt_opt].
  rewrite run_bind. unfold dump_to. rewrite Hw.
  eexists. split; [reflexivity |]. split; reflexivity.
Qed.

Lemma report_of_read (self : AttackReplay) (R : list StepResult) (s : Summary) :
  report_step_count (report_of self R s) = Some (length R) /\
  report_total_steps (report_of self R s) = Some (total_steps s) /\
  report_overall_success (report_of self R s) = Some (overall_success s).
Proof.
  unfold report_step_count, report_total_steps, report_overall_success, report_of.
  cbn. now rewrite length_fmap.
Qed.

(** C8. For every list of step results and every path that can be written,
    summarizing the results, writing the report to the path and loading
    the file again gives a document with as many results as the list has,
    the same total_steps, and the overall_success value of the summary,
    which is the conjunction of the success flags of the list. *)
Theorem report_round_trip (self : AttackReplay) (R : list StepResult) (path : string) w :
  path <> "" -> writable w path = true ->
  exists s w1 w2 doc w3,
    analyze_results self R w = (inr s, w1) /\
    generate_report self R s (Some path) w1 = (inr path, w2) /\
    load_from path w2 = (inr doc, w3) /\
    report_step_count doc = Some (length R) /\
    report_total_steps doc = Some (Z.of_nat (length R)) /\
    report_overall_success doc = Some (overall_success s) /\
    overall_success s = forallb success R.
Proof.
  intros Hne Hw.
  destruct (analyze_results_run self R w) as (s & Hrun & _ & Ht & Hs & _ & _ & Ho).
  set (w1 := (logging (InfoSummary "Chain analysis summary: " s) w).2) in Hrun.
  destruct (generate_report_run self R s path w1 Hne Hw) as (w2 & Hgen & Hfiles & _).
  destruct (report_of_read self R s) as (Hc & Hn & Hb).
  exists s, w1, w2, (report_of self R s), w2.
  split; [exact Hrun |]. split; [exact Hgen |].
  split; [unfold load_from; now rewrite Hfiles, lookup_insert_eq |].
  split; [exact Hc |]. split; [now rewrite Hn, Ht |]. split; [exact Hb |].
  rewrite Ho, Hs, Ht. apply overall_success_all.
Qed.

End ReportFacts.

(** ** The replay on a concrete chain *)

Section ReplayRuns.
Import PyStr PyM Replay ReplayScenario.



(** A success, a failure and a mock step: three results, in the order of
    the steps; the failure of the second does not remove the third. *)
Example chain_of_three_replayed :
  (replay_chain chain (Some registry) world).1 = inr results.
Proof. vm_compute. reflexivity. Qed.

Example chain_of_three_summary :
  (analyze_results chain results world).1 =
    inr {| summary_chain_name := "ward 3"; total_steps := 3; successes := 2;
           failures := 1;
           impacts := ["Possible silent dosage override or device crash.";
                       "Unknown impact."; "Mock impact."];
           overall_success := false |}.
Proof. vm_compute. reflexivity. Qed.

Example empty_chain_summary :
  (analyze_results chain [] world).1 =
    inr {| summary_chain_name := "ward 3"; total_steps := 0; successes := 0;
           failures := 0; impacts := []; overall_success := true |}.
Proof. vm_compute. reflexivity. Qed.

(** Without a path the report goes to a file named after the chain. *)
Example report_default_path :
  (generate_report chain results
     {| summary_chain_name := "ward 3"; total_steps := 3; successes := 2;
        failures := 1; impacts := []; overall_success := false |} None world).1 =
    inr "ward_3_attackreplay_report.json".
Proof. vm_compute. reflexivity. Qed.

(** An empty vulnerability object counts as no vulnerability. *)
Example empty_vuln_is_mocked :
  (replay_step (Some registry) (step "medical" "pump1" (Some (JObj []))) world).1 =
    inr (mock_result (step "medical" "pump1" (Some (JObj [])))).
Proof. vm_compute. reflexivity. Qed.


(** The same module on a vulnerability that names its location. *)
Example located_vuln_is_replayed :
  (replay_chain (init (Some LoadScenario.t1_located))
     (Some (<["medical" := indexing]> ∅)) world).1 =
    inr [ {| device := "pump1"; action := "exploit"; success := true;
             impact := "Possible silent dosage override or device crash.";
             log_line := "Attack simulated" |} ].
Proof. vm_compute. reflexivity. Qed.

(** A module that raises at the second step ends the replay there: the
    result of the first step is dropped with it. *)
Example error_at_second_step :
  let steps := [step "automotive" "ecu7" (Some overflow);
                step "medical" "pump1" (Some overflow);
                step "camera" "cam2" (Some overflow)] in
  let modules := Some (<["medical" := indexing]> (<["automotive" := always false "Unknown impact."]> ∅)) in
  (replay_chain (init (Some {| cfg_name := Some "ward 3"; cfg_chain_steps := Some steps |}))
     modules world).1 = inl (Exn KeyError "'location'") /\
  length (log (replay_chain
                 (init (Some {| cfg_name := Some "ward 3"; cfg_chain_steps := Some steps |}))
                 modules world).2) = 1.
Proof. split; vm_compute; reflexivity. Qed.


Lemma unresolved_step_passes_through_witness :
  (forall w, replay_step (Some registry) (step "camera" "cam2" (Some overflow)) w =
               (inr (mock_result (step "camera" "cam2" (Some overflow))), w)) /\
  success (mock_result (step "camera" "cam2" (Some overflow))) = true /\
  impact (mock_result (step "camera" "cam2" (Some overflow))) = "Mock impact." /\
  impact (mock_result (step "camera" "cam2" (Some overflow))) <> "" /\
  (forall (rest : list ChainStep) (acc : list StepResult) (w : World nat),
      replay_loop (Some registry) (step "camera" "cam2" (Some overflow) :: rest) acc w =
        replay_loop (Some registry) rest
          (acc ++ [mock_result (step "camera" "cam2" (Some overflow))])
          (logging (InfoStep "Replayed chain step: "
                      (mock_result (step "camera" "cam2" (Some overflow)))) w).2) /\
  (forall (self : AttackReplay) (w : World nat) (i : nat) (results : list StepResult)
          (w' : World nat),
      chain_steps self !! i = Some (step "camera" "cam2" (Some overflow)) ->
      replay_chain self (Some registry) w = (inr results, w') ->
      length results = length (chain_steps self) /\
      results !! i = Some (mock_result (step "camera" "cam2" (Some overflow)))) /\
  (modules_return (Some registry) ->
   forall (self : AttackReplay) (w : World nat) (i : nat),
     chain_steps self !! i = Some (step "camera" "cam2" (Some overflow)) ->
     exists results w',
       replay_chain self (Some registry) w = (inr results, w') /\
       length results = length (chain_steps self) /\
       results !! i = Some (mock_result (step "camera" "cam2" (Some overflow)))).
Proof.
  apply (unresolved_step_passes_through (Some registry)
           (step "camera" "cam2" (Some overflow))).
  left. intros (reg & module & [= <-] & Hm). vm_compute in Hm. discriminate.
Defined.

Lemma report_round_trip_witness :
  exists s w1 w2 doc w3,
    analyze_results chain results world = (inr s, w1) /\
    generate_report chain results s (Some "out/ward3.json") w1 = (inr "out/ward3.json", w2) /\
    load_from "out/ward3.json" w2 = (inr doc, w3) /\
    report_step_count doc = Some (length results) /\
    report_total_steps doc = Some (Z.of_nat (length results)) /\
    report_overall_success doc = Some (overall_success s) /\
    overall_success s = forallb success results.
Proof.
  apply (report_round_trip chain results "out/ward3.json" world).
  - discriminate.
  - reflexivity.
Defined.

End ReplayRuns.

(** * Further properties of the emulator *)

Section PathFacts.
Import PyStr PyM HIL SandboxFrame.

Lemma app_assoc_str (a b c : string) : (a +:+ b) +:+ c = a +:+ b +:+ c.
Proof.
  induction a as [|x a IH]; [reflexivity |].
  now rewrite !app_cons_str, IH.
Qed.

Lemma app_nil_r_str (a : string) : a +:+ "" = a.
Proof. induction a as [|x a IH]; [reflexivity |]. now rewrite app_cons_str, IH. Qed.

Lemma length_app_str (a b : string) :
  String.length (a +:+ b) = String.length a + String.length b.
Proof. induction a as [|x a IH]; [reflexivity |]. rewrite app_cons_str. simpl. now rewrite IH. Qed.

Lemma startswith_app (p s t : string) :
  startswith p s = true -> startswith p (s +:+ t) = true.
Proof.
  intros [u ->]%startswith_spec. apply startswith_spec.
  exists (u +:+ t). apply app_assoc_str.
Qed.

Lemma startswith_slash_has_slash (b : string) :
  has_slash b = false -> startswith "/" b = false.
Proof.
  destruct b as [|c b]; [reflexivity |].
  rewrite has_slash_cons. intros [Hc _]%orb_false_iff.
  cbn [startswith]. now rewrite Ascii.eqb_sym, Hc.
Qed.

Lemma join_plain (a b : string) :
  a <> "" -> endswith_slash a = false -> has_slash b = false ->
  join a b = a +:+ "/" +:+ b.
Proof.
  intros Ha He Hb. unfold join.
  rewrite (startswith_slash_has_slash _ Hb), He.
  destruct (String.eqb_spec a ""); [contradiction | reflexivity].
Qed.

Lemma under_child (d b : string) : under d (d +:+ "/" +:+ b) = true.
Proof.
  unfold under. apply orb_true_iff. right. apply startswith_spec.
  exists b. now rewrite app_assoc_str.
Qed.

Lemma app_longer (d x : string) : x <> "" -> d +:+ x <> d.
Proof.
  intros Hx E. apply (f_equal String.length) in E. rewrite length_app_str in E.
  destruct x; [contradiction | simpl in E; lia].
Qed.

(** X7. In a directory with a proper name the copy of an input goes to
    the directory's own child named by the base name of the input: the
    name has no slash, so whatever directories the input path names, the
    copy stays in the sandbox. *)
Theorem copy_stays_in_sandbox (d src : string) :
  d <> "" -> endswith_slash d = false ->
  copy_target d src = d +:+ "/" +:+ basename src /\
  has_slash (basename src) = false /\
  under d (copy_target d src) = true /\
  copy_target d src <> d.
Proof.
  intros Hd He. pose proof (has_slash_basename src) as Hb.
  unfold copy_target. rewrite (join_plain _ _ Hd He Hb).
  split; [reflexivity |]. split; [exact Hb |]. split; [apply under_child |].
  apply app_longer. discriminate.
Qed.

Lemma copy_stays_in_sandbox_witness :
  copy_target "/tmp/tmpk3_x9a2b" "../../etc/shadow" = "/tmp/tmpk3_x9a2b" +:+ "/" +:+ basename "../../etc/shadow" /\
  has_slash (basename "../../etc/shadow") = false /\
  under "/tmp/tmpk3_x9a2b" (copy_target "/tmp/tmpk3_x9a2b" "../../etc/shadow") = true /\
  copy_target "/tmp/tmpk3_x9a2b" "../../etc/shadow" <> "/tmp/tmpk3_x9a2b".
Proof.
  apply (copy_stays_in_sandbox "/tmp/tmpk3_x9a2b" "../../etc/shadow");
    [discriminate | reflexivity].
Defined.

(** Joining a base name to a path at or below [d] gives a path at or below [d]. *)
Lemma under_join (d dst b : string) :
  d <> "" -> endswith_slash d = false -> has_slash b = false ->
  under d dst = true -> under d (join dst b) = true.
Proof.
  intros Hd He Hb Hu. unfold join. rewrite (startswith_slash_has_slash _ Hb).
  unfold under in Hu. apply orb_true_iff in Hu as [Heq|Hpre].
  - apply String.eqb_eq in Heq as ->. rewrite He.
    destruct (String.eqb_spec d ""); [contradiction |]. apply under_child.
  - assert (forall x, under d (dst +:+ x) = true) as Hext.
    { intros x. unfold under. apply orb_true_iff. right. now apply startswith_app. }
    destruct (String.eqb dst "" || endswith_slash dst)%bool; apply Hext.
Qed.

End PathFacts.

Section FrameFacts.
Import PyStr PyM HIL SandboxFrame.

#[global] Instance files_kept_preorder (d : string) : PreOrder (files_kept d).
Proof.
  split.
  - intros w p _. reflexivity.
  - intros w1 w2 w3 H12 H23 p Hp. now rewrite (H23 p Hp), (H12 p Hp).
Qed.

Lemma files_kept_same (d : string) (w w' : World) : fs w' = fs w -> files_kept d w w'.
Proof. intros E p _. now rewrite E. Qed.

Lemma frame_copy2 (d src dst : string) :
  d <> "" -> endswith_slash d = false -> under d dst = true ->
  keeps (files_kept d) (copy2 src dst).
Proof.
  intros Hd He Hu w.
  assert (under d (if is_dir (fs w) dst then join dst (basename src) else dst) = true)
    as Hu'.
  { destruct (is_dir (fs w) dst); [|assumption].
    apply under_join; auto using has_slash_basename. }
  destruct (copy2_cases src dst w) as [[e ->]|[(m & data & _ & ->)|(e & m & data & _ & ->)]];
    [reflexivity | |];
    intros p Hp; simpl; apply lookup_insert_ne; congruence.
Qed.

Lemma frame_guarded_body (env : Env) (self : HILEmulator) (d fw pl : string) :
  d <> "" -> endswith_slash d = false ->
  keeps (files_kept d) (guarded_body env self d fw pl).
Proof.
  intros Hd He. unfold guarded_body. cbv zeta.
  fold (copy_target d fw) (copy_target d pl).
  apply keeps_try_except; [exact _ | |].
  - apply keeps_bind; [exact _ | | intros _].
    { apply frame_copy2; auto. now apply copy_stays_in_sandbox. }
    apply keeps_bind; [exact _ | | intros _].
    { apply frame_copy2; auto. now apply copy_stays_in_sandbox. }
    apply keeps_bind; [exact _ | | intros cmd].
    { intros w. rewrite (_build_qemu_cmd_world _ _ _ w w). reflexivity. }
    apply keeps_bind; [exact _ | intros w; now apply files_kept_same | intros _].
    apply keeps_bind; [exact _ | | intros proc].
    { intros w. unfold Popen. destruct (child env cmd); now apply files_kept_same. }
    apply keeps_bind; [exact _ | | intros [out err]].
    { intros w. unfold communicate. destruct (behaviour proc); now apply files_kept_same. }
    apply keeps_bind; [exact _ | intros w; now apply files_kept_same | intros code].
    apply keeps_bind; [exact _ | intros w; now apply files_kept_same | intros _].
    apply keeps_ret. exact _.
  - intros e. apply keeps_bind; [exact _ | intros w; now apply files_kept_same | intros _].
    apply keeps_ret. exact _.
Qed.

(** What [_run_qemu] does once its guards have passed and [tempfile] has
    made the directory [d]: it returns, [d] is removed, and the file store
    outside [d] is as the guarded block left it. *)
Lemma sandbox_always_returns (env : Env) (self : HILEmulator) (d fw pl : string) (w1 : World) :
  fs w1 !! d = Some Dir ->
  exists r w4,
    guarded_body env self d fw pl w1 = (inr r, w4) /\
    try_finally (guarded_body env self d fw pl) (rmtree d) w1 =
      (inr r, emit (EvRmtree d) (set_fs (filter (fun kv => under d kv.1 = false)) w4)).
Proof.
  intros Hdir.
  destruct (guarded_body_returns env self d fw pl w1) as [r Hr].
  pose proof (keeps_guarded_body env self d fw pl w1) as [Hkept _].
  unfold try_finally.
  destruct (guarded_body env self d fw pl w1) as [o w4]. simpl in Hr, Hkept. subst o.
  exists r, w4. split; [reflexivity |]. now rewrite (rmtree_dir d w4 (Hkept Hdir)).
Qed.

Lemma filter_outside (d p : string) (m : gmap string node) :
  under d p = false ->
  filter (fun kv : string * node => under d kv.1 = false) m !! p = m !! p.
Proof.
  intros Hp. destruct (m !! p) as [x|] eqn:E.
  - now apply map_lookup_filter_Some_2.
  - apply map_lookup_filter_None. now left.
Qed.

(** X3. When the name [tempfile] picks is a proper directory name with
    nothing at or below it, [_run_qemu] leaves the file store exactly as it
    found it, however it ends: the inputs are untouched, and neither the
    directory nor a copy is left behind. *)
Theorem run_leaves_files_as_found (env : Env) (self : HILEmulator) (w : World) :
  (forall d, List.find (is_free (fs w)) (tmp_names env) = Some d -> fresh_name w d) ->
  fs (_run_qemu env self w).2 = fs w.
Proof.
  intros Hfresh. rewrite _run_qemu_unfold, run_bind.
  pose proof (require_file_world "Firmware" (firmware_path self) w) as W1.
  destruct (require_file "Firmware" (firmware_path self) w) as [[e|fw] w1];
    simpl in W1; subst w1; [reflexivity |].
  rewrite run_bind.
  pose proof (require_file_world "Payload" (payload_path self) w) as W2.
  destruct (require_file "Payload" (payload_path self) w) as [[e|pl] w1];
    simpl in W2; subst w1; [reflexivity |].
  rewrite run_bind.
  destruct (mkdtemp_cases_found env w) as [[e ->]|(d & Hd & ->)]; [reflexivity |].
  destruct (Hfresh d Hd) as (Hne & Hend & Hnone).
  set (w1 := emit (EvMkdtemp d) (set_fs (insert d Dir) w)).
  destruct (sandbox_always_returns env self d fw pl w1) as (r & w4 & Hg & ->).
  { apply lookup_insert_eq. }
  pose proof (frame_guarded_body env self d fw pl Hne Hend w1) as Hkept.
  rewrite Hg in Hkept. simpl in Hkept.
  apply map_eq. intros p. simpl. destruct (under d p) eqn:Hp.
  - rewrite (rmtree_clears d p _ Hp). symmetry. now apply Hnone.
  - rewrite (filter_outside d p _ Hp), (Hkept p Hp). simpl.
    apply lookup_insert_ne. intros ->. rewrite under_refl in Hp. discriminate.
Qed.

(** X4. [_run_qemu] raises only from its guards and from [tempfile]: when it
    raises, the error is the [FileNotFoundError] of the firmware guard or
    of the payload guard, or it is what [tempfile.mkdtemp] raised, and the
    world is as before. Every failure after the directory was made comes
    back as a result. *)
Theorem raises_before_any_effect
    (env : Env) (self : HILEmulator) (w w' : World) (e : exn) :
  _run_qemu env self w = (inl e, w') ->
  w' = w /\
  (e = Exn FileNotFoundError ("Firmware not found: " +:+ fmt_opt (firmware_path self)) \/
   e = Exn FileNotFoundError ("Payload not found: " +:+ fmt_opt (payload_path self)) \/
   mkdtemp env w = (inl e, w)).
Proof.
  rewrite _run_qemu_unfold, run_bind.
  destruct (names_file w (firmware_path self)) eqn:Ef.
  2:{ rewrite (require_file_missing _ _ _ Ef). intros [= <- <-]. auto. }
  apply require_file_ok with (what := "Firmware") in Ef as (fw & _ & ->).
  rewrite run_bind.
  destruct (names_file w (payload_path self)) eqn:Ep.
  2:{ rewrite (require_file_missing _ _ _ Ep). intros [= <- <-]. auto. }
  apply require_file_ok with (what := "Payload") in Ep as (pl & _ & ->).
  rewrite run_bind.
  destruct (mkdtemp_cases env w) as [[e' E]|(d & _ & E)]; rewrite E.
  - intros [= <- <-]. auto.
  - destruct (sandbox_always_returns env self d fw pl
                (emit (EvMkdtemp d) (set_fs (insert d Dir) w))) as (r & w4 & _ & ->).
    { apply lookup_insert_eq. }
    discriminate.
Qed.

(** A temporary directory that the system refuses to make: the error of
    [mkdtemp] is the error of the run. *)
Example refused_directory_is_raised :
  let env := {| tmp_names := ["/tmp/tmpk3_x9a2b"]; tempdir_error := None;
                mkdir_error := fun d =>
                  Some (Exn PermissionError ("[Errno 13] Permission denied: " +:+ repr d));
                child := fun _ => Spawns Hangs |} in
  _run_qemu env (Scenario.emulator "arm") (Scenario.world Scenario.disk) =
    (inl (Exn PermissionError "[Errno 13] Permission denied: '/tmp/tmpk3_x9a2b'"),
     Scenario.world Scenario.disk).
Proof. vm_compute. reflexivity. Qed.

Lemma raises_before_any_effect_witness :
  Scenario.world Scenario.disk = Scenario.world Scenario.disk /\
  (Exn FileNotFoundError "Payload not found: None" =
     Exn FileNotFoundError
       ("Firmware not found: "
        +:+ fmt_opt (firmware_path
                       (init {| cfg_arch := None; cfg_firmware_path := Some "fw.bin";
                                cfg_payload_path := None; cfg_fpga_enabled := None;
                                cfg_qemu_path := None; cfg_log_file := None |}))) \/
   Exn FileNotFoundError "Payload not found: None" =
     Exn FileNotFoundError
       ("Payload not found: "
        +:+ fmt_opt (payload_path
                       (init {| cfg_arch := None; cfg_firmware_path := Some "fw.bin";
                                cfg_payload_path := None; cfg_fpga_enabled := None;
                                cfg_qemu_path := None; cfg_log_file := None |}))) \/
   mkdtemp Scenario.env_hanging (Scenario.world Scenario.disk) =
     (inl (Exn FileNotFoundError "Payload not found: None"), Scenario.world Scenario.disk)).
Proof.
  apply (raises_before_any_effect Scenario.env_hanging
           (init {| cfg_arch := None; cfg_firmware_path := Some "fw.bin";
                    cfg_payload_path := None; cfg_fpga_enabled := None;
                    cfg_qemu_path := None; cfg_log_file := None |})
           (Scenario.world Scenario.disk) (Scenario.world Scenario.disk)
           (Exn FileNotFoundError "Payload not found: None")).
  vm_compute. reflexivity.
Defined.

Lemma run_leaves_files_as_found_witness :
  fs (_run_qemu Scenario.env_panic (Scenario.emulator "mips")
        (Scenario.world Scenario.disk)).2 = fs (Scenario.world Scenario.disk).
Proof.
  apply (run_leaves_files_as_found Scenario.env_panic (Scenario.emulator "mips")
           (Scenario.world Scenario.disk)).
  intros d Hd. vm_compute in Hd. injection Hd as <-.
  split; [discriminate |]. split; [reflexivity |].
  intros p Hp. unfold Scenario.world, Scenario.disk. simpl.
  destruct (decide (p = "fw.bin")) as [->|N1]; [vm_compute in Hp; discriminate |].
  destruct (decide (p = "/srv/payload.sh")) as [->|N2]; [vm_compute in Hp; discriminate |].
  rewrite !lookup_insert_ne by congruence. apply lookup_empty.
Defined.

End FrameFacts.

Section RunFacts.
Import PyStr PyM HIL SandboxFrame.

(** X1. In FPGA mode [run] is a mock: it raises nothing, asks nothing of
    the operating system (no file is read, no directory made, no process
    started) and returns returncode 0, an empty stderr and the score 0.2
    under the mode "fpga", whether or not a firmware or a payload exists. *)
Theorem fpga_run_is_a_mock (env : Env) (self : HILEmulator) (payload : option string)
    (w : World) :
  fpga_enabled self = true ->
  exists w',
    run env self payload w =
      (inr (with_payload payload self,
            {| stdout := Some ("[MOCK] FPGA run of "
                               +:+ fmt_opt (payload_path (with_payload payload self))
                               +:+ " on " +:+ arch self);
               stderr := Some ""; returncode := Some 0%Z; error := None;
               mode := "fpga"; risk_score := Some 0.2%float |}), w') /\
    fs w' = fs w /\ procs w' = procs w /\ trace w' = trace w.
Proof.
  intros Hf. unfold run. cbv zeta. rewrite with_payload_fpga, Hf.
  rewrite run_bind. unfold _run_fpga at 1. rewrite run_bind. cbn [logging].
  rewrite with_payload_arch.
  eexists. split; [reflexivity |]. auto.
Qed.

Lemma fpga_run_is_a_mock_witness :
  exists w',
    run Scenario.env_hanging
      (init {| cfg_arch := Some "z80"; cfg_firmware_path := None;
               cfg_payload_path := None; cfg_fpga_enabled := Some true;
               cfg_qemu_path := None; cfg_log_file := None |})
      None (Scenario.world ∅) =
      (inr (with_payload None
              (init {| cfg_arch := Some "z80"; cfg_firmware_path := None;
                       cfg_payload_path := None; cfg_fpga_enabled := Some true;
                       cfg_qemu_path := None; cfg_log_file := None |}),
            {| stdout := Some ("[MOCK] FPGA run of " +:+ fmt_opt None +:+ " on " +:+ "z80");
               stderr := Some ""; returncode := Some 0%Z; error := None;
               mode := "fpga"; risk_score := Some 0.2%float |}), w') /\
    fs w' = fs (Scenario.world ∅) /\ procs w' = procs (Scenario.world ∅) /\
    trace w' = trace (Scenario.world ∅).
Proof.
  apply (fpga_run_is_a_mock Scenario.env_hanging
           (init {| cfg_arch := Some "z80"; cfg_firmware_path := None;
                    cfg_payload_path := None; cfg_fpga_enabled := Some true;
                    cfg_qemu_path := None; cfg_log_file := None |})
           None (Scenario.world ∅)).
  reflexivity.
Defined.

(** A staged run whose child ends by itself leaves the guarded block with
    the child's output and exit code. *)
Lemma guarded_completes (env : Env) (self : HILEmulator) (w : World)
    (d fw pl cmd out err : string) (code : Z) :
  staged env self w d fw pl ->
  (_build_qemu_cmd self (copy_target d fw) (copy_target d pl) w).1 = inr cmd ->
  child env cmd = Spawns (Completes out err code) ->
  exists w4,
    guarded_body env self d fw pl (emit (EvMkdtemp d) (set_fs (insert d Dir) w)) =
      (inr (completed_result out err code), w4) /\
    procs w4 = procs w ++ [Proc cmd (Exited code)] /\
    trace w4 = trace w ++ [EvMkdtemp d; EvCopy fw (copy_target d fw);
                           EvCopy pl (copy_target d pl); EvSpawn cmd].
Proof.
  intros Hs Hb Hc. destruct (staged_copies _ _ _ _ _ _ Hs) as (w3 & Hk & P3 & _ & T3).
  assert (Hins : <[length (procs w3) := Proc cmd (Exited code)]> (procs w3 ++ [Proc cmd Running])
                 = procs w3 ++ [Proc cmd (Exited code)]).
  { rewrite insert_app_r_alt by lia. now rewrite Nat.sub_diag. }
  eexists. split; [|split].
  - unfold guarded_body, try_except. cbv zeta. fold (copy_target d fw) (copy_target d pl).
    rewrite Hk, run_bind, (_build_qemu_cmd_world _ _ _ w3 w), Hb.
    rewrite !run_bind. cbn [logging]. unfold Popen. rewrite Hc.
    rewrite !run_bind. unfold communicate. cbn [behaviour pid args].
    rewrite !run_bind. unfold get_returncode. cbn [pid procs set_procs emit].
    rewrite Hins, lookup_app_r by lia. rewrite Nat.sub_diag. cbn. reflexivity.
  - cbn. rewrite Hins. now rewrite P3.
  - cbn. rewrite T3. now rewrite <- app_assoc.
Qed.

(** X2. A staged run in process mode whose child ends by itself within the
    wait returns the child's stdout, stderr and exit code under the mode
    "qemu", scored by the rules on the stderr text; the child is reaped with
    that exit code and the temporary directory is gone. *)
Theorem completed_run_is_reported
    (env : Env) (self : HILEmulator) (payload : option string) (w : World)
    (d fw pl cmd out err : string) (code : Z) :
  fpga_enabled self = false ->
  staged env (with_payload payload self) w d fw pl ->
  (_build_qemu_cmd (with_payload payload self) (copy_target d fw) (copy_target d pl) w).1
    = inr cmd ->
  child env cmd = Spawns (Completes out err code) ->
  exists w',
    run env self payload w =
      (inr (with_payload payload self,
            set_risk_score (risk_rules (lower err)) (completed_result out err code)), w') /\
    procs w' = procs w ++ [Proc cmd (Exited code)] /\
    forall p, under d p = true -> fs w' !! p = None.
Proof.
  intros Hq Hs Hb Hc.
  destruct (guarded_completes _ _ _ _ _ _ _ _ _ _ Hs Hb Hc) as (w4 & Hg & P4 & _).
  pose proof (staged_outcome _ _ _ _ _ _ _ _ Hs Hg) as Hr.
  unfold run. cbv zeta. rewrite with_payload_fpga, Hq.
  rewrite (run_bind_ok _ _ _ _ _ Hr), run_bind, _calculate_risk_run.
  eexists. split; [reflexivity |]. split.
  - simpl. exact P4.
  - intros p Hp. simpl. now apply rmtree_clears.
Qed.

Lemma completed_run_is_reported_witness :
  exists w',
    run Scenario.env_panic (Scenario.emulator "arm") None (Scenario.world Scenario.disk) =
      (inr (with_payload None (Scenario.emulator "arm"),
            set_risk_score (risk_rules (lower "ERROR: Kernel PANIC - not syncing"))
              (completed_result "booting" "ERROR: Kernel PANIC - not syncing" 1)), w') /\
    procs w' = procs (Scenario.world Scenario.disk) ++ [Proc Scenario.arm_cmd (Exited 1)] /\
    forall p, under "/tmp/tmpk3_x9a2b" p = true -> fs w' !! p = None.
Proof.
  apply (completed_run_is_reported Scenario.env_panic (Scenario.emulator "arm") None
           (Scenario.world Scenario.disk) "/tmp/tmpk3_x9a2b" "fw.bin" "/srv/payload.sh"
           Scenario.arm_cmd).
  - reflexivity.
  - apply staged_on_disk; reflexivity.
  - vm_compute. reflexivity.
  - reflexivity.
Defined.

End RunFacts.

Section ResultFacts.
Import PyStr PyM HIL SandboxFrame.

Lemma guarded_result_shape (env : Env) (self : HILEmulator) (d fw pl : string)
    (w w' : World) (r : ExecutionResult) :
  guarded_body env self d fw pl w = (inr r, w') ->
  (exists msg, r = error_result msg) \/
  (exists out err code,
      r = {| stdout := Some out; stderr := Some err; returncode := code;
             error := None; mode := "qemu"; risk_score := None |}).
Proof.
  unfold guarded_body, try_except. cbv zeta.
  match goal with |- context [match ?b w with _ => _ end] => destruct (b w) as [[e|r0] w0] eqn:E end.
  - rewrite run_bind. cbn [logging]. intros [= <- _]. left. eauto.
  - intros [= <- <-]. right.
    rewrite run_bind in E. destruct (copy2 _ _ w) as [[?|?] w1]; [discriminate |].
    rewrite run_bind in E. destruct (copy2 _ _ w1) as [[?|?] w2]; [discriminate |].
    rewrite run_bind in E. destruct (_build_qemu_cmd _ _ _ w2) as [[?|cmd] w3]; [discriminate |].
    rewrite run_bind in E. cbn [logging] in E.
    rewrite run_bind in E. destruct (Popen env cmd _) as [[?|proc] w4]; [discriminate |].
    rewrite run_bind in E. destruct (communicate proc 60 w4) as [[?|[out err]] w5]; [discriminate |].
    rewrite run_bind in E. cbn [get_returncode] in E.
    rewrite run_bind in E. cbn [logging] in E.
    injection E as <- _. eauto.
Qed.

Lemma _run_qemu_result_shape (env : Env) (self : HILEmulator) (w w' : World)
    (r : ExecutionResult) :
  _run_qemu env self w = (inr r, w') ->
  (exists msg, r = error_result msg) \/
  (exists out err code,
      r = {| stdout := Some out; stderr := Some err; returncode := code;
             error := None; mode := "qemu"; risk_score := None |}).
Proof.
  rewrite _run_qemu_unfold, run_bind.
  destruct (require_file "Firmware" (firmware_path self) w) as [[e|fw] w1]; [discriminate |].
  rewrite run_bind.
  destruct (require_file "Payload" (payload_path self) w1) as [[e|pl] w2]; [discriminate |].
  rewrite run_bind.
  destruct (mkdtemp_cases env w2) as [[e E]|(d & _ & E)]; rewrite E; [discriminate |].
  destruct (sandbox_always_returns env self d fw pl
              (emit (EvMkdtemp d) (set_fs (insert d Dir) w2))) as (r' & w4 & Hg & ->).
  { apply lookup_insert_eq. }
  intros [= <- _]. eapply guarded_result_shape. exact Hg.
Qed.

Lemma is_score_rules (text : string) : is_score (risk_rules text).
Proof. unfold is_score. destruct (risk_rules_values text) as [->|[->| ->]]; auto. Qed.

(** X5. Every result [run] returns carries a score, and the score is 0.2,
    0.7 or 0.9, so it lies in [0, 1]. The result is of one of two shapes:
    an error with no output, no exit code and the score 0.2, or the output
    of a run with no error. *)
Theorem every_result_is_scored
    (env : Env) (self self' : HILEmulator) (payload : option string) (w w' : World)
    (r : ExecutionResult) :
  run env self payload w = (inr (self', r), w') ->
  (exists x, risk_score r = Some x /\ is_score x /\
             PrimFloat.leb 0 x = true /\ PrimFloat.leb x 1 = true) /\
  (mode r = "fpga" \/ mode r = "qemu") /\
  ((is_Some (error r) /\ stdout r = None /\ stderr r = None /\ returncode r = None /\
    risk_score r = Some 0.2%float) \/
   (error r = None /\ is_Some (stdout r) /\ is_Some (stderr r))).
Proof.
  unfold run. cbv zeta. rewrite run_bind.
  destruct (fpga_enabled (with_payload payload self)).
  - unfold _run_fpga at 1. rewrite run_bind. cbn [logging].
    intros [= _ <- _]. cbn. split; [|split; [auto | right; eauto]].
    eexists. split; [reflexivity |].
    split; [left; reflexivity | split; reflexivity].
  - destruct (_run_qemu env (with_payload payload self) w) as [[e|r0] w0] eqn:E;
      [discriminate |].
    rewrite run_bind, _calculate_risk_run. intros [= _ <- _].
    split; [|split].
    + eexists. split; [reflexivity |].
      split; [apply is_score_rules | apply risk_rules_bounded].
    + destruct (_run_qemu_result_shape _ _ _ _ _ E) as [[msg ->]|(out & err & code & ->)];
        right; reflexivity.
    + destruct (_run_qemu_result_shape _ _ _ _ _ E) as [[msg ->]|(out & err & code & ->)];
        [left | right]; cbn; eauto 10.
Qed.

Lemma every_result_is_scored_witness :
  (exists x,
      risk_score (set_risk_score 0.9 (completed_result "booting"
                                        "ERROR: Kernel PANIC - not syncing" 1)) = Some x /\
      is_score x /\ PrimFloat.leb 0 x = true /\ PrimFloat.leb x 1 = true) /\
  (mode (set_risk_score 0.9 (completed_result "booting"
                               "ERROR: Kernel PANIC - not syncing" 1)) = "fpga" \/
   mode (set_risk_score 0.9 (completed_result "booting"
                               "ERROR: Kernel PANIC - not syncing" 1)) = "qemu") /\
  ((is_Some (error (set_risk_score 0.9 (completed_result "booting"
                                          "ERROR: Kernel PANIC - not syncing" 1))) /\
    stdout (set_risk_score 0.9 (completed_result "booting"
                                  "ERROR: Kernel PANIC - not syncing" 1)) = None /\
    stderr (set_risk_score 0.9 (completed_result "booting"
                                  "ERROR: Kernel PANIC - not syncing" 1)) = None /\
    returncode (set_risk_score 0.9 (completed_result "booting"
                                      "ERROR: Kernel PANIC - not syncing" 1)) = None /\
    risk_score (set_risk_score 0.9 (completed_result "booting"
                                      "ERROR: Kernel PANIC - not syncing" 1)) = Some 0.2%float) \/
   (error (set_risk_score 0.9 (completed_result "booting"
                                 "ERROR: Kernel PANIC - not syncing" 1)) = None /\
    is_Some (stdout (set_risk_score 0.9 (completed_result "booting"
                                           "ERROR: Kernel PANIC - not syncing" 1))) /\
    is_Some (stderr (set_risk_score 0.9 (completed_result "booting"
                                           "ERROR: Kernel PANIC - not syncing" 1))))).
Proof.
  apply (every_result_is_scored Scenario.env_panic (Scenario.emulator "arm")
           (Scenario.emulator "arm") None (Scenario.world Scenario.disk)
           (run Scenario.env_panic (Scenario.emulator "arm") None
              (Scenario.world Scenario.disk)).2).
  vm_compute. reflexivity.
Defined.

(** X6. The architecture of the configuration is matched in any letter
    case. For arm the binary is the configured [qemu_path], by default
    "qemu-system-arm"; for riscv and mips the binary is fixed and the
    configured path is not used. *)
Theorem arch_letter_case_is_ignored (config : Config) (a f p : string) (w : World) :
  cfg_arch config = Some a ->
  (case_variant "arm" a ->
   _build_qemu_cmd (init config) f p w =
     (inr (default "qemu-system-arm" (cfg_qemu_path config)
           +:+ " -kernel " +:+ f +:+ " -append 'init=" +:+ p +:+ "' -nographic"), w)) /\
  (case_variant "riscv" a ->
   _build_qemu_cmd (init config) f p w =
     (inr ("qemu-system-riscv32"
           +:+ " -kernel " +:+ f +:+ " -append 'init=" +:+ p +:+ "' -nographic"), w)) /\
  (case_variant "mips" a ->
   _build_qemu_cmd (init config) f p w =
     (inr ("qemu-system-mips"
           +:+ " -kernel " +:+ f +:+ " -append 'init=" +:+ p +:+ "' -nographic"), w)).
Proof.
  intros Ha.
  assert (Harch : forall kw, case_variant kw a -> lower kw = kw -> arch (init config) = kw).
  { intros kw Hv Hkw. unfold init. cbn [arch]. rewrite Ha. cbn [default].
    now apply case_variant_lower. }
  repeat split; intros Hv; unfold _build_qemu_cmd;
    rewrite (Harch _ Hv eq_refl); reflexivity.
Qed.

Lemma arch_letter_case_is_ignored_witness :
  (case_variant "arm" "RiscV" ->
   _build_qemu_cmd (Scenario.emulator "RiscV") "fw" "pl" (Scenario.world ∅) =
     (inr (default "qemu-system-arm" None
           +:+ " -kernel " +:+ "fw" +:+ " -append 'init=" +:+ "pl" +:+ "' -nographic"),
      Scenario.world ∅)) /\
  (case_variant "riscv" "RiscV" ->
   _build_qemu_cmd (Scenario.emulator "RiscV") "fw" "pl" (Scenario.world ∅) =
     (inr ("qemu-system-riscv32"
           +:+ " -kernel " +:+ "fw" +:+ " -append 'init=" +:+ "pl" +:+ "' -nographic"),
      Scenario.world ∅)) /\
  (case_variant "mips" "RiscV" ->
   _build_qemu_cmd (Scenario.emulator "RiscV") "fw" "pl" (Scenario.world ∅) =
     (inr ("qemu-system-mips"
           +:+ " -kernel " +:+ "fw" +:+ " -append 'init=" +:+ "pl" +:+ "' -nographic"),
      Scenario.world ∅)).
Proof.
  apply (arch_letter_case_is_ignored
           {| cfg_arch := Some "RiscV"; cfg_firmware_path := Some "fw.bin";
              cfg_payload_path := Some "/srv/payload.sh"; cfg_fpga_enabled := None;
              cfg_qemu_path := None; cfg_log_file := None |}
           "RiscV" "fw" "pl" (Scenario.world ∅)).
  reflexivity.
Defined.

Lemma contains_grows (kw s pre post : string) :
  contains kw s = true -> contains kw (pre +:+ s +:+ post) = true.
Proof.
  intros (a & b & ->)%contains_spec. apply contains_spec.
  exists (pre +:+ a), (b +:+ post). now rewrite !app_assoc_str.
Qed.

(** X9. Text added before or after a captured stderr never lowers the
    score: what scored 0.9 still scores 0.9, and what scored 0.7 scores 0.7
    or 0.9. *)
Theorem more_stderr_never_lowers_score
    (r r' : ExecutionResult) (s pre post : string) (w : World) :
  stderr r = Some s -> stderr r' = Some (pre +:+ s +:+ post) ->
  exists x x',
    (_calculate_risk r w).1 = inr x /\ (_calculate_risk r' w).1 = inr x' /\
    PrimFloat.leb x x' = true.
Proof.
  intros Hs Hs'. rewrite !_calculate_risk_run, Hs, Hs'. cbn [fst default].
  eexists _, _. split; [reflexivity |]. split; [reflexivity |].
  unfold id. rewrite !lower_app. unfold risk_rules.
  pose proof (contains_grows "segfault" (lower s) (lower pre) (lower post)) as G1.
  pose proof (contains_grows "panic" (lower s) (lower pre) (lower post)) as G2.
  pose proof (contains_grows "error" (lower s) (lower pre) (lower post)) as G3.
  destruct (contains "segfault" (lower s)); [rewrite G1 by reflexivity; reflexivity |].
  destruct (contains "panic" (lower s)).
  { rewrite G2 by reflexivity. rewrite !orb_true_r. reflexivity. }
  cbn [orb].
  destruct (contains "error" (lower s)).
  - rewrite G3 by reflexivity.
    destruct (contains "segfault" _ || contains "panic" _)%bool; reflexivity.
  - destruct (contains "segfault" _ || contains "panic" _)%bool; [reflexivity |].
    destruct (contains "error" _); reflexivity.
Qed.

Lemma more_stderr_never_lowers_score_witness :
  exists x x',
    (_calculate_risk (completed_result "" "read error" 1) (Scenario.world ∅)).1 = inr x /\
    (_calculate_risk (completed_result "" ("qemu: " +:+ "read error" +:+ "; Segfault") 1)
       (Scenario.world ∅)).1 = inr x' /\
    PrimFloat.leb x x' = true.
Proof.
  apply (more_stderr_never_lowers_score
           (completed_result "" "read error" 1)
           (completed_result "" ("qemu: " +:+ "read error" +:+ "; Segfault") 1)
           "read error" "qemu: " "; Segfault" (Scenario.world ∅));
    reflexivity.
Defined.

End ResultFacts.

(** * Further properties of the replay *)

Section ReplayFrame.
Import PyStr PyM Replay.
Context {W : Type}.
Implicit Types (w : World W) (mods : option (gmap string (ExploitModule W))).




(** X14. A step whose vulnerability is there but counts as false (an
    empty object, an empty string, null, zero, false) is given the mock
    result with success true, although a module is registered for its
    device type; the module is not called, and the world stays as it is. *)
Theorem falsy_vuln_is_mocked mods (step : ChainStep) (v : json) w :
  step_vuln step = Some v -> truthy v = false ->
  replay_step mods step w = (inr (mock_result step), w) /\
  success (mock_result step) = true.
Proof.
  intros Hv Ht. unfold replay_step. cbv zeta. rewrite Hv. cbn [usable_vuln].
  rewrite Ht. split; [|reflexivity]. now destruct (find_module mods _).
Qed.

Lemma filter_length_app {A} (f : A -> bool) (l k : list A) :
  length (List.filter f (l ++ k)) = length (List.filter f l) + length (List.filter f k).
Proof. now rewrite List.filter_app, length_app. Qed.

(** X13. The summary of two lists of results put end to end is the sum of
    their summaries: the counts add up, the impacts follow one another,
    and overall_success is the conjunction of the two. *)
Theorem summaries_add_up (self : AttackReplay) (R1 R2 : list StepResult) w :
  exists s1 s2 s w1 w2 w3,
    analyze_results self R1 w = (inr s1, w1) /\
    analyze_results self R2 w = (inr s2, w2) /\
    analyze_results self (R1 ++ R2) w = (inr s, w3) /\
    total_steps s = (total_steps s1 + total_steps s2)%Z /\
    successes s = (successes s1 + successes s2)%Z /\
    failures s = (failures s1 + failures s2)%Z /\
    impacts s = impacts s1 ++ impacts s2 /\
    overall_success s = overall_success s1 && overall_success s2.
Proof.
  destruct (analyze_results_run self R1 w) as (s1 & E1 & _ & T1 & S1 & F1 & I1 & O1).
  destruct (analyze_results_run self R2 w) as (s2 & E2 & _ & T2 & S2 & F2 & I2 & O2).
  destruct (analyze_results_run self (R1 ++ R2) w) as (s & E & _ & T & S & F & I & O).
  exists s1, s2, s. eexists _, _, _.
  split; [exact E1 |]. split; [exact E2 |]. split; [exact E |].
  assert (HT : total_steps s = (total_steps s1 + total_steps s2)%Z)
    by (rewrite T, T1, T2, length_app; lia).
  assert (HS : successes s = (successes s1 + successes s2)%Z)
    by (rewrite S, S1, S2, filter_length_app; lia).
  split; [exact HT |]. split; [exact HS |]. split; [lia |].
  split; [now rewrite I, I1, I2, fmap_app |].
  rewrite O, O1, O2, S, S1, S2, T, T1, T2, !overall_success_all.
  apply forallb_app.
Qed.

End ReplayFrame.

Section ReplayFrameRuns.
Import PyStr PyM Replay ReplayScenario.

Lemma falsy_vuln_is_mocked_witness :
  replay_step (Some registry) (step "medical" "pump1" (Some (JObj []))) world =
    (inr (mock_result (step "medical" "pump1" (Some (JObj [])))), world) /\
  success (mock_result (step "medical" "pump1" (Some (JObj [])))) = true.
Proof.
  apply (falsy_vuln_is_mocked (Some registry) (step "medical" "pump1" (Some (JObj [])))
           (JObj []) world); reflexivity.
Defined.

End ReplayFrameRuns.

Section ReportMore.
Import PyStr PyM Replay ReplayLoad.
Context {W : Type}.
Implicit Types (w : World W).

Lemma contains_char_cons (x c : ascii) (s : string) :
  contains (String x "") (String c s) = (Ascii.eqb x c || contains (String x "") s)%bool.
Proof. cbn [contains startswith]. now destruct (Ascii.eqb x c). Qed.

Lemma contains_char_app (x : ascii) (a b : string) :
  contains (String x "") (a +:+ b)
  = (contains (String x "") a || contains (String x "") b)%bool.
Proof.
  induction a as [|c a IH].
  - rewrite app_nil_str. reflexivity.
  - rewrite app_cons_str, !contains_char_cons, IH. now rewrite orb_assoc.
Qed.

Lemma replace_char_removes (a b : ascii) (s : string) :
  a <> b -> contains (String a "") (replace_char a b s) = false.
Proof.
  intros Hab. induction s as [|c s IH]; [reflexivity |].
  cbn [replace_char]. rewrite contains_char_cons, IH, orb_false_r.
  destruct (Ascii.eqb_spec c a) as [->|Hca]; apply Ascii.eqb_neq; congruence.
Qed.

(** X11. Without an output path, or with the empty path, the report goes
    to the file named after the chain; neither this name nor the name of
    the log file of a new replay has a space in it, whatever the chain is
    called. *)
Theorem derived_names_have_no_space (self : AttackReplay) (config : option ReplayConfig) :
  report_path_for self None = default_report_path self /\
  report_path_for self (Some "") = default_report_path self /\
  contains " " (default_report_path self) = false /\
  contains " " (log_file (init config)) = false.
Proof.
  split; [reflexivity |]. split; [reflexivity |]. split.
  - unfold default_report_path. rewrite contains_char_app, replace_char_removes by discriminate.
    reflexivity.
  - unfold init. cbn [log_file].
    rewrite !contains_char_app, replace_char_removes by discriminate. reflexivity.
Qed.

(** X10. [generate_report] either raises and leaves the world as it was
    (nothing written, nothing logged), when its path cannot be opened for
    writing, or returns the path after writing the report there; no other
    file changes. *)
Theorem report_written_or_raised (self : AttackReplay) (R : list StepResult) (s : Summary)
    (output_path : option string) w :
  (writable w (report_path_for self output_path) = false ->
   exists e, generate_report self R s output_path w = (inl e, w)) /\
  (writable w (report_path_for self output_path) = true ->
   exists w',
     generate_report self R s output_path w = (inr (report_path_for self output_path), w') /\
     files w' !! report_path_for self output_path = Some (report_of self R s) /\
     (forall p, p <> report_path_for self output_path -> files w' !! p = files w !! p) /\
     writable w' = writable w).
Proof.
  unfold generate_report. cbv zeta.
  fold (default_report_path self). fold (report_path_for self output_path).
  fold (report_of self R s).
  split; intros Hw; rewrite run_bind; unfold dump_to; rewrite Hw.
  - eauto.
  - rewrite run_bind. cbn [logging]. eexists. split; [reflexivity |]. cbn.
    split; [apply lookup_insert_eq |]. split; [|reflexivity].
    intros p Hp. now apply lookup_insert_ne.
Qed.

End ReportMore.

Section LoadFacts.
Import PyStr PyM Replay ReplayLoad.
Context {W : Type}.
Implicit Types (w : World W) (mods : option (gmap string (ExploitModule W)))
  (errs : list string).

Lemma lift_run {A} (m : Py (World W) A) w errs :
  lift m (w, errs) = ((m w).1, ((m w).2, errs)).
Proof. reflexivity. Qed.

Lemma lift_ok {A} (m : Py (World W) A) w w' errs (a : A) :
  m w = (inr a, w') -> lift m (w, errs) = (inr a, (w', errs)).
Proof. intros E. now rewrite lift_run, E. Qed.

Lemma step_round_trip (step : ChainStep) : step_of_json (step_json step) = step.
Proof. destruct step as [[a|] [b|] [c|] [v|] [o|]]; reflexivity. Qed.

Lemma steps_round_trip (steps : list ChainStep) :
  step_of_json <$> (step_json <$> steps) = steps.
Proof.
  induction steps as [|step steps IH]; [reflexivity |].
  cbn. now rewrite step_round_trip, IH.
Qed.

Lemma chain_round_trip (config : ReplayConfig) :
  get_str "name" (chain_json config) = cfg_name config /\
  steps_of_json (chain_json config) = cfg_chain_steps config.
Proof.
  destruct config as [[name|] [steps|]]; split; try reflexivity;
    unfold steps_of_json; cbn; now rewrite steps_round_trip.
Qed.

Lemma isfile_run (path : string) w errs :
  isfile path (w, errs) = (inr (bool_decide (is_Some (files w !! path))), (w, errs)).
Proof. reflexivity. Qed.

Lemma load_chain_missing (self : AttackReplay) (path : string) w errs :
  files w !! path = None ->
  load_chain self path (w, errs) =
    (inr (false, self), (w, errs ++ ["Chain file not found: " +:+ path])).
Proof.
  intros Hm. unfold load_chain. rewrite run_bind, isfile_run, Hm.
  rewrite bool_decide_eq_false_2 by (intros [x Hx]; discriminate). reflexivity.
Qed.

(** X15. For a path that names no file, [load_chain] returns False and
    leaves the object as it was, and [automate_chain_replay] returns the
    empty path: no step is replayed, no report is written, and the two
    error lines are all that is logged. *)
Theorem missing_chain_file_aborts (self : AttackReplay) (path : string) mods w errs :
  files w !! path = None ->
  load_chain self path (w, errs) =
    (inr (false, self), (w, errs ++ ["Chain file not found: " +:+ path])) /\
  automate_chain_replay self path mods (w, errs) =
    (inr ("", self),
     (w, errs ++ ["Chain file not found: " +:+ path;
                  "Automated chain replay aborted: chain file not found or invalid."])).
Proof.
  intros Hm. split; [now apply load_chain_missing |].
  unfold automate_chain_replay.
  rewrite (run_bind_ok _ _ _ _ _ (load_chain_missing self path w errs Hm)).
  cbn [negb]. rewrite run_bind. unfold logging_error. cbn [fst snd].
  now rewrite <- app_assoc.
Qed.

Lemma load_chain_found (self : AttackReplay) (path : string) (doc : json) w errs :
  files w !! path = Some doc ->
  exists w',
    load_chain self path (w, errs) =
      (inr (true, {| chain_name := default "UnnamedChain" (get_str "name" doc);
                     chain_steps := default [] (steps_of_json doc);
                     log_file := log_file self |}), (w', errs)) /\
    files w' = files w /\ writable w' = writable w /\ mstate w' = mstate w.
Proof.
  intros Hf. unfold load_chain. rewrite run_bind, isfile_run, Hf.
  rewrite bool_decide_eq_true_2 by eauto. cbn [negb].
  assert (E : load_from path w = (inr doc, w)) by (unfold load_from; now rewrite Hf).
  rewrite (run_bind_ok _ _ _ _ _ (lift_ok _ _ _ errs _ E)).
  eexists. split; [reflexivity |]. auto.
Qed.

(** X16. Loading a chain file gives the object the name and the steps the
    file holds, with the defaults of a new object for what the file leaves
    out ("UnnamedChain", no steps). The log file of the object keeps the
    name it had before, and no file changes. *)
Theorem chain_file_is_read_back (self : AttackReplay) (path : string)
    (config : ReplayConfig) w errs :
  files w !! path = Some (chain_json config) ->
  exists self' w',
    load_chain self path (w, errs) = (inr (true, self'), (w', errs)) /\
    chain_name self' = chain_name (init (Some config)) /\
    chain_steps self' = chain_steps (init (Some config)) /\
    log_file self' = log_file self /\
    files w' = files w.
Proof.
  intros Hf. destruct (load_chain_found self path _ w errs Hf) as (w' & E & F & _).
  destruct (chain_round_trip config) as [Hn Hs].
  eexists _, w'. split; [exact E |]. cbn. rewrite Hn, Hs. auto.
Qed.



End LoadFacts.

Section LoadRuns.
Import PyStr PyM Replay ReplayLoad ReplayScenario LoadScenario.

(** The chain file t1 holds the document of the chain definition. *)
Example t1_document :
  chain_json t1 =
    JObj [("name", JStr "t1");
          ("chain_steps",
           JArr [JObj [("device_type", JStr "medical"); ("device_name", JStr "pump1");
                       ("action", JStr "exploit");
                       ("vuln", JObj [("type", JStr "buffer_overflow")])]])].
Proof. reflexivity. Qed.

(** With a medical module that always reports success, the automated
    replay of t1 writes a report with exactly one result, a success with
    an impact that is not empty. *)
Example t1_replayed :
  (automate_chain_replay (init None) "chains/t1.json" (Some registry) session).1 =
    inr ("t1_attackreplay_report.json",
         {| chain_name := "t1"; chain_steps := default [] (cfg_chain_steps t1);
            log_file := "attack_replay_UnnamedChain.log" |}) /\
  (json_get "results"
     <$> files (automate_chain_replay (init None) "chains/t1.json" (Some registry) session).2.1
           !! "t1_attackreplay_report.json") =
    Some (Some (JArr [JObj [("device", JStr "pump1"); ("action", JStr "exploit");
                            ("success", JBool true);
                            ("impact", JStr "Possible silent dosage override or device crash.");
                            ("log", JStr "Attack simulated")]])).
Proof. split; vm_compute; reflexivity. Qed.

Lemma missing_chain_file_aborts_witness :
  load_chain (init None) "chains/none.json" session =
    (inr (false, init None),
     (session.1, session.2 ++ ["Chain file not found: " +:+ "chains/none.json"])) /\
  automate_chain_replay (init None) "chains/none.json" (Some registry) session =
    (inr ("", init None),
     (session.1,
      session.2 ++ ["Chain file not found: " +:+ "chains/none.json";
                    "Automated chain replay aborted: chain file not found or invalid."])).
Proof.
  apply (missing_chain_file_aborts (init None) "chains/none.json" (Some registry)
           session.1 session.2).
  vm_compute. reflexivity.
Defined.

Lemma chain_file_is_read_back_witness :
  exists self' w',
    load_chain (init None) "chains/t1.json" session = (inr (true, self'), (w', session.2)) /\
    chain_name self' = chain_name (init (Some t1)) /\
    chain_steps self' = chain_steps (init (Some t1)) /\
    log_file self' = log_file (init None) /\
    files w' = files session.1.
Proof.
  apply (chain_file_is_read_back (init None) "chains/t1.json" t1 session.1 session.2).
  vm_compute. reflexivity.
Defined.


End LoadRuns.

Section ProtocolFacts.
Import PyStr PyM HIL SandboxFrame.

(** What the guarded block leaves in the trace and in the process table. *)
Lemma guarded_body_events (env : Env) (self : HILEmulator) (d fw pl : string) (w : World) :
  exists evs,
    trace (guarded_body env self d fw pl w).2 = trace w ++ evs /\
    body_events fw pl evs /\
    (procs (guarded_body env self d fw pl w).2 = procs w \/
     exists cmd st, procs (guarded_body env self d fw pl w).2 = procs w ++ [Proc cmd st]).
Proof.
  unfold guarded_body, try_except. cbv zeta. unfold body_events.
  rewrite run_bind.
  pose proof (copy2_cases fw (join d (basename fw)) w) as C1. cbv zeta in C1.
  set (a := if is_dir (fs w) (join d (basename fw))
            then join (join d (basename fw)) (basename fw) else join d (basename fw)) in C1.
  destruct C1 as [[e ->]|[(m & da & _ & ->)|(e & m & da & _ & ->)]].
  { exists []. cbn. rewrite app_nil_r. auto. }
  2:{ exists []. cbn. rewrite app_nil_r. auto. }
  rewrite run_bind.
  set (w1 := emit (EvCopy fw a) (set_fs (insert a (File m da)) w)).
  pose proof (copy2_cases pl (join d (basename pl)) w1) as C2. cbv zeta in C2.
  set (b := if is_dir (fs w1) (join d (basename pl))
            then join (join d (basename pl)) (basename pl) else join d (basename pl)) in C2.
  destruct C2 as [[e ->]|[(m2 & db & _ & ->)|(e & m2 & db & _ & ->)]].
  { exists [EvCopy fw a]. rewrite ?run_bind. cbn. eauto 10. }
  2:{ exists [EvCopy fw a]. rewrite ?run_bind. cbn. eauto 10. }
  rewrite run_bind, (_build_qemu_cmd_world _ _ _ _ w).
  destruct ((_build_qemu_cmd self _ _ w).1) as [e|cmd].
  { exists [EvCopy fw a; EvCopy pl b]. rewrite ?run_bind. cbn. rewrite <- ?app_assoc. eauto 10. }
  rewrite !run_bind. cbn [logging]. unfold Popen.
  destruct (child env cmd) as [msg|[out err code|]].
  - exists [EvCopy fw a; EvCopy pl b]. rewrite ?run_bind. cbn. rewrite <- ?app_assoc. eauto 10.
  - exists [EvCopy fw a; EvCopy pl b; EvSpawn cmd].
    repeat first [rewrite run_bind | progress cbn].
    rewrite <- ?app_assoc. split; [reflexivity |]. split; [eauto 10 |]. right.
    exists cmd, (Exited code).
    rewrite insert_app_r_alt by lia. now rewrite Nat.sub_diag.
  - exists [EvCopy fw a; EvCopy pl b; EvSpawn cmd].
    repeat first [rewrite run_bind | progress cbn].
    rewrite <- ?app_assoc. split; [reflexivity |]. split; [eauto 10 |]. eauto.
Qed.

(** X18. A call of [_run_qemu] asks the operating system for nothing, or
    for a temporary directory first and its removal last; in between come,
    in this order and stopping at the first failure, the copy of the
    firmware, the copy of the payload and the start of one child. At most
    one process is added to the process table. *)
Theorem sandbox_steps_in_order (env : Env) (self : HILEmulator) (w : World) :
  exists evs,
    trace (_run_qemu env self w).2 = trace w ++ evs /\
    (evs = [] \/
     exists d fw pl body,
       firmware_path self = Some fw /\ payload_path self = Some pl /\
       evs = [EvMkdtemp d] ++ body ++ [EvRmtree d] /\ body_events fw pl body) /\
    (procs (_run_qemu env self w).2 = procs w \/
     exists cmd st, procs (_run_qemu env self w).2 = procs w ++ [Proc cmd st]).
Proof.
  rewrite _run_qemu_unfold, run_bind.
  destruct (names_file w (firmware_path self)) eqn:Ef.
  2:{ rewrite (require_file_missing _ _ _ Ef). exists []. cbn. rewrite app_nil_r. auto. }
  apply require_file_ok with (what := "Firmware") in Ef as (fw & Hfw & ->).
  rewrite run_bind.
  destruct (names_file w (payload_path self)) eqn:Ep.
  2:{ rewrite (require_file_missing _ _ _ Ep). exists []. cbn. rewrite app_nil_r. auto. }
  apply require_file_ok with (what := "Payload") in Ep as (pl & Hpl & ->).
  rewrite run_bind.
  destruct (mkdtemp_cases env w) as [[e ->]|(d & _ & ->)].
  { exists []. cbn. rewrite app_nil_r. auto. }
  set (w1 := emit (EvMkdtemp d) (set_fs (insert d Dir) w)).
  destruct (sandbox_always_returns env self d fw pl w1) as (r & w4 & Hg & ->).
  { apply lookup_insert_eq. }
  destruct (guarded_body_events env self d fw pl w1) as (body & T & Hb & P).
  rewrite Hg in T, P. cbn [snd] in T, P.
  exists ([EvMkdtemp d] ++ body ++ [EvRmtree d]). split; [|split].
  - cbn. rewrite T. cbn. now rewrite <- !app_assoc.
  - right. exists d, fw, pl, body. auto.
  - exact P.
Qed.

(** X8. A firmware image that exists but may not be read gets past the
    guards: the temporary directory is made, the copy is refused, and the
    refusal comes back as the error result of a denied permission, which
    names the firmware path as [repr] writes it; no process is started, and
    the directory is removed. *)
Theorem unreadable_firmware_is_returned
    (env : Env) (self : HILEmulator) (w : World) (d fw pl : string) (m : perms)
    (data : string) :
  firmware_path self = Some fw -> payload_path self = Some pl ->
  names_file w (Some fw) = true -> names_file w (Some pl) = true ->
  fs w !! fw = Some (File m data) -> may_read m = false ->
  draws env w d -> lands_in w d fw = true ->
  exists w',
    _run_qemu env self w =
      (inr (error_result ("[Errno 13] Permission denied: " +:+ repr fw)), w') /\
    procs w' = procs w /\
    trace w' = trace w ++ [EvMkdtemp d; EvRmtree d] /\
    forall p, under d p = true -> fs w' !! p = None.
Proof.
  intros Hf Hp Nf Np Hdata Hr Hd Hl. rewrite _run_qemu_unfold, Hf, Hp.
  destruct (require_file_ok "Firmware" (Some fw) w Nf) as (? & [= <-] & E1).
  destruct (require_file_ok "Payload" (Some pl) w Np) as (? & [= <-] & E2).
  rewrite (run_bind_ok _ _ _ _ _ E1), (run_bind_ok _ _ _ _ _ E2), run_bind.
  rewrite (mkdtemp_draws _ _ _ Hd).
  pose proof (draws_unused _ _ _ Hd) as Hfree.
  apply lands_in_spec in Hl as [Nt Ft].
  set (w1 := emit (EvMkdtemp d) (set_fs (insert d Dir) w)).
  assert (Hg : guarded_body env self d fw pl w1 =
               (inr (error_result ("[Errno 13] Permission denied: " +:+ repr fw)),
                (logging (Error ("QEMU run failed: " +:+ "[Errno 13] Permission denied: "
                                 +:+ repr fw)) w1).2)).
  { unfold guarded_body, try_except. cbv zeta. fold (copy_target d fw).
    rewrite run_bind. unfold copy2 at 1.
    assert (fs w1 !! fw = Some (File m data)) as ->.
    { unfold w1. cbn. rewrite lookup_insert_ne; [assumption | congruence]. }
    rewrite is_dir_unused by (unfold w1; cbn; now rewrite lookup_insert_ne).
    destruct (String.eqb_spec fw (copy_target d fw)) as [Heq|_]; [congruence |].
    rewrite Hr. reflexivity. }
  unfold try_finally. rewrite Hg. rewrite rmtree_dir by (cbn; apply lookup_insert_eq).
  eexists. split; [reflexivity |]. split; [reflexivity |].
  split; [cbn; now rewrite <- app_assoc |].
  intros p Hu. cbn. now apply rmtree_clears.
Qed.

Lemma unreadable_firmware_is_returned_witness :
  exists w',
    _run_qemu Scenario.env_hanging (Scenario.emulator "arm")
      (Scenario.world Scenario.disk_locked) =
      (inr (error_result ("[Errno 13] Permission denied: " +:+ repr "fw.bin")), w') /\
    procs w' = procs (Scenario.world Scenario.disk_locked) /\
    trace w' = trace (Scenario.world Scenario.disk_locked)
               ++ [EvMkdtemp "/tmp/tmpk3_x9a2b"; EvRmtree "/tmp/tmpk3_x9a2b"] /\
    forall p, under "/tmp/tmpk3_x9a2b" p = true -> fs w' !! p = None.
Proof.
  apply (unreadable_firmware_is_returned Scenario.env_hanging (Scenario.emulator "arm")
           (Scenario.world Scenario.disk_locked) "/tmp/tmpk3_x9a2b" "fw.bin"
           "/srv/payload.sh" Scenario.locked "FW");
    try (vm_compute; reflexivity).
  unfold draws. auto.
Defined.

(** A firmware path with a quote in it is named in double quotes. *)
Example quoted_firmware_path :
  let disk : gmap string node :=
    <["it's.bin" := File Scenario.locked "FW"]> (<["/srv/payload.sh" := File own_rw "PL"]> ∅) in
  let self := init {| cfg_arch := None; cfg_firmware_path := Some "it's.bin";
                      cfg_payload_path := Some "/srv/payload.sh"; cfg_fpga_enabled := None;
                      cfg_qemu_path := None; cfg_log_file := None |} in
  (_run_qemu Scenario.env_hanging self (Scenario.world disk)).1 =
    inr (error_result (String.append "[Errno 13] Permission denied: "
                         (String "034" (String.append "it's.bin" (String "034" ""))))).
Proof. vm_compute. reflexivity. Qed.

(** X19. A payload given to [run] replaces the configured one for good: the
    emulator [run] hands back has it as its payload path, and running that
    emulator without a payload is the same run again. An empty payload is
    no payload. *)
Theorem payload_override_persists
    (env : Env) (self self1 : HILEmulator) (p : string) (w w1 : World)
    (r : ExecutionResult) :
  p <> "" ->
  run env self (Some p) w = (inr (self1, r), w1) ->
  payload_path self1 = Some p /\
  (forall env' w', run env' self1 None w' = run env' self (Some p) w') /\
  (forall env' w', run env' self (Some "") w' = run env' self None w').
Proof.
  intros Hp Hrun.
  assert (Hself : self1 = with_payload (Some p) self).
  { unfold run in Hrun. cbv zeta in Hrun. rewrite run_bind in Hrun.
    destruct (if fpga_enabled _ then _ else _) as [[e|r0] w0]; [discriminate |].
    rewrite run_bind, _calculate_risk_run in Hrun. now injection Hrun as <- _ _. }
  assert (Hwith : with_payload (Some p) self = set_payload_path (Some p) self).
  { unfold with_payload. now rewrite truthy_str_named. }
  split; [now rewrite Hself, Hwith |].
  split; [|reflexivity].
  intros env' w'. unfold run. cbv zeta. now rewrite Hself.
Qed.

Lemma payload_override_persists_witness :
  payload_path (set_payload_path (Some "/srv/payload.sh") (Scenario.emulator "arm"))
    = Some "/srv/payload.sh" /\
  (forall env' w',
      run env' (set_payload_path (Some "/srv/payload.sh") (Scenario.emulator "arm")) None w'
      = run env' (Scenario.emulator "arm") (Some "/srv/payload.sh") w') /\
  (forall env' w',
      run env' (Scenario.emulator "arm") (Some "") w'
      = run env' (Scenario.emulator "arm") None w').
Proof.
  apply (payload_override_persists Scenario.env_panic (Scenario.emulator "arm")
           (set_payload_path (Some "/srv/payload.sh") (Scenario.emulator "arm"))
           "/srv/payload.sh" (Scenario.world Scenario.disk)
           (run Scenario.env_panic (Scenario.emulator "arm") (Some "/srv/payload.sh")
              (Scenario.world Scenario.disk)).2
           (set_risk_score 0.9 (completed_result "booting"
                                  "ERROR: Kernel PANIC - not syncing" 1))).
  - discriminate.
  - vm_compute. reflexivity.
Defined.

End ProtocolFacts.

Section CopyFacts.
Import PyStr PyM HIL SandboxFrame.

(** X21. The copy of the firmware carries the permission bits of the
    firmware. When the two inputs have one base name, the payload is copied
    over the copy of the firmware; if the owner's write bit of the firmware
    is not set, this second copy is refused, and the refusal comes back as
    the error result of a denied permission on the path of the copy. No
    process is started, and the directory is removed. *)
Theorem shared_base_name_copy_is_refused
    (env : Env) (self : HILEmulator) (w : World) (d fw pl : string) :
  firmware_path self = Some fw -> payload_path self = Some pl ->
  names_readable_file w (Some fw) = true -> names_readable_file w (Some pl) = true ->
  draws env w d -> lands_in w d fw = true ->
  basename fw = basename pl -> copy_writable w fw = false ->
  exists w',
    _run_qemu env self w =
      (inr (error_result ("[Errno 13] Permission denied: " +:+ repr (copy_target d pl))), w') /\
    procs w' = procs w /\
    trace w' = trace w ++ [EvMkdtemp d; EvCopy fw (copy_target d fw); EvRmtree d] /\
    forall p, under d p = true -> fs w' !! p = None.
Proof.
  intros Hf Hp Rf Rp Hd Hl Hbase Hw. rewrite _run_qemu_unfold, Hf, Hp.
  destruct (require_file_ok "Firmware" (Some fw) w) as (? & [= <-] & E1);
    [now apply names_readable_file_names |].
  destruct (require_file_ok "Payload" (Some pl) w) as (? & [= <-] & E2);
    [now apply names_readable_file_names |].
  rewrite (run_bind_ok _ _ _ _ _ E1), (run_bind_ok _ _ _ _ _ E2), run_bind.
  rewrite (mkdtemp_draws _ _ _ Hd).
  pose proof (draws_unused _ _ _ Hd) as Hfree.
  apply names_readable_file_lookup in Rf as [_ (mf & fdata & Hfw & Rf)].
  apply names_readable_file_lookup in Rp as [_ (mp & pdata & Hpl & Rp)].
  apply lands_in_spec in Hl as [Nt Ft].
  assert (Ht : copy_target d pl = copy_target d fw) by (unfold copy_target; now rewrite Hbase).
  unfold copy_writable in Hw. rewrite Hfw in Hw.
  set (w1 := emit (EvMkdtemp d) (set_fs (insert d Dir) w)).
  assert (C1 : copy2 fw (copy_target d fw) w1 =
               (inr tt, emit (EvCopy fw (copy_target d fw))
                          (set_fs (insert (copy_target d fw) (File (as_own mf) fdata)) w1))).
  { apply copy2_run; [|exact Rf|].
    - simpl. rewrite lookup_insert_ne; [assumption | congruence].
    - simpl. now rewrite lookup_insert_ne. }
  set (w2 := emit (EvCopy fw (copy_target d fw))
               (set_fs (insert (copy_target d fw) (File (as_own mf) fdata)) w1)) in C1.
  assert (C2 : copy2 pl (copy_target d pl) w2 =
               (inl (Exn PermissionError
                       ("[Errno 13] Permission denied: " +:+ repr (copy_target d pl))), w2)).
  { assert (Htarget : fs w2 !! copy_target d pl = Some (File (as_own mf) fdata))
      by (rewrite Ht; simpl; apply lookup_insert_eq).
    unfold copy2. rewrite (is_dir_file _ _ _ _ Htarget), Htarget.
    assert (fs w2 !! pl = Some (File mp pdata)) as ->.
    { simpl. rewrite !lookup_insert_ne; [assumption | congruence | congruence]. }
    destruct (String.eqb_spec pl (copy_target d pl)) as [Heq|_]; [congruence |].
    rewrite Rp. unfold may_write. cbn [mine as_own user_w]. rewrite Hw. reflexivity. }
  assert (Hg : guarded_body env self d fw pl w1 =
               (inr (error_result ("[Errno 13] Permission denied: "
                                   +:+ repr (copy_target d pl))),
                (logging (Error ("QEMU run failed: " +:+ "[Errno 13] Permission denied: "
                                 +:+ repr (copy_target d pl))) w2).2)).
  { unfold guarded_body, try_except. cbv zeta. fold (copy_target d fw) (copy_target d pl).
    rewrite (run_bind_ok _ _ _ _ _ C1), (run_bind_raise _ _ _ _ _ C2). reflexivity. }
  unfold try_finally. rewrite Hg.
  rewrite rmtree_dir.
  2:{ cbn. rewrite lookup_insert_ne by congruence. apply lookup_insert_eq. }
  eexists. split; [reflexivity |]. split; [reflexivity |].
  split; [cbn; now rewrite <- !app_assoc |].
  intros p Hu. cbn. now apply rmtree_clears.
Qed.

Lemma shared_base_name_copy_is_refused_witness :
  exists w',
    _run_qemu Scenario.env_hanging Scenario.emulator_shared
      (Scenario.world Scenario.disk_shared) =
      (inr (error_result ("[Errno 13] Permission denied: "
                          +:+ repr (copy_target "/tmp/tmpk3_x9a2b" "b/x.bin"))), w') /\
    procs w' = procs (Scenario.world Scenario.disk_shared) /\
    trace w' = trace (Scenario.world Scenario.disk_shared)
               ++ [EvMkdtemp "/tmp/tmpk3_x9a2b";
                   EvCopy "a/x.bin" (copy_target "/tmp/tmpk3_x9a2b" "a/x.bin");
                   EvRmtree "/tmp/tmpk3_x9a2b"] /\
    forall p, under "/tmp/tmpk3_x9a2b" p = true -> fs w' !! p = None.
Proof.
  apply (shared_base_name_copy_is_refused Scenario.env_hanging Scenario.emulator_shared
           (Scenario.world Scenario.disk_shared) "/tmp/tmpk3_x9a2b" "a/x.bin" "b/x.bin");
    try (vm_compute; reflexivity).
  unfold draws. auto.
Defined.

(** The two inputs of one base name, with a firmware that is read-only:
    the run ends with the refusal of the second copy. *)
Example read_only_firmware_blocks_payload :
  (run Scenario.env_hanging Scenario.emulator_shared None
     (Scenario.world Scenario.disk_shared)).1 =
    inr (Scenario.emulator_shared,
         set_risk_score 0.2
           (error_result "[Errno 13] Permission denied: '/tmp/tmpk3_x9a2b/x.bin'")).
Proof. vm_compute. reflexivity. Qed.

(** Writing over a file of another user: the data is written, and the
    copy of the times and permission bits is refused. *)
Example copy_over_foreign_file :
  let foreign : perms :=
    {| mine := false; user_r := true; user_w := true; other_r := true; other_w := true |} in
  let w := Scenario.world (<["out.bin" := File foreign "OLD"]> Scenario.disk) in
  copy2 "fw.bin" "out.bin" w =
    (inl (Exn PermissionError "[Errno 1] Operation not permitted"),
     set_fs (insert "out.bin" (File foreign "FW")) w) /\
  (copy2 "fw.bin" "fw.bin" w).1 =
    inl (Exn SameFileError "'fw.bin' and 'fw.bin' are the same file").
Proof. split; vm_compute; reflexivity. Qed.

End CopyFacts.

Section ModuleSteps.
Import PyStr PyM Replay.
Context {W : Type}.
Implicit Types (w : World W).

Lemma find_module_registered (registry : gmap string (ExploitModule W))
    (device_type : string) (module : ExploitModule W) :
  registry !! device_type = Some module ->
  find_module (Some registry) device_type = Some module.
Proof.
  intros Hm. unfold find_module.
  destruct (Nat.eqb_spec (size registry) 0) as [Hz|_]; [|exact Hm].
  apply map_size_empty_iff in Hz. subst registry. now rewrite lookup_empty in Hm.
Qed.

(** X20. A step with a registered module and a vulnerability that counts
    as true is handed to the module: the exploit is crafted from the
    vulnerability and the options of the step (an empty object when the
    step has none), then the attack is simulated on it, the state of the
    modules passing from the first call to the second. When both calls
    return, the result takes success, impact and log from what the module
    returned; a missing success counts as a failure, a missing impact reads
    "N/A", a missing log is empty. No file and no log line changes. *)
Theorem module_outcome_is_copied (registry : gmap string (ExploitModule W))
    (module : ExploitModule W) (step : ChainStep) (v exploit : json) (sim : SimResult)
    (s1 s2 : W) w :
  registry !! default "generic" (step_device_type step) = Some module ->
  step_vuln step = Some v -> truthy v = true ->
  craft_exploit module v (default (JObj []) (step_options step)) (mstate w)
    = (inr exploit, s1) ->
  simulate_attack module exploit s1 = (inr sim, s2) ->
  exists w',
    replay_step (Some registry) step w =
      (inr {| device := default "unknown" (step_device_name step);
              action := default "unknown" (step_action step);
              success := default false (sim_success sim);
              impact := default "N/A" (sim_impact sim);
              log_line := default "" (sim_log sim) |}, w') /\
    mstate w' = s2 /\ files w' = files w /\ log w' = log w.
Proof.
  intros Hm Hv Ht Hcraft Hsim. unfold replay_step. cbv zeta.
  rewrite (find_module_registered _ _ _ Hm), Hv. cbn [usable_vuln]. rewrite Ht.
  rewrite run_bind. unfold call at 1. rewrite Hcraft. cbn [fst snd].
  rewrite run_bind. unfold call. cbn [mstate]. rewrite Hsim.
  eexists. split; [reflexivity |]. auto.
Qed.

(** What a method of the module raises is what the step raises: the first
    call's error comes before the second call is made. *)
Lemma module_error_is_raised (registry : gmap string (ExploitModule W))
    (module : ExploitModule W) (step : ChainStep) (v : json) (e : exn) (s1 : W) w :
  registry !! default "generic" (step_device_type step) = Some module ->
  step_vuln step = Some v -> truthy v = true ->
  craft_exploit module v (default (JObj []) (step_options step)) (mstate w) = (inl e, s1) ->
  (replay_step (Some registry) step w).1 = inl e.
Proof.
  intros Hm Hv Ht Hcraft. unfold replay_step. cbv zeta.
  rewrite (find_module_registered _ _ _ Hm), Hv. cbn [usable_vuln]. rewrite Ht.
  rewrite run_bind. unfold call at 1. now rewrite Hcraft.
Qed.

End ModuleSteps.

Section ModuleStepRuns.
Import PyStr PyM Replay ReplayScenario.

(** A module that returns an empty dict. *)
Example silent_module_counts_as_failure :
  (replay_step
     (Some (<["medical" := {| craft_exploit := fun _ _ n => (inr JNull, n);
                              simulate_attack := fun _ n =>
                                (inr {| sim_success := None; sim_impact := None;
                                        sim_log := None |}, n) |}]> ∅))
     (step "medical" "pump1" (Some overflow)) world).1 =
    inr {| device := "pump1"; action := "exploit"; success := false;
           impact := "N/A"; log_line := "" |}.
Proof. vm_compute. reflexivity. Qed.

Lemma module_outcome_is_copied_witness :
  exists w',
    replay_step (Some registry) (step "automotive" "ecu7" (Some overflow)) world =
      (inr {| device := default "unknown"
                          (step_device_name (step "automotive" "ecu7" (Some overflow)));
              action := default "unknown"
                          (step_action (step "automotive" "ecu7" (Some overflow)));
              success := default false (sim_success
                                          {| sim_success := Some false;
                                             sim_impact := Some "Unknown impact.";
                                             sim_log := Some "Attack simulated" |});
              impact := default "N/A" (sim_impact
                                         {| sim_success := Some false;
                                            sim_impact := Some "Unknown impact.";
                                            sim_log := Some "Attack simulated" |});
              log_line := default "" (sim_log
                                        {| sim_success := Some false;
                                           sim_impact := Some "Unknown impact.";
                                           sim_log := Some "Attack simulated" |}) |}, w') /\
    mstate w' = 2 /\ files w' = files world /\ log w' = log world.
Proof.
  apply (module_outcome_is_copied registry (always false "Unknown impact.")
           (step "automotive" "ecu7" (Some overflow)) overflow
           (JObj [("vuln_type", JStr "buffer_overflow"); ("options", JObj [])])
           {| sim_success := Some false; sim_impact := Some "Unknown impact.";
              sim_log := Some "Attack simulated" |} 1 2 world);
    vm_compute; reflexivity.
Defined.

End ModuleStepRuns.
